(** * IndiVest: portfolio risk analytics

    A shallow embedding of the risk pipeline of the IndiVest backend:

    - [backend/app/services/analysis_service.py]
      ([calculate_var], [calculate_portfolio_var]);
    - [backend/app/routers/risk_analysis.py]
      ([analyze_portfolio_risk], [generate_recommendations]).

    Python floats and numpy's [float64] are IEEE 754 binary64 numbers; they
    are modelled by Rocq's primitive binary64 floats, so that rounding,
    infinities, NaN and the comparisons with NaN behave as in the source.
    Python exceptions are values of [exn], and a computation that may raise
    returns a [result].

    What the source calls in numpy and pandas is written out as those
    libraries document it ([np.sort], [mean], [std], [var], [pct_change],
    [dropna], [dot], [corr]); sums run from the first element to the last.
    What lies outside the process is a variable of a section: the price
    provider [yf.download], the covariance estimator [LedoitWolf] and the
    clock. *)

From Stdlib Require Import String Ascii.
From Stdlib Require Import ZArith List Bool Lia Permutation Sorted.
From Stdlib Require Import Uint63 Floats DecimalString.
From Stdlib Require DecimalPos DecimalZ.
Import ListNotations.

Set Warnings "-inexact-float".

Local Open Scope string_scope.
Local Open Scope list_scope.
Local Open Scope Z_scope.

(** ** Exceptions and the result monad *)

Inductive exn : Type :=
| TypeError (msg : string)
| NameError (name : string)
| KeyError (key : string)
| IndexError (msg : string)
| ValueError (msg : string)
| OverflowError (msg : string)
| HTTPException (status_code : Z) (detail : string)
| Exception (msg : string).

Inductive result (A : Type) : Type :=
| Ok (a : A)
| Raise (e : exn).

Arguments Ok {A} a.
Arguments Raise {A} e.

Definition bind {A B : Type} (c : result A) (k : A -> result B) : result B :=
  match c with
  | Ok a => k a
  | Raise e => Raise e
  end.

Definition fmap {A B : Type} (f : A -> B) (c : result A) : result B :=
  bind c (fun a => Ok (f a)).

Notation "x <- c ;; k" := (bind c (fun x => k))
  (at level 61, c at next level, right associativity).
Notation "' p <- c ;; k" := (bind c (fun x => let p := x in k))
  (at level 61, p pattern, c at next level, right associativity).

(** [try: body except Exception as e: handler e]. *)
Definition try_except {A : Type} (body : result A) (handler : exn -> result A)
  : result A :=
  match body with
  | Ok a => Ok a
  | Raise e => handler e
  end.

(** [str(e)] for the exceptions above.  The messages are those of Python,
    numpy and pandas; no property below depends on the text of a library's
    message. *)
Definition str_exn (e : exn) : string :=
  match e with
  | TypeError m | IndexError m | ValueError m | OverflowError m | Exception m => m
  | NameError n => "name '" ++ n ++ "' is not defined"
  | KeyError k => "'" ++ k ++ "'"
  | HTTPException _ d => d
  end.

(** ** binary64 numbers *)

Definition is_finiteSF (f : spec_float) : bool :=
  match f with
  | S754_zero _ | S754_finite _ _ _ => true
  | S754_infinity _ | S754_nan => false
  end.

(** The integer obtained from a finite float by dropping its fraction. *)
Definition truncSF (f : spec_float) : Z :=
  match f with
  | S754_finite s m e =>
      let mag := Z.shiftl (Zpos m) e in
      if s then - mag else mag
  | _ => 0
  end.

(** The integer nearest to [a * 2^e], a tie going to the even one
    ([0 <= a]). *)
Definition round_half_even_scaled (a e : Z) : Z :=
  if 0 <=? e then Z.shiftl a e
  else
    let d := Z.shiftl 1 (- e) in
    let q := a / d in
    let r := a mod d in
    match 2 * r ?= d with
    | Lt => q
    | Gt => q + 1
    | Eq => if Z.even q then q else q + 1
    end.

(** The integer nearest to a finite float, a tie going to the even one. *)
Definition round_half_evenSF (f : spec_float) : Z :=
  match f with
  | S754_finite s m e =>
      let mag := round_half_even_scaled (Zpos m) e in
      if s then - mag else mag
  | _ => 0
  end.

Definition float_to_int (conv : spec_float -> Z) (x : float) : result Z :=
  match Prim2SF x with
  | S754_nan => Raise (ValueError "cannot convert float NaN to integer")
  | S754_infinity _ => Raise (OverflowError "cannot convert float infinity to integer")
  | f => Ok (conv f)
  end.

(** [int(x)] and [round(x)] of a float. *)
Definition py_int : float -> result Z := float_to_int truncSF.
Definition py_round : float -> result Z := float_to_int round_half_evenSF.

(** An [int] used in float arithmetic ([len(xs)], [252], [1/len(xs)]). *)
Definition float_of_Z (n : Z) : float := of_uint63 (Uint63.of_Z n).
Definition float_of_nat (n : nat) : float := float_of_Z (Z.of_nat n).

(** [math.isfinite]. *)
Definition isfinite (x : float) : bool := is_finiteSF (Prim2SF x).

(** Truth value of a float: only zero (of either sign) is false. *)
Definition truthy (x : float) : bool := negb (x =? 0)%float.

(** [str(n)] of an [int], and a float under the format [.2f]. *)
Definition string_of_Z (n : Z) : string := NilZero.string_of_int (Z.to_int n).

Definition format_2f (x : float) : string :=
  match Prim2SF x with
  | S754_nan => "nan"
  | S754_infinity s => if s then "-inf" else "inf"
  | S754_zero s => if s then "-0.00" else "0.00"
  | S754_finite s m e =>
      let n := round_half_even_scaled (100 * Zpos m) e in
      let frac := n mod 100 in
      (if s then "-" else "") ++ string_of_Z (n / 100) ++ "."
        ++ (if frac <? 10 then "0" else "") ++ string_of_Z frac
  end.

Definition notnan (x : float) : bool := negb (is_nan x).

(** ** numpy and pandas on one-dimensional data

    An array or a [Series] is the list of its values.  Sums run from the
    first element to the last. *)

Local Open Scope float_scope.

Definition np_sum (xs : list float) : float := fold_left add xs 0.

Definition np_sqrt (x : float) : float := sqrt x.

(** [len(xs)] as it enters float arithmetic. *)
Definition flen (xs : list float) : float := float_of_nat (length xs).

(** [Series.sum()], [Series.mean()], [Series.var(ddof)] and
    [Series.std(ddof)]: missing values (NaN) are skipped; too few values
    give NaN. *)
Definition pd_sum (xs : list float) : float := np_sum (filter notnan xs).

Definition pd_mean (xs : list float) : float :=
  let v := filter notnan xs in
  np_sum v / flen v.

Definition pd_var (ddof : nat) (xs : list float) : float :=
  let v := filter notnan xs in
  let count := length v in
  if (count <=? ddof)%nat then nan
  else
    let avg := np_sum v / float_of_nat count in
    let sqr := map (fun x => (avg - x) * (avg - x)) v in
    np_sum sqr / float_of_nat (count - ddof).

Definition pd_std (ddof : nat) (xs : list float) : float :=
  np_sqrt (pd_var ddof xs).

(** [np.mean] and [np.std] applied to a [Series] defer to the methods of the
    [Series]; [np.std] passes [ddof=0]. *)
Definition np_mean_series (xs : list float) : float := pd_mean xs.
Definition np_std_series (xs : list float) : float := pd_std 0 xs.

(** [np.mean] of a plain array; the empty array gives NaN. *)
Definition np_mean (xs : list float) : float := np_sum xs / flen xs.

(** The order of [np.sort]: ascending, NaN last. *)
Definition np_le (x y : float) : bool :=
  if is_nan y then true
  else if is_nan x then false
  else x <=? y.

Fixpoint insert (x : float) (l : list float) : list float :=
  match l with
  | [] => [x]
  | y :: l' => if np_le x y then x :: l else y :: insert x l'
  end.

Definition np_sort (xs : list float) : list float := fold_right insert [] xs.

(** Two neighbours in ascending order. *)
Definition ascending (x y : float) : Prop := np_le x y = true.

(** [a[i]] for an integer [i]: negative positions count from the end. *)
Definition np_getitem (a : list float) (i : Z) : result float :=
  let n := Z.of_nat (length a) in
  if ((0 <=? i) && (i <? n))%Z then Ok (nth (Z.to_nat i) a nan)
  else if ((- n <=? i) && (i <? 0))%Z then Ok (nth (Z.to_nat (n + i)) a nan)
  else Raise (IndexError ("index " ++ string_of_Z i
                          ++ " is out of bounds for axis 0 with size "
                          ++ string_of_Z n)).

Fixpoint map2 {A B C : Type} (f : A -> B -> C) (xs : list A) (ys : list B)
  : list C :=
  match xs, ys with
  | x :: xs', y :: ys' => f x y :: map2 f xs' ys'
  | _, _ => []
  end.

(** ** Data frames

    A [DataFrame] is the list of its columns, each a symbol with the series
    of its values; all columns have the same length (one value per date). *)

Definition DataFrame : Type := list (string * list float).

Definition nrows (df : DataFrame) : nat :=
  match df with
  | [] => 0
  | (_, c) :: _ => length c
  end.

(** [df[symbol]]. *)
Fixpoint df_getitem (df : DataFrame) (symbol : string) : result (list float) :=
  match df with
  | [] => Raise (KeyError symbol)
  | (name, c) :: df' => if String.eqb name symbol then Ok c else df_getitem df' symbol
  end.

(** [Series.ffill()]: a missing value takes the last value seen before it. *)
Fixpoint ffill_from (last : float) (xs : list float) : list float :=
  match xs with
  | [] => []
  | x :: xs' =>
      let v := if is_nan x then last else x in
      v :: ffill_from v xs'
  end.

Definition ffill (xs : list float) : list float := ffill_from nan xs.

(** [pct_change()] with its default [fill_method='pad']: the padded series
    divided by itself one date earlier, minus 1; the first date has no
    earlier one. *)
Definition pct_change_series (xs : list float) : list float :=
  match ffill xs with
  | [] => []
  | p :: ps => nan :: map2 (fun cur prev => cur / prev - 1) ps (p :: ps)
  end.

Definition pct_change (df : DataFrame) : DataFrame :=
  map (fun '(name, c) => (name, pct_change_series c)) df.

(** [dropna()]: the dates on which some column is missing are removed from
    every column. *)
Definition mask_step (m : list bool) (c : string * list float) : list bool :=
  let '(_, series) := c in map2 andb m (map notnan series).

Definition row_mask (df : DataFrame) : list bool :=
  fold_left mask_step df (repeat true (nrows df)).

Fixpoint select (mask : list bool) (xs : list float) : list float :=
  match mask, xs with
  | b :: mask', x :: xs' => if b then x :: select mask' xs' else select mask' xs'
  | _, _ => []
  end.

Definition dropna (df : DataFrame) : DataFrame :=
  let mask := row_mask df in
  map (fun '(name, c) => (name, select mask c)) df.

(** A frame is well formed when its columns have one value per date. *)
Definition well_formed (df : DataFrame) : Prop :=
  Forall (fun c => length (snd c) = nrows df) df.

(** The number of dates [dropna()] keeps. *)
Definition kept_rows (df : DataFrame) : nat :=
  length (filter (fun b : bool => b) (row_mask df)).

(** [df.dot(w)]: one value per date, the weighted sum over the columns. *)
Definition dot (df : DataFrame) (w : list float) : result (list float) :=
  if (length df =? length w)%nat then
    Ok (fold_left (fun acc '((_, c), wj) => map2 add acc (map (fun x => x * wj) c))
                  (combine df w) (repeat 0 (nrows df)))
  else Raise (ValueError ("Dot product shape mismatch, ("
                          ++ string_of_Z (Z.of_nat (nrows df)) ++ ", "
                          ++ string_of_Z (Z.of_nat (length df)) ++ ") vs ("
                          ++ string_of_Z (Z.of_nat (length w)) ++ ",)")).

(** [DataFrame.corr()]: the Pearson correlation of each pair of columns over
    the dates on which both are finite, by running moments; an entry above
    the diagonal is the mirror image of the one below it. *)
Record moments : Type := {
  nobs : nat;
  meanx : float;
  meany : float;
  ssqdm_x : float;
  ssqdm_y : float;
  covxy : float
}.

Definition moments0 : moments :=
  {| nobs := 0; meanx := 0; meany := 0; ssqdm_x := 0; ssqdm_y := 0; covxy := 0 |}.

Definition corr_step (s : moments) (v : float * float) : moments :=
  let '(vx, vy) := v in
  if is_finite vx && is_finite vy then
    let n := S (nobs s) in
    let dx := vx - meanx s in
    let dy := vy - meany s in
    let mx := meanx s + 1 / float_of_nat n * dx in
    let my := meany s + 1 / float_of_nat n * dy in
    {| nobs := n; meanx := mx; meany := my;
       ssqdm_x := ssqdm_x s + (vx - mx) * dx;
       ssqdm_y := ssqdm_y s + (vy - my) * dy;
       covxy := covxy s + (vx - mx) * dy |}
  else s.

Definition pearson (x y : list float) : float :=
  let s := fold_left corr_step (combine x y) moments0 in
  if (nobs s <? 1)%nat then nan
  else
    let divisor := np_sqrt (ssqdm_x s * ssqdm_y s) in
    if divisor =? 0 then nan else covxy s / divisor.

Definition enumerate {A : Type} (xs : list A) : list (nat * A) :=
  combine (seq 0 (length xs)) xs.

Definition pd_corr (df : DataFrame) : list (list float) :=
  map (fun '(i, (_, ci)) =>
         map (fun '(j, (_, cj)) =>
                if (j <=? i)%nat then pearson ci cj else pearson cj ci)
             (enumerate df))
      (enumerate df).

(** [m[np.triu_indices_from(m, k)]]: the entries [m[i][j]] with [j >= i + k],
    row after row. *)
Definition triu_values (k : nat) (m : list (list float)) : list float :=
  flat_map (fun '(i, row) => skipn (i + k) row) (enumerate m).

(** [w.T @ m @ w] for a vector [w] and a matrix [m] given by its rows. *)
Definition matmul_mismatch (size1 size0 : nat) : exn :=
  ValueError ("matmul: Input operand 1 has a mismatch in its core dimension 0, "
              ++ "with gufunc signature (n?,k),(k,m?)->(n?,m?) (size "
              ++ string_of_Z (Z.of_nat size1) ++ " is different from "
              ++ string_of_Z (Z.of_nat size0) ++ ")").

Definition vec_mat (w : list float) (m : list (list float)) : result (list float) :=
  if (length w =? length m)%nat then
    Ok (fold_left (fun acc '(wi, row) => map2 add acc (map (fun x => wi * x) row))
                  (combine w m)
                  (repeat 0 (match m with [] => 0%nat | row :: _ => length row end)))
  else Raise (matmul_mismatch (length m) (length w)).

Definition vec_vec (u w : list float) : result float :=
  if (length u =? length w)%nat then Ok (np_sum (map2 mul u w))
  else Raise (matmul_mismatch (length w) (length u)).

Definition quadratic_form (w : list float) (m : list (list float)) : result float :=
  u <- vec_mat w m ;;
  vec_vec u w.

(** ** [analysis_service.py]: Value at Risk *)

Definition calculate_var (returns : list float) (confidence_level : float)
    (timeframe : string) : result float :=
  (* Sort returns in ascending order *)
  let sorted_returns := np_sort returns in
  (* Find the index at the confidence level *)
  index <- py_int ((1 - confidence_level) * flen sorted_returns) ;;
  (* Get the VaR value *)
  x <- np_getitem sorted_returns index ;;
  let var := - x in
  (* Scale VaR based on timeframe *)
  Ok (if String.eqb timeframe "weekly" then var * np_sqrt 5
      else if String.eqb timeframe "monthly" then var * np_sqrt 21
      else var).

Record RiskMetrics : Type := {
  daily_var : float;
  weekly_var : float;
  monthly_var : float;
  volatility : float;
  expected_return : float;
  sharpe_ratio : float
}.

Section AnalysisService.

(** [yf.download(symbols, period="1y", interval="1d")['Adj Close']]: the
    price history the provider answers with, or the exception it raises. *)
Variable yf_download : list string -> result DataFrame.

Definition calculate_portfolio_var (symbols : list string)
    (weights : list float) (confidence_level : float) : result RiskMetrics :=
  try_except
    ((* Fetch historical data (1 year) *)
     data <- yf_download symbols ;;
     let returns := dropna (pct_change data) in
     (* Calculate portfolio returns *)
     portfolio_returns <- dot returns weights ;;
     (* Calculate VaR for different timeframes *)
     daily <- calculate_var portfolio_returns confidence_level "daily" ;;
     weekly <- calculate_var portfolio_returns confidence_level "weekly" ;;
     monthly <- calculate_var portfolio_returns confidence_level "monthly" ;;
     (* Calculate additional risk metrics *)
     let volatility := np_std_series portfolio_returns * np_sqrt 252 in
     let expected_return := np_mean_series portfolio_returns * 252 in
     Ok {| daily_var := daily;
           weekly_var := weekly;
           monthly_var := monthly;
           volatility := volatility;
           expected_return := expected_return;
           sharpe_ratio := (expected_return - 0.04) / volatility |})
    (fun e => Raise (Exception ("Error calculating portfolio VaR: " ++ str_exn e))).

End AnalysisService.

(** ** [risk_analysis.py]: recommendations *)

Record OptimizationEntry : Type := {
  symbol : string;
  action : string;
  reason : string
}.

Record Recommendations : Type := {
  summary : string;
  diversification : string;
  sector_exposure : string;
  optimization : list OptimizationEntry
}.

Definition high_correlation_message : string :=
  "Your portfolio shows high correlation between assets. Consider adding uncorrelated assets to improve diversification.".
Definition moderate_diversification_message : string :=
  "Your portfolio has moderate diversification. Consider adding assets from different sectors to reduce correlation.".
Definition well_diversified_message : string :=
  "Your portfolio is well-diversified with low correlation between assets.".

Definition high_risk_summary : string :=
  "Your portfolio has a high risk profile. Consider reducing exposure to volatile assets if this exceeds your risk tolerance.".
Definition moderate_risk_summary : string :=
  "Your portfolio has a moderate risk profile, which is suitable for balanced investment goals.".
Definition conservative_summary : string :=
  "Your portfolio has a conservative risk profile with lower potential returns but better capital preservation.".

(** The mean of the entries of the correlation matrix above its diagonal. *)
Definition avg_correlation (returns : DataFrame) : float :=
  np_mean (triu_values 1 (pd_corr returns)).

Definition diversification_message (avg : float) : string :=
  if 0.7 <? avg then high_correlation_message
  else if 0.5 <? avg then moderate_diversification_message
  else well_diversified_message.

Definition summary_message (risk_score : Z) : string :=
  if (8 <=? risk_score)%Z then high_risk_summary
  else if (5 <=? risk_score)%Z then moderate_risk_summary
  else conservative_summary.

(** The Sharpe ratio of one asset, from its own series of returns. *)
Definition asset_sharpe (series : list float) : float :=
  let asset_return := pd_mean series * 252 in
  let asset_risk := pd_std 1 series * np_sqrt 252 in
  if 0 <? asset_risk then asset_return / asset_risk else 0.

Definition reduce_entry (sym : string) (sharpe : float) : OptimizationEntry :=
  {| symbol := sym;
     action := "reduce";
     reason := "Poor risk-adjusted return (Sharpe ratio: " ++ format_2f sharpe ++ ")" |}.

(** One turn of the loop [for i, symbol in enumerate(symbols)]; [acc] is
    [recommendations["optimization"]] so far. *)
Definition optimization_step (returns : DataFrame) (weights : list float)
    (acc : list OptimizationEntry) (p : nat * string)
  : result (list OptimizationEntry) :=
  let '(i, sym) := p in
  series <- df_getitem returns sym ;;
  let sharpe := asset_sharpe series in
  if sharpe <? 0.1 then
    w <- np_getitem weights (Z.of_nat i) ;;
    if 0.1 <? w then Ok (acc ++ [reduce_entry sym sharpe]) else Ok acc
  else Ok acc.

Fixpoint for_each {A S : Type} (step : S -> A -> result S) (xs : list A) (s : S)
  : result S :=
  match xs with
  | [] => Ok s
  | x :: xs' => s' <- step s x ;; for_each step xs' s'
  end.

Definition generate_recommendations (returns : DataFrame) (weights : list float)
    (symbols : list string) (risk_score : Z) : result Recommendations :=
  (* Check diversification *)
  let diversification := diversification_message (avg_correlation returns) in
  (* Risk-based summary *)
  let summary := summary_message risk_score in
  (* Simple optimization suggestions *)
  optimization <- for_each (optimization_step returns weights) (enumerate symbols) [] ;;
  Ok {| summary := summary;
        diversification := diversification;
        sector_exposure := "";
        optimization := optimization |}.

(** The entries the optimization list is to hold: one per instrument, in
    the order of [symbols], whose own Sharpe ratio is below 0.1 and whose
    weight exceeds 0.1. *)
Definition reduce_candidates (returns : DataFrame) (weights : list float)
    (symbols : list string) : list OptimizationEntry :=
  flat_map
    (fun '(i, sym) =>
       match df_getitem returns sym with
       | Ok series =>
           if (asset_sharpe series <? 0.1) && (0.1 <? nth i weights nan)
           then [reduce_entry sym (asset_sharpe series)]
           else []
       | Raise _ => []
       end)
    (enumerate symbols).

(** The parameters of [generate_recommendations], none with a default. *)
Definition generate_recommendations_params : list string :=
  ["returns"; "weights"; "symbols"; "risk_score"].

(** Binding the keywords of a call to the parameters of a function that
    takes neither defaults nor [**kwargs]. *)
Definition bind_keywords (fname : string) (params keywords : list string)
  : result unit :=
  match find (fun k => negb (existsb (String.eqb k) params)) keywords with
  | Some k =>
      Raise (TypeError (fname ++ "() got an unexpected keyword argument '" ++ k ++ "'"))
  | None =>
      match find (fun p => negb (existsb (String.eqb p) keywords)) params with
      | Some p =>
          Raise (TypeError (fname ++ "() missing 1 required positional argument: '" ++ p ++ "'"))
      | None => Ok tt
      end
  end.

(** ** [risk_analysis.py]: the risk score *)

Definition risk_factors (risk_metrics : RiskMetrics) : list float :=
  [ volatility risk_metrics / 0.3;
    daily_var risk_metrics / 0.03;
    abs (sharpe_ratio risk_metrics - 2) / 2 ].

Definition risk_score_of (risk_metrics : RiskMetrics) : result Z :=
  r <- py_round (np_mean (risk_factors risk_metrics) * 10) ;;
  Ok (Z.min 10 (Z.max 1 r)).

(** ** [models.py]: the rows the handler reads and writes *)

Module models.

Module User.
Record t : Type := { id : Z }.
End User.

Module Portfolio.
Record t : Type := { id : Z; owner_id : Z }.
End Portfolio.

Module Stock.
Record t : Type := { id : Z; symbol : string; current_price : option float }.
End Stock.

Module Holding.
Record t : Type := { portfolio_id : Z; stock_id : Z; quantity : float }.
End Holding.

End models.

(** A Python value as a name of the handler refers to it. *)
Inductive pyobj : Type :=
| PyInt (z : Z)
| PyFloat (x : float)
| PyStr (s : string)
| PyObject (type_name : string).

Module RiskAnalysis.
Record t : Type := {
  portfolio_id : Z;
  risk_score : Z;
  volatility : float;
  sharpe_ratio : float;
  var_95 : pyobj;
  recommendations : Recommendations;
  analysis_date : Z
}.
End RiskAnalysis.

Record Session : Type := {
  portfolios : list models.Portfolio.t;
  holdings : list models.Holding.t;
  stocks : list models.Stock.t;
  risk_analyses : list RiskAnalysis.t
}.

(** [db.add(risk_analysis); db.commit()]. *)
Definition db_add (db : Session) (r : RiskAnalysis.t) : Session :=
  {| portfolios := portfolios db;
     holdings := holdings db;
     stocks := stocks db;
     risk_analyses := risk_analyses db ++ [r] |}.

(** ** [risk_analysis.py]: symbols and weights of a portfolio *)

(** One turn of [for holding in holdings]; the state is
    [(symbols, weights, total_value)]. *)
Definition collect_holding (db : Session)
    (acc : list string * list float * float) (holding : models.Holding.t)
  : list string * list float * float :=
  let '(symbols, weights, total_value) := acc in
  match find (fun s => (models.Stock.id s =? models.Holding.stock_id holding)%Z)
             (stocks db) with
  | Some stock =>
      match models.Stock.current_price stock with
      | Some price =>
          if truthy price then
            let value := models.Holding.quantity holding * price in
            (symbols ++ [models.Stock.symbol stock], weights ++ [value],
             total_value + value)
          else acc
      | None => acc
      end
  | None => acc
  end.

Definition collect_holdings (db : Session) (hs : list models.Holding.t)
  : list string * list float * float :=
  fold_left (collect_holding db) hs ([], [], 0).

(** The holdings that enter the analysis, as the loop selects them: those
    of a known stock with a price that is neither missing nor zero, each with
    its symbol and its market value. *)
Definition valid_positions (db : Session) (hs : list models.Holding.t)
  : list (string * float) :=
  flat_map
    (fun holding =>
       match find (fun s => (models.Stock.id s =? models.Holding.stock_id holding)%Z)
                  (stocks db) with
       | Some stock =>
           match models.Stock.current_price stock with
           | Some price =>
               if truthy price then
                 [(models.Stock.symbol stock, models.Holding.quantity holding * price)]
               else []
           | None => []
           end
       | None => []
       end)
    hs.

(** [np.array(weights) / total_value if total_value > 0
     else np.array([1/len(weights)] * len(weights))]. *)
Definition normalize_weights (weights : list float) (total_value : float)
  : list float :=
  if 0 <? total_value then map (fun value => value / total_value) weights
  else repeat (1 / flen weights) (length weights).

(** ** [risk_analysis.py]: the handler *)

(** The names bound at module level when the handler runs. *)
Definition module_globals : list string :=
  [ "APIRouter"; "Depends"; "HTTPException"; "status"; "Session"; "List";
    "Dict"; "Any"; "Optional"; "datetime"; "timedelta"; "np"; "pd"; "yf";
    "LedoitWolf"; "get_db"; "models"; "schemas"; "get_current_active_user";
    "router"; "analysis_service"; "analyze_portfolio_risk";
    "generate_recommendations"; "get_risk_analysis_history";
    "get_latest_risk_analysis"; "compare_portfolio_risks" ].

(** Reading a name: the handler's own variables first, then the module's. *)
Definition load_name (locals : list (string * pyobj)) (name : string)
  : result pyobj :=
  match find (fun b => String.eqb (fst b) name) locals with
  | Some (_, v) => Ok v
  | None =>
      if existsb (String.eqb name) module_globals then Ok (PyObject name)
      else Raise (NameError name)
  end.

(** [returns.var()[0]]: the variance of the first column. *)
Definition first_column_var (returns : DataFrame) : result float :=
  match returns with
  | [] => Raise (IndexError "index 0 is out of bounds for axis 0 with size 0")
  | (_, c) :: _ => Ok (pd_var 1 c)
  end.

(** [np.sum(returns.mean() * weights)]: the means of the columns times the
    weights, one by one; a single weight is broadcast over the columns. *)
Definition weighted_mean_return (returns : DataFrame) (weights : list float)
  : result float :=
  let means := map (fun '(_, c) => pd_mean c) returns in
  if (length means =? length weights)%nat then
    Ok (pd_sum (map2 mul means weights))
  else
    match weights, means with
    | [w], _ :: _ => Ok (pd_sum (map (fun m => m * w) means))
    | _, [_] =>
        Raise (ValueError ("Length of values ("
                           ++ string_of_Z (Z.of_nat (length weights))
                           ++ ") does not match length of index (1)"))
    | _, _ =>
        Raise (ValueError ("operands could not be broadcast together with shapes ("
                           ++ string_of_Z (Z.of_nat (length means)) ++ ",) ("
                           ++ string_of_Z (Z.of_nat (length weights)) ++ ",) "))
    end.

(** The Sharpe ratio the handler computes itself, 4% being risk free. *)
Definition handler_sharpe_ratio (expected_return volatility : float) : float :=
  let risk_free_rate := 0.04 in
  if 0 <? volatility then (expected_return - risk_free_rate) / volatility else 0.

(** What the handler has computed when it reaches the recommendations. *)
Record analysis_state : Type := {
  st_returns : DataFrame;
  st_portfolio_variance : float;
  st_volatility : float;
  st_expected_return : float;
  st_sharpe_ratio : float;
  st_risk_metrics : RiskMetrics;
  st_risk_score : Z
}.

(** The variables of the handler that are bound at that point. *)
Definition handler_locals (portfolio_id : Z) (confidence_level : float)
    (symbols : list string) (total_value : float) (st : analysis_state)
  : list (string * pyobj) :=
  [ ("portfolio_id", PyInt portfolio_id);
    ("confidence_level", PyFloat confidence_level);
    ("db", PyObject "Session");
    ("current_user", PyObject "User");
    ("portfolio", PyObject "Portfolio");
    ("holdings", PyObject "list");
    ("symbols", PyObject "list");
    ("weights", PyObject "ndarray");
    ("total_value", PyFloat total_value);
    ("holding", PyObject "Holding");
    ("stock", PyObject "Stock");
    ("value", PyObject "float");
    ("data", PyObject "DataFrame");
    ("returns", PyObject "DataFrame") ]
  ++ (if (1 <? length symbols)%nat
      then [("cov_matrix", PyObject "ndarray")] else [])
  ++ [ ("portfolio_variance", PyFloat (st_portfolio_variance st));
       ("volatility", PyFloat (st_volatility st));
       ("expected_return", PyFloat (st_expected_return st));
       ("risk_free_rate", PyFloat 0.04);
       ("sharpe_ratio", PyFloat (st_sharpe_ratio st));
       ("risk_metrics", PyObject "dict");
       ("risk_factors", PyObject "list");
       ("risk_score", PyInt (st_risk_score st)) ].

(** The keywords of the call of [generate_recommendations] in the handler. *)
Definition recommendation_keywords : list string :=
  ["returns"; "weights"; "symbols"; "risk_score"; "risk_metrics"].

Definition call_generate_recommendations (returns : DataFrame)
    (weights : list float) (symbols : list string) (risk_score : Z)
    (risk_metrics : RiskMetrics) : result Recommendations :=
  _ <- bind_keywords "generate_recommendations" generate_recommendations_params
                     recommendation_keywords ;;
  generate_recommendations returns weights symbols risk_score.

(** What Python says of the keyword [risk_metrics]. *)
Definition unexpected_keyword_message : string :=
  "generate_recommendations() got an unexpected keyword argument 'risk_metrics'".

Definition error_response (e : exn) : exn :=
  HTTPException 500 ("Error analyzing portfolio risk: " ++ str_exn e).

Section Router.

(** The price provider as the handler reaches it, and as
    [analysis_service] reaches it afterwards; the covariance
    [LedoitWolf().fit(returns).covariance_] of scikit-learn; and
    [datetime.utcnow()]. *)
Variable yf_download : list string -> result DataFrame.
Variable service_yf_download : list string -> result DataFrame.
Variable LedoitWolf_fit : DataFrame -> result (list (list float)).
Variable utcnow : Z.

(** The body of the handler's [try], up to the risk score. *)
Definition compute_metrics (confidence_level : float) (symbols : list string)
    (weights : list float) : result analysis_state :=
  (* Fetch historical data (1 year) *)
  data <- yf_download symbols ;;
  (* Calculate daily returns *)
  let returns := dropna (pct_change data) in
  (* Calculate portfolio volatility (annualized) *)
  portfolio_variance <-
    (if (1 <? length symbols)%nat then
       (* Use Ledoit-Wolf shrinkage for better covariance estimation *)
       cov_matrix <- LedoitWolf_fit returns ;;
       quadratic_form weights cov_matrix
     else
       (* Single stock case *)
       first_column_var returns) ;;
  let volatility := np_sqrt portfolio_variance * np_sqrt 252 in
  (* Calculate expected return (annualized) *)
  mean_return <- weighted_mean_return returns weights ;;
  let expected_return := mean_return * 252 in
  (* Calculate Sharpe ratio (assuming risk-free rate of 4%) *)
  let sharpe_ratio := handler_sharpe_ratio expected_return volatility in
  (* Calculate VaR and other risk metrics using analysis service *)
  risk_metrics <-
    calculate_portfolio_var service_yf_download symbols weights confidence_level ;;
  (* Calculate risk score (1-10 scale) *)
  risk_score <- risk_score_of risk_metrics ;;
  Ok {| st_returns := returns;
        st_portfolio_variance := portfolio_variance;
        st_volatility := volatility;
        st_expected_return := expected_return;
        st_sharpe_ratio := sharpe_ratio;
        st_risk_metrics := risk_metrics;
        st_risk_score := risk_score |}.

(** The rest of the [try]: the recommendations, then the record.
    [recommend] is the call that yields the recommendations. *)
Definition record_analysis (db : Session) (portfolio_id : Z)
    (locals : list (string * pyobj)) (st : analysis_state)
    (recommend : result Recommendations)
  : result (Session * RiskAnalysis.t) :=
  (* Generate recommendations based on comprehensive risk metrics *)
  recommendations <- recommend ;;
  (* Create risk analysis record *)
  var_95 <- load_name (locals ++ [("recommendations", PyObject "dict")])
                      "var_95" ;;
  let risk_analysis :=
    {| RiskAnalysis.portfolio_id := portfolio_id;
       RiskAnalysis.risk_score := st_risk_score st;
       RiskAnalysis.volatility := st_volatility st;
       RiskAnalysis.sharpe_ratio := st_sharpe_ratio st;
       RiskAnalysis.var_95 := var_95;
       RiskAnalysis.recommendations := recommendations;
       RiskAnalysis.analysis_date := utcnow |} in
  Ok (db_add db risk_analysis, risk_analysis).

Definition analysis_body (db : Session) (portfolio_id : Z)
    (confidence_level : float) (symbols : list string)
    (weights : list float) (total_value : float)
  : result (Session * RiskAnalysis.t) :=
  st <- compute_metrics confidence_level symbols weights ;;
  record_analysis db portfolio_id
    (handler_locals portfolio_id confidence_level symbols total_value st) st
    (call_generate_recommendations (st_returns st) weights symbols
       (st_risk_score st) (st_risk_metrics st)).

Definition analyze_portfolio_risk (db : Session) (portfolio_id : Z)
    (confidence_level : float) (current_user : models.User.t)
  : result (Session * RiskAnalysis.t) :=
  (* Verify portfolio belongs to user *)
  match find (fun p => (models.Portfolio.id p =? portfolio_id)%Z
                       && (models.Portfolio.owner_id p =? models.User.id current_user)%Z)
             (portfolios db) with
  | None => Raise (HTTPException 404 "Portfolio not found")
  | Some portfolio =>
      (* Get holdings *)
      match filter (fun h => (models.Holding.portfolio_id h =? portfolio_id)%Z)
                   (holdings db) with
      | [] => Raise (HTTPException 400 "Portfolio has no holdings")
      | holding :: more =>
          (* Get stock symbols and weights *)
          let '(symbols, weights, total_value) :=
            collect_holdings db (holding :: more) in
          match symbols with
          | [] => Raise (HTTPException 400 "No valid stocks in portfolio")
          | _ :: _ =>
              (* Normalize weights *)
              let weights := normalize_weights weights total_value in
              try_except
                (analysis_body db portfolio_id confidence_level symbols
                               weights total_value)
                (fun e => Raise (error_response e))
          end
      end
  end.

End Router.

(** ** Sample data *)

(** A price that does not move over three dates. *)
Definition flat_prices : DataFrame := [("FLAT", [100; 100; 100])].

(** Two instruments over five dates. *)
Definition sample_prices : DataFrame :=
  [ ("A", [100; 101; 100; 103; 102]);
    ("B", [50; 50.5; 50; 51; 50]) ].

(** Metrics with a volatility near the top of the binary64 range. *)
Definition huge_volatility_metrics : RiskMetrics :=
  {| daily_var := 0; weekly_var := 0; monthly_var := 0;
     volatility := 1e308; expected_return := 0; sharpe_ratio := 2 |}.

(** Metrics of an ordinary portfolio. *)
Definition ordinary_metrics : RiskMetrics :=
  {| daily_var := 0.0146; weekly_var := 0.0326; monthly_var := 0.0669;
     volatility := 0.2523; expected_return := 0.6578; sharpe_ratio := 2.448 |}.

(** A portfolio of user 7 holding two priced stocks, and the same portfolio
    with both quantities at zero. *)
Definition sample_db (qa qb : float) : Session :=
  {| portfolios := [ {| models.Portfolio.id := 1; models.Portfolio.owner_id := 7 |} ];
     holdings :=
       [ {| models.Holding.portfolio_id := 1; models.Holding.stock_id := 10;
            models.Holding.quantity := qa |};
         {| models.Holding.portfolio_id := 1; models.Holding.stock_id := 11;
            models.Holding.quantity := qb |};
         {| models.Holding.portfolio_id := 1; models.Holding.stock_id := 12;
            models.Holding.quantity := 5 |} ];
     stocks :=
       [ {| models.Stock.id := 10; models.Stock.symbol := "A";
            models.Stock.current_price := Some 102 |};
         {| models.Stock.id := 11; models.Stock.symbol := "B";
            models.Stock.current_price := Some 50 |};
         {| models.Stock.id := 12; models.Stock.symbol := "C";
            models.Stock.current_price := None |} ];
     risk_analyses := [] |}.

(** Returns of two instruments over four dates, and of one instrument. *)
Definition sample_returns : DataFrame :=
  [ ("A", [0.01; -0.02; 0.03; -0.01]);
    ("B", [0.02; -0.01; 0.01; 0]) ].

Definition single_returns : DataFrame := [("A", [0.01; -0.02; 0.03])].

(** Returns of an instrument that loses on average and of one that gains. *)
Definition mixed_returns : DataFrame :=
  [ ("LOSS", [-0.01; 0.005; -0.02; 0.001]);
    ("GAIN", [0.01; 0.02; 0.015; 0.012]) ].

(** Returns of two instruments whose correlation is moderate. *)
Definition moderate_returns : DataFrame :=
  [ ("A", [0.01; -0.02; 0.03; -0.01]);
    ("B", [0.02; 0.01; 0.03; -0.02]) ].

(** Prices of one instrument over five dates, and of two instruments over
    two dates only. *)
Definition one_stock_prices : DataFrame := [("A", [100; 101; 100; 103; 102])].

Definition two_date_prices : DataFrame := [("A", [100; 101]); ("B", [50; 49])].

(** * The rest of the routers

    The rows of [models.py] with all the columns the routers below read or
    write.  A [datetime] is an instant counted in microseconds; the key the
    database gives a new row is its own business and comes as an argument. *)

Module tables.

Module Portfolio.
Record t : Type := {
  id : Z;
  name : string;
  description : option string;
  owner_id : Z;
  created_at : Z;
  updated_at : Z
}.
End Portfolio.

Module Stock.
Record t : Type := {
  id : Z;
  symbol : string;
  name : string;
  sector : option string;
  industry : option string;
  current_price : option float;
  last_updated : option Z
}.
End Stock.

Module Holding.
Record t : Type := {
  id : Z;
  portfolio_id : Z;
  stock_id : Z;
  quantity : float;
  average_buy_price : float;
  created_at : Z;
  updated_at : Z
}.
End Holding.

Module Transaction.
Record t : Type := {
  id : Z;
  portfolio_id : Z;
  stock_id : Z;
  transaction_type : string;
  quantity : float;
  price : float;
  transaction_date : Z;
  notes : option string
}.
End Transaction.

Module SentimentAnalysis.
Record t : Type := {
  id : Z;
  stock_id : option Z;
  source : string;
  sentiment_score : float;
  confidence : float;
  text_snippet : option string;
  source_url : option string;
  analysis_date : Z
}.
End SentimentAnalysis.

End tables.

(** The request bodies of [schemas.py]. *)
Module schemas.

Module HoldingCreate.
Record t : Type := {
  stock_id : Z;
  quantity : float;
  average_buy_price : float;
  portfolio_id : Z
}.
End HoldingCreate.

Module TransactionCreate.
Record t : Type := {
  stock_id : Z;
  transaction_type : string;
  quantity : float;
  price : float;
  transaction_date : option Z;
  notes : option string;
  portfolio_id : Z
}.
End TransactionCreate.

End schemas.

(** The database, table by table, each in the order of its rows. *)
Record Database : Type := {
  portfolios_table : list tables.Portfolio.t;
  stocks_table : list tables.Stock.t;
  holdings_table : list tables.Holding.t;
  transactions_table : list tables.Transaction.t;
  risk_analyses_table : list RiskAnalysis.t;
  sentiment_analyses_table : list tables.SentimentAnalysis.t
}.

(** The columns [analyze_portfolio_risk] reads. *)
Definition session_of (db : Database) : Session :=
  {| portfolios :=
       map (fun p => {| models.Portfolio.id := tables.Portfolio.id p;
                        models.Portfolio.owner_id := tables.Portfolio.owner_id p |})
           (portfolios_table db);
     holdings :=
       map (fun h => {| models.Holding.portfolio_id := tables.Holding.portfolio_id h;
                        models.Holding.stock_id := tables.Holding.stock_id h;
                        models.Holding.quantity := tables.Holding.quantity h |})
           (holdings_table db);
     stocks :=
       map (fun s => {| models.Stock.id := tables.Stock.id s;
                        models.Stock.symbol := tables.Stock.symbol s;
                        models.Stock.current_price := tables.Stock.current_price s |})
           (stocks_table db);
     risk_analyses := risk_analyses_table db |}.

(** A handler answers with the database it leaves and what it returns or
    raises. *)
Definition response (A : Type) : Type := Database * result A.

(** [query.filter(Portfolio.id == portfolio_id,
                  Portfolio.owner_id == current_user.id).first()]. *)
Definition owned_portfolio (db : Database) (portfolio_id : Z)
    (current_user : models.User.t) : option tables.Portfolio.t :=
  find (fun p => (tables.Portfolio.id p =? portfolio_id)%Z
                 && (tables.Portfolio.owner_id p =? models.User.id current_user)%Z)
       (portfolios_table db).

(** Who owns a portfolio. *)
Definition owns (db : Database) (current_user : models.User.t) (portfolio_id : Z)
  : Prop :=
  exists p, In p (portfolios_table db)
            /\ tables.Portfolio.id p = portfolio_id
            /\ tables.Portfolio.owner_id p = models.User.id current_user.

(** [order_by(key.desc())]: the rows by descending key, rows of equal key
    in the order of the table. *)
Fixpoint insert_desc {A : Type} (key : A -> Z) (x : A) (l : list A) : list A :=
  match l with
  | [] => [x]
  | y :: l' => if (key x <? key y)%Z then y :: insert_desc key x l' else x :: l
  end.

Definition order_by_desc {A : Type} (key : A -> Z) (rows : list A) : list A :=
  fold_right (insert_desc key) [] rows.

(** Two neighbours by descending key. *)
Definition descending {A : Type} (key : A -> Z) (x y : A) : Prop :=
  (key y <= key x)%Z.

(** [limit(n)]; a negative [n] sets no limit, as in SQLite. *)
Definition sql_limit {A : Type} (n : Z) (rows : list A) : list A :=
  if (n <? 0)%Z then rows else firstn (Z.to_nat n) rows.

(** ** [risk_analysis.py]: reading the analyses *)

(** The analyses of a portfolio, the latest first. *)
Definition analyses_of (db : Database) (portfolio_id : Z) : list RiskAnalysis.t :=
  order_by_desc RiskAnalysis.analysis_date
    (filter (fun r => (RiskAnalysis.portfolio_id r =? portfolio_id)%Z)
            (risk_analyses_table db)).

Definition get_risk_analysis_history (db : Database) (portfolio_id : Z)
    (limit : Z) (current_user : models.User.t) : result (list RiskAnalysis.t) :=
  (* Verify portfolio belongs to user *)
  match owned_portfolio db portfolio_id current_user with
  | None => Raise (HTTPException 404 "Portfolio not found")
  | Some portfolio =>
      (* Get risk analysis history *)
      Ok (sql_limit limit (analyses_of db portfolio_id))
  end.

Definition get_latest_risk_analysis (db : Database) (portfolio_id : Z)
    (current_user : models.User.t) : result RiskAnalysis.t :=
  (* Verify portfolio belongs to user *)
  match owned_portfolio db portfolio_id current_user with
  | None => Raise (HTTPException 404 "Portfolio not found")
  | Some portfolio =>
      (* Get latest risk analysis *)
      match analyses_of db portfolio_id with
      | [] => Raise (HTTPException 404 "No risk analysis found for this portfolio")
      | analysis :: _ => Ok analysis
      end
  end.

(** One entry of the comparison. *)
Record RiskComparison : Type := {
  portfolio_name : string;
  cmp_risk_score : Z;
  cmp_volatility : float;
  cmp_sharpe_ratio : float;
  cmp_var_95 : pyobj;
  cmp_analysis_date : Z
}.

(** [d[key] = value] for a [dict] kept in the order of its insertions. *)
Fixpoint dict_set {V : Type} (d : list (string * V)) (key : string) (value : V)
  : list (string * V) :=
  match d with
  | [] => [(key, value)]
  | (k, v) :: d' =>
      if String.eqb k key then (k, value) :: d' else (k, v) :: dict_set d' key value
  end.

Fixpoint dict_get {V : Type} (d : list (string * V)) (key : string) : option V :=
  match d with
  | [] => None
  | (k, v) :: d' => if String.eqb k key then Some v else dict_get d' key
  end.

(** One turn of [for portfolio_id in portfolio_ids]. *)
Definition compare_step (db : Database) (current_user : models.User.t)
    (result_ : list (string * RiskComparison)) (portfolio_id : Z)
  : result (list (string * RiskComparison)) :=
  (* Verify portfolio belongs to user *)
  match owned_portfolio db portfolio_id current_user with
  | None =>
      Raise (HTTPException 404
               ("Portfolio with ID " ++ string_of_Z portfolio_id ++ " not found"))
  | Some portfolio =>
      (* Get latest risk analysis *)
      match analyses_of db portfolio_id with
      | [] => Ok result_
      | analysis :: _ =>
          Ok (dict_set result_ (string_of_Z portfolio_id)
                {| portfolio_name := tables.Portfolio.name portfolio;
                   cmp_risk_score := RiskAnalysis.risk_score analysis;
                   cmp_volatility := RiskAnalysis.volatility analysis;
                   cmp_sharpe_ratio := RiskAnalysis.sharpe_ratio analysis;
                   cmp_var_95 := RiskAnalysis.var_95 analysis;
                   cmp_analysis_date := RiskAnalysis.analysis_date analysis |})
      end
  end.

Definition compare_portfolio_risks (db : Database) (portfolio_ids : list Z)
    (current_user : models.User.t) : result (list (string * RiskComparison)) :=
  if (length portfolio_ids <? 2)%nat then
    Raise (HTTPException 400
             "Please provide at least two portfolio IDs for comparison")
  else
    result_ <- for_each (compare_step db current_user) portfolio_ids [] ;;
    match result_ with
    | [] => Raise (HTTPException 404
                     "No risk analyses found for the specified portfolios")
    | _ :: _ => Ok result_
    end.

(** The entry [compare_portfolio_risks] writes for a portfolio and its latest
    analysis. *)
Definition comparison_entry (portfolio : tables.Portfolio.t)
    (analysis : RiskAnalysis.t) : RiskComparison :=
  {| portfolio_name := tables.Portfolio.name portfolio;
     cmp_risk_score := RiskAnalysis.risk_score analysis;
     cmp_volatility := RiskAnalysis.volatility analysis;
     cmp_sharpe_ratio := RiskAnalysis.sharpe_ratio analysis;
     cmp_var_95 := RiskAnalysis.var_95 analysis;
     cmp_analysis_date := RiskAnalysis.analysis_date analysis |}.

(** A portfolio with an analysis on record. *)
Definition analysed (db : Database) (portfolio_id : Z) : Prop :=
  exists r, In r (risk_analyses_table db)
            /\ RiskAnalysis.portfolio_id r = portfolio_id.

(** ** [portfolio.py]: holdings, transactions and the summary *)

Definition with_holdings (db : Database) (hs : list tables.Holding.t) : Database :=
  {| portfolios_table := portfolios_table db;
     stocks_table := stocks_table db;
     holdings_table := hs;
     transactions_table := transactions_table db;
     risk_analyses_table := risk_analyses_table db;
     sentiment_analyses_table := sentiment_analyses_table db |}.

Definition with_transactions (db : Database) (ts : list tables.Transaction.t)
  : Database :=
  {| portfolios_table := portfolios_table db;
     stocks_table := stocks_table db;
     holdings_table := holdings_table db;
     transactions_table := ts;
     risk_analyses_table := risk_analyses_table db;
     sentiment_analyses_table := sentiment_analyses_table db |}.

(** [query(Stock).filter(Stock.id == stock_id).first()]. *)
Definition stock_by_id (db : Database) (stock_id : Z) : option tables.Stock.t :=
  find (fun s => (tables.Stock.id s =? stock_id)%Z) (stocks_table db).

(** [query(Holding).filter(Holding.portfolio_id == portfolio_id,
                           Holding.stock_id == stock_id).first()]. *)
Definition holding_of (db : Database) (portfolio_id stock_id : Z)
  : option tables.Holding.t :=
  find (fun h => (tables.Holding.portfolio_id h =? portfolio_id)%Z
                 && (tables.Holding.stock_id h =? stock_id)%Z)
       (holdings_table db).

(** The row of key [id h'] takes the values of [h']. *)
Definition update_holding (hs : list tables.Holding.t) (h' : tables.Holding.t)
  : list tables.Holding.t :=
  map (fun h => if (tables.Holding.id h =? tables.Holding.id h')%Z then h' else h) hs.

(** [db.delete(holding)]. *)
Definition delete_holding_row (hs : list tables.Holding.t) (holding_id : Z)
  : list tables.Holding.t :=
  filter (fun h => negb (tables.Holding.id h =? holding_id)%Z) hs.

(** The holding with a new quantity and price; [updated_at] follows the
    column's [onupdate=datetime.utcnow]. *)
Definition set_holding (h : tables.Holding.t) (quantity average_buy_price : float)
    (updated_at : Z) : tables.Holding.t :=
  {| tables.Holding.id := tables.Holding.id h;
     tables.Holding.portfolio_id := tables.Holding.portfolio_id h;
     tables.Holding.stock_id := tables.Holding.stock_id h;
     tables.Holding.quantity := quantity;
     tables.Holding.average_buy_price := average_buy_price;
     tables.Holding.created_at := tables.Holding.created_at h;
     tables.Holding.updated_at := updated_at |}.

Definition read_holdings (db : Database) (portfolio_id : Z)
    (current_user : models.User.t) : result (list tables.Holding.t) :=
  (* Verify portfolio belongs to user *)
  match owned_portfolio db portfolio_id current_user with
  | None => Raise (HTTPException 404 "Portfolio not found")
  | Some portfolio =>
      Ok (filter (fun h => (tables.Holding.portfolio_id h =? portfolio_id)%Z)
                 (holdings_table db))
  end.

Section PortfolioRouter.

(** The key the database gives to a new holding and to a new transaction,
    and [datetime.utcnow()], the instants of one request taken as one. *)
Variable new_holding_id : Z.
Variable new_transaction_id : Z.
Variable utcnow : Z.

Definition create_holding (db : Database) (portfolio_id : Z)
    (holding : schemas.HoldingCreate.t) (current_user : models.User.t)
  : response tables.Holding.t :=
  (* Verify portfolio belongs to user *)
  match owned_portfolio db portfolio_id current_user with
  | None => (db, Raise (HTTPException 404 "Portfolio not found"))
  | Some portfolio =>
      (* Verify stock exists *)
      match stock_by_id db (schemas.HoldingCreate.stock_id holding) with
      | None => (db, Raise (HTTPException 404 "Stock not found"))
      | Some stock =>
          (* Check if holding already exists *)
          match holding_of db portfolio_id (schemas.HoldingCreate.stock_id holding) with
          | Some existing_holding =>
              (* Update existing holding *)
              let updated :=
                set_holding existing_holding
                  (schemas.HoldingCreate.quantity holding)
                  (schemas.HoldingCreate.average_buy_price holding) utcnow in
              (with_holdings db (update_holding (holdings_table db) updated),
               Ok updated)
          | None =>
              (* Create new holding *)
              let db_holding :=
                {| tables.Holding.id := new_holding_id;
                   tables.Holding.portfolio_id := portfolio_id;
                   tables.Holding.stock_id := schemas.HoldingCreate.stock_id holding;
                   tables.Holding.quantity := schemas.HoldingCreate.quantity holding;
                   tables.Holding.average_buy_price :=
                     schemas.HoldingCreate.average_buy_price holding;
                   tables.Holding.created_at := utcnow;
                   tables.Holding.updated_at := utcnow |} in
              (with_holdings db (holdings_table db ++ [db_holding]), Ok db_holding)
          end
      end
  end.

Definition delete_holding (db : Database) (portfolio_id holding_id : Z)
    (current_user : models.User.t) : response unit :=
  (* Verify portfolio belongs to user *)
  match owned_portfolio db portfolio_id current_user with
  | None => (db, Raise (HTTPException 404 "Portfolio not found"))
  | Some portfolio =>
      (* Get holding *)
      match find (fun h => (tables.Holding.id h =? holding_id)%Z
                           && (tables.Holding.portfolio_id h =? portfolio_id)%Z)
                 (holdings_table db) with
      | None => (db, Raise (HTTPException 404 "Holding not found"))
      | Some holding =>
          (with_holdings db
             (delete_holding_row (holdings_table db) (tables.Holding.id holding)),
           Ok tt)
      end
  end.

Definition create_transaction (db : Database) (portfolio_id : Z)
    (transaction : schemas.TransactionCreate.t) (current_user : models.User.t)
  : response tables.Transaction.t :=
  (* Verify portfolio belongs to user *)
  match owned_portfolio db portfolio_id current_user with
  | None => (db, Raise (HTTPException 404 "Portfolio not found"))
  | Some portfolio =>
      (* Verify stock exists *)
      match stock_by_id db (schemas.TransactionCreate.stock_id transaction) with
      | None => (db, Raise (HTTPException 404 "Stock not found"))
      | Some stock =>
          (* Create transaction *)
          let db_transaction :=
            {| tables.Transaction.id := new_transaction_id;
               tables.Transaction.portfolio_id := portfolio_id;
               tables.Transaction.stock_id :=
                 schemas.TransactionCreate.stock_id transaction;
               tables.Transaction.transaction_type :=
                 schemas.TransactionCreate.transaction_type transaction;
               tables.Transaction.quantity :=
                 schemas.TransactionCreate.quantity transaction;
               tables.Transaction.price := schemas.TransactionCreate.price transaction;
               tables.Transaction.transaction_date :=
                 match schemas.TransactionCreate.transaction_date transaction with
                 | Some date => date
                 | None => utcnow
                 end;
               tables.Transaction.notes := schemas.TransactionCreate.notes transaction |} in
          (* db.add(db_transaction); db.commit() *)
          let db := with_transactions db (transactions_table db ++ [db_transaction]) in
          (* Update or create holding *)
          let holding :=
            holding_of db portfolio_id (schemas.TransactionCreate.stock_id transaction) in
          let quantity := schemas.TransactionCreate.quantity transaction in
          let price := schemas.TransactionCreate.price transaction in
          if String.eqb (schemas.TransactionCreate.transaction_type transaction) "BUY" then
            match holding with
            | Some holding =>
                (* Update existing holding *)
                let total_value :=
                  tables.Holding.quantity holding * tables.Holding.average_buy_price holding
                  + quantity * price in
                let total_quantity := tables.Holding.quantity holding + quantity in
                let average_buy_price :=
                  if 0 <? total_quantity then total_value / total_quantity else 0 in
                (with_holdings db
                   (update_holding (holdings_table db)
                      (set_holding holding total_quantity average_buy_price utcnow)),
                 Ok db_transaction)
            | None =>
                (* Create new holding *)
                let holding :=
                  {| tables.Holding.id := new_holding_id;
                     tables.Holding.portfolio_id := portfolio_id;
                     tables.Holding.stock_id :=
                       schemas.TransactionCreate.stock_id transaction;
                     tables.Holding.quantity := quantity;
                     tables.Holding.average_buy_price := price;
                     tables.Holding.created_at := utcnow;
                     tables.Holding.updated_at := utcnow |} in
                (with_holdings db (holdings_table db ++ [holding]), Ok db_transaction)
            end
          else if String.eqb (schemas.TransactionCreate.transaction_type transaction)
                             "SELL" then
            match holding with
            | None => (db, Raise (HTTPException 400 "Not enough shares to sell"))
            | Some holding =>
                if tables.Holding.quantity holding <? quantity then
                  (db, Raise (HTTPException 400 "Not enough shares to sell"))
                else
                  let remaining := tables.Holding.quantity holding - quantity in
                  if remaining =? 0 then
                    (with_holdings db
                       (delete_holding_row (holdings_table db)
                                           (tables.Holding.id holding)),
                     Ok db_transaction)
                  else
                    (with_holdings db
                       (update_holding (holdings_table db)
                          (set_holding holding remaining
                             (tables.Holding.average_buy_price holding) utcnow)),
                     Ok db_transaction)
            end
          else (db, Ok db_transaction)
      end
  end.

End PortfolioRouter.

Definition read_transactions (db : Database) (portfolio_id : Z)
    (current_user : models.User.t) : result (list tables.Transaction.t) :=
  (* Verify portfolio belongs to user *)
  match owned_portfolio db portfolio_id current_user with
  | None => Raise (HTTPException 404 "Portfolio not found")
  | Some portfolio =>
      Ok (order_by_desc tables.Transaction.transaction_date
            (filter (fun t => (tables.Transaction.portfolio_id t =? portfolio_id)%Z)
                    (transactions_table db)))
  end.

(** The portfolio and the stock of a holding. *)
Definition holding_key (h : tables.Holding.t) : Z * Z :=
  (tables.Holding.portfolio_id h, tables.Holding.stock_id h).

(** The holdings carry distinct keys, and a portfolio holds a stock in one
    row at most. *)
Definition holdings_consistent (db : Database) : Prop :=
  NoDup (map tables.Holding.id (holdings_table db))
  /\ NoDup (map holding_key (holdings_table db)).

(** The holdings other than the one of a portfolio in a stock. *)
Definition other_holdings (db : Database) (portfolio_id stock_id : Z)
  : list tables.Holding.t :=
  filter (fun h => negb ((tables.Holding.portfolio_id h =? portfolio_id)%Z
                         && (tables.Holding.stock_id h =? stock_id)%Z))
         (holdings_table db).

Record PortfolioSummary : Type := {
  summary_portfolio : tables.Portfolio.t;
  summary_total_value : float;
  daily_change : float;
  daily_change_percent : float;
  overall_return : float;
  overall_return_percent : float;
  summary_holdings : list tables.Holding.t;
  summary_risk_analysis : option RiskAnalysis.t
}.

(** One turn of [for holding in holdings]; the state is
    [(total_value, total_cost)]. *)
Definition summary_step (db : Database) (acc : float * float)
    (holding : tables.Holding.t) : float * float :=
  let '(total_value, total_cost) := acc in
  match stock_by_id db (tables.Holding.stock_id holding) with
  | Some stock =>
      match tables.Stock.current_price stock with
      | Some price =>
          if truthy price then
            (total_value + tables.Holding.quantity holding * price,
             total_cost + tables.Holding.quantity holding
                          * tables.Holding.average_buy_price holding)
          else acc
      | None => acc
      end
  | None => acc
  end.

Definition get_portfolio_summary (db : Database) (portfolio_id : Z)
    (current_user : models.User.t) : result PortfolioSummary :=
  (* Verify portfolio belongs to user *)
  match owned_portfolio db portfolio_id current_user with
  | None => Raise (HTTPException 404 "Portfolio not found")
  | Some portfolio =>
      (* Get holdings *)
      let holdings :=
        filter (fun h => (tables.Holding.portfolio_id h =? portfolio_id)%Z)
               (holdings_table db) in
      (* Calculate portfolio value *)
      let '(total_value, total_cost) := fold_left (summary_step db) holdings (0, 0) in
      (* Get risk analysis *)
      let risk_analysis := hd_error (analyses_of db portfolio_id) in
      (* Calculate returns *)
      let overall_return := total_value - total_cost in
      let overall_return_percent :=
        if 0 <? total_cost then overall_return / total_cost * 100 else 0 in
      Ok {| summary_portfolio := portfolio;
            summary_total_value := total_value;
            daily_change := 0;
            daily_change_percent := 0;
            overall_return := overall_return;
            overall_return_percent := overall_return_percent;
            summary_holdings := holdings;
            summary_risk_analysis := risk_analysis |}
  end.

(** A holding of a known stock whose price is neither missing nor zero. *)
Definition priced (db : Database) (holding : tables.Holding.t) : bool :=
  match stock_by_id db (tables.Holding.stock_id holding) with
  | Some stock =>
      match tables.Stock.current_price stock with
      | Some price => truthy price
      | None => false
      end
  | None => false
  end.

(** ** [analysis_service.py]: sentiment *)

(** A Python [str] is the sequence of its characters, each given by its
    code point, so that [len] counts characters and [text[:n]] keeps the
    first [n] characters, whatever their encoding. *)
Definition pystr : Type := list N.

(** [text[:n]]. *)
Definition str_slice_to (n : nat) (text : pystr) : pystr := firstn n text.

(** The [str] of a literal of ASCII characters. *)
Definition pystr_of_string (s : string) : pystr :=
  map N_of_ascii (list_ascii_of_string s).

Fixpoint pystr_eqb (a b : pystr) : bool :=
  match a, b with
  | [], [] => true
  | x :: a', y :: b' => N.eqb x y && pystr_eqb a' b'
  | _, _ => false
  end.

(** One prediction of the FinBERT pipeline, and the pipeline itself: a text
    gives the list of its predictions, or the exception the model raises. *)
Module Prediction.
Record t : Type := {
  label : string;
  score : float
}.
End Prediction.

Definition SentimentAnalyzer : Type := pystr -> result (list Prediction.t).

(** One result of [analyze_sentiment]. *)
Module SentimentResult.
Record t : Type := {
  text : pystr;
  sentiment_score : float;
  confidence : float;
  label : string;
  analysis_date : Z
}.
End SentimentResult.

Definition model_name : string := "ProsusAI/finbert".

Definition label_map : list (string * float) :=
  [("positive", 1.0); ("neutral", 0.0); ("negative", -1.0)].

(** [d.get(key, default)]. *)
Definition dict_get_default {V : Type} (d : list (string * V)) (key : string)
    (default : V) : V :=
  match dict_get d key with
  | Some v => v
  | None => default
  end.

(** [xs[0]] of a list. *)
Definition list_first {A : Type} (xs : list A) : result A :=
  match xs with
  | [] => Raise (IndexError "list index out of range")
  | x :: _ => Ok x
  end.

Section SentimentService.

(** Loading the model and its tokenizer and building the pipeline
    ([from_pretrained] twice, then [pipeline]), and [datetime.utcnow()]. *)
Variable load_pipeline : string -> result SentimentAnalyzer.
Variable utcnow : Z.

(** [self.sentiment_analyzer] is the state; the pipeline is built on first
    use and kept. *)
Definition get_sentiment_analyzer (sentiment_analyzer : option SentimentAnalyzer)
  : option SentimentAnalyzer * result SentimentAnalyzer :=
  match sentiment_analyzer with
  | None =>
      match load_pipeline model_name with
      | Ok analyzer => (Some analyzer, Ok analyzer)
      | Raise e => (None, Raise e)
      end
  | Some analyzer => (Some analyzer, Ok analyzer)
  end.

(** One turn of [for text in texts]. *)
Definition sentiment_step (analyzer : SentimentAnalyzer)
    (results : list SentimentResult.t) (text : pystr)
  : result (list SentimentResult.t) :=
  (* Get raw sentiment prediction *)
  predictions <- analyzer text ;;
  prediction <- list_first predictions ;;
  (* Create result object *)
  Ok (results
      ++ [{| SentimentResult.text := str_slice_to 500 text; (* Store snippet only *)
             SentimentResult.sentiment_score :=
               dict_get_default label_map (Prediction.label prediction) 0.0;
             SentimentResult.confidence := Prediction.score prediction;
             SentimentResult.label := Prediction.label prediction;
             SentimentResult.analysis_date := utcnow |}]).

Definition analyze_sentiment (sentiment_analyzer : option SentimentAnalyzer)
    (texts : list pystr)
  : option SentimentAnalyzer * result (list SentimentResult.t) :=
  let '(sentiment_analyzer, analyzer) := get_sentiment_analyzer sentiment_analyzer in
  (sentiment_analyzer,
   try_except
     (analyzer <- analyzer ;;
      for_each (sentiment_step analyzer) texts [])
     (fun e => Raise (Exception ("Error analyzing sentiment: " ++ str_exn e)))).

End SentimentService.

(** What a result has to do with its text, under a pipeline: its text is
    the beginning of the text, 500 characters long or the whole text. *)
Definition result_of (analyzer : SentimentAnalyzer) (text : pystr)
    (r : SentimentResult.t) : Prop :=
  (exists rest, text = SentimentResult.text r ++ rest)
  /\ length (SentimentResult.text r) = Nat.min 500 (length text)
  /\ (exists prediction rest,
         analyzer text = Ok (prediction :: rest)
         /\ SentimentResult.label r = Prediction.label prediction
         /\ SentimentResult.confidence r = Prediction.score prediction)
  /\ SentimentResult.sentiment_score r
     = if String.eqb (SentimentResult.label r) "positive" then 1
       else if String.eqb (SentimentResult.label r) "negative" then -1
       else 0.

(** A pipeline that calls every text that mentions no loss positive, gives
    a label of its own to a text of one character and no prediction for the
    empty text. *)
Definition sample_analyzer : SentimentAnalyzer :=
  fun text =>
    match text with
    | [] => Ok []
    | [_] => Ok [{| Prediction.label := "LABEL_0"; Prediction.score := 0.5 |}]
    | _ =>
        if pystr_eqb (firstn 4 text) (pystr_of_string "loss") then
          Ok [{| Prediction.label := "negative"; Prediction.score := 0.9 |}]
        else Ok [{| Prediction.label := "positive"; Prediction.score := 0.8 |}]
    end.

(** A text of 600 characters outside ASCII, each the letter e with an acute
    accent (code point 233, two bytes in UTF-8). *)
Definition accented_text : pystr := repeat 233%N 600.

(** The texts of a request: three of ASCII characters and the accented one. *)
Definition sample_texts : list pystr :=
  [ pystr_of_string "profit up"; pystr_of_string "loss widened";
    pystr_of_string "x"; accented_text ].

(** The per-asset ratio as the specification words it: the annualized return
    of the instrument over its annualized volatility, 0 being substituted
    when the volatility is 0. *)
Definition claimed_asset_sharpe (series : list float) : float :=
  let asset_return := pd_mean series * 252 in
  let asset_risk := pd_std 1 series * np_sqrt 252 in
  if asset_risk =? 0 then 0 else asset_return / asset_risk.

(** Returns of two instruments over a single date. *)
Definition one_return_each : DataFrame := [("A", [0.05]); ("B", [0.02])].

(** ** Sample database *)

Definition sample_analysis (portfolio_id date : Z) (score : Z) : RiskAnalysis.t :=
  {| RiskAnalysis.portfolio_id := portfolio_id;
     RiskAnalysis.risk_score := score;
     RiskAnalysis.volatility := 0.2;
     RiskAnalysis.sharpe_ratio := 1.5;
     RiskAnalysis.var_95 := PyFloat 0.02;
     RiskAnalysis.recommendations :=
       {| summary := ""; diversification := ""; sector_exposure := "";
          optimization := [] |};
     RiskAnalysis.analysis_date := date |}.

Definition sample_portfolio (id owner : Z) (name : string) : tables.Portfolio.t :=
  {| tables.Portfolio.id := id;
     tables.Portfolio.name := name;
     tables.Portfolio.description := None;
     tables.Portfolio.owner_id := owner;
     tables.Portfolio.created_at := 0;
     tables.Portfolio.updated_at := 0 |}.

Definition sample_stock (id : Z) (symbol : string) (price : option float)
  : tables.Stock.t :=
  {| tables.Stock.id := id;
     tables.Stock.symbol := symbol;
     tables.Stock.name := symbol;
     tables.Stock.sector := None;
     tables.Stock.industry := None;
     tables.Stock.current_price := price;
     tables.Stock.last_updated := None |}.

Definition sample_holding (id portfolio_id stock_id : Z) (quantity price : float)
  : tables.Holding.t :=
  {| tables.Holding.id := id;
     tables.Holding.portfolio_id := portfolio_id;
     tables.Holding.stock_id := stock_id;
     tables.Holding.quantity := quantity;
     tables.Holding.average_buy_price := price;
     tables.Holding.created_at := 0;
     tables.Holding.updated_at := 0 |}.

(** Portfolios 1 and 2 of user 7 and portfolio 3 of user 8; three stocks, the
    third without a price; analyses of portfolios 1 and 3. *)
Definition sample_database : Database :=
  {| portfolios_table :=
       [ sample_portfolio 1 7 "Growth"; sample_portfolio 2 7 "Income";
         sample_portfolio 3 8 "Other" ];
     stocks_table :=
       [ sample_stock 10 "A" (Some 102); sample_stock 11 "B" (Some 50);
         sample_stock 12 "C" None ];
     holdings_table :=
       [ sample_holding 100 1 10 2 90; sample_holding 101 1 11 4 55;
         sample_holding 102 3 10 1 100; sample_holding 103 1 12 5 10 ];
     transactions_table := [];
     risk_analyses_table :=
       [ sample_analysis 1 1000 4; sample_analysis 3 1500 9;
         sample_analysis 1 3000 6; sample_analysis 1 2000 5 ];
     sentiment_analyses_table := [] |}.

Definition user7 : models.User.t := {| models.User.id := 7 |}.

(** Requests on the sample database; the portfolio named in the body is not
    the one of the path. *)
Definition sample_transaction (stock_id : Z) (transaction_type : string)
    (quantity price : float) : schemas.TransactionCreate.t :=
  {| schemas.TransactionCreate.stock_id := stock_id;
     schemas.TransactionCreate.transaction_type := transaction_type;
     schemas.TransactionCreate.quantity := quantity;
     schemas.TransactionCreate.price := price;
     schemas.TransactionCreate.transaction_date := None;
     schemas.TransactionCreate.notes := None;
     schemas.TransactionCreate.portfolio_id := 3 |}.

Definition sample_holding_request (stock_id : Z) (quantity price : float)
  : schemas.HoldingCreate.t :=
  {| schemas.HoldingCreate.stock_id := stock_id;
     schemas.HoldingCreate.quantity := quantity;
     schemas.HoldingCreate.average_buy_price := price;
     schemas.HoldingCreate.portfolio_id := 3 |}.

(** * Properties *)

(** ** Comparisons of binary64 numbers *)

Lemma SFcompare_antisym (x y : spec_float) :
  SFcompare y x = option_map CompOpp (SFcompare x y).
Proof.
  destruct x as [sx|sx| |sx mx ex], y as [sy|sy| |sy my ey]; simpl;
    try reflexivity;
    try (destruct sx; reflexivity); try (destruct sy; reflexivity);
    try (destruct sx, sy; reflexivity).
  destruct sx, sy; simpl; try reflexivity;
    rewrite (Z.compare_antisym ey ex); destruct (ey ?= ex)%Z eqn:E; simpl;
    try reflexivity;
    rewrite Pos.compare_cont_antisym; simpl;
    try rewrite CompOpp_involutive; reflexivity.
Qed.

Lemma SFcompare_refl (x : spec_float) :
  SFcompare x x = match x with S754_nan => None | _ => Some Eq end.
Proof.
  destruct x as [s|s| |s m e]; simpl; try reflexivity.
  - destruct s; reflexivity.
  - destruct s; rewrite Z.compare_refl, Pos.compare_cont_refl; reflexivity.
Qed.

Lemma is_nan_spec (x : float) :
  is_nan x = match Prim2SF x with S754_nan => true | _ => false end.
Proof.
  unfold is_nan. rewrite eqb_spec. unfold SFeqb.
  rewrite SFcompare_refl. destruct (Prim2SF x); reflexivity.
Qed.

Lemma leb_ltb_false (x y : float) : (x <=? y) = true -> (y <? x) = false.
Proof.
  rewrite leb_spec, ltb_spec. unfold SFleb, SFltb.
  rewrite (SFcompare_antisym (Prim2SF x) (Prim2SF y)).
  destruct (SFcompare (Prim2SF x) (Prim2SF y)) as [[| |]|]; simpl; congruence.
Qed.

Lemma eqb_ltb_false (x y : float) : (x =? y) = true -> (y <? x) = false.
Proof.
  rewrite eqb_spec, ltb_spec. unfold SFeqb, SFltb.
  rewrite (SFcompare_antisym (Prim2SF x) (Prim2SF y)).
  destruct (SFcompare (Prim2SF x) (Prim2SF y)) as [[| |]|]; simpl; congruence.
Qed.

Lemma ltb_nan_r (a x : float) : is_nan x = true -> (a <? x) = false.
Proof.
  rewrite is_nan_spec, ltb_spec. unfold SFltb.
  destruct (Prim2SF x) as [sx|sx| |sx mx ex]; try discriminate.
  intros _. destruct (Prim2SF a); reflexivity.
Qed.

(** Without NaN the order is total. *)
Lemma leb_total (x y : float) :
  is_nan x = false -> is_nan y = false -> (x <=? y) = false -> (y <=? x) = true.
Proof.
  rewrite !is_nan_spec, !leb_spec. unfold SFleb.
  rewrite (SFcompare_antisym (Prim2SF x) (Prim2SF y)).
  destruct (Prim2SF x) as [sx|sx| |sx mx ex], (Prim2SF y) as [sy|sy| |sy my ey];
    simpl; try discriminate; intros _ _;
    try (destruct sx; simpl; congruence); try (destruct sy; simpl; congruence);
    try (destruct sx, sy; simpl; congruence).
  destruct sx, sy; simpl; try congruence;
    destruct (ex ?= ey)%Z; simpl; try congruence;
    destruct (Pos.compare_cont Eq mx my); simpl; congruence.
Qed.

(** [-x < 0] exactly when [0 < x]. *)
Lemma opp_ltb_zero (x : float) : (- x <? 0) = (0 <? x).
Proof.
  rewrite !ltb_spec, opp_spec. unfold SFltb.
  change (Prim2SF 0) with (S754_zero false).
  destruct (Prim2SF x) as [s|s| |s m e]; simpl; try reflexivity;
    destruct s; reflexivity.
Qed.

(** Division by zero gives an infinity or NaN, never a finite number. *)
Lemma div_zero_not_finite (x d : float) :
  (d =? 0) = true -> isfinite (x / d) = false /\ (x / d =? 0) = false.
Proof.
  unfold isfinite. rewrite !eqb_spec, div_spec. unfold SFeqb, SF64div.
  change (Prim2SF 0) with (S754_zero false).
  destruct (Prim2SF d) as [sd|sd| |sd md ed]; simpl; try discriminate.
  - intros _. destruct (Prim2SF x) as [sx|sx| |sx mx ex]; simpl; auto;
      destruct (xorb sx sd); auto.
  - destruct sd; discriminate.
  - destruct sd; discriminate.
Qed.

(** ** The handler never records an analysis *)

Lemma call_generate_recommendations_raises
    (returns : DataFrame) (weights : list float) (symbols : list string)
    (risk_score : Z) (risk_metrics : RiskMetrics) :
  call_generate_recommendations returns weights symbols risk_score risk_metrics
  = Raise (TypeError unexpected_keyword_message).
Proof.
  unfold call_generate_recommendations.
  replace (bind_keywords "generate_recommendations" generate_recommendations_params
             recommendation_keywords)
    with (@Raise unit (TypeError unexpected_keyword_message))
    by (vm_compute; reflexivity).
  reflexivity.
Qed.


Section RouterFacts.

Variable yf_download : list string -> result DataFrame.
Variable service_yf_download : list string -> result DataFrame.
Variable LedoitWolf_fit : DataFrame -> result (list (list float)).
Variable utcnow : Z.

Let body := analysis_body yf_download service_yf_download LedoitWolf_fit utcnow.
Let metrics := compute_metrics yf_download service_yf_download LedoitWolf_fit.

Lemma analysis_body_raises (db : Session) (portfolio_id : Z)
    (confidence_level : float) (symbols : list string)
    (weights : list float) (total_value : float) :
  body db portfolio_id confidence_level symbols weights total_value
  = (st <- metrics confidence_level symbols weights ;;
     Raise (TypeError unexpected_keyword_message)).
Proof.
  unfold body, metrics, analysis_body.
  destruct (compute_metrics _ _ _ _ _ _) as [st|e]; [|reflexivity].
  cbn [bind]. unfold record_analysis.
  rewrite call_generate_recommendations_raises. reflexivity.
Qed.

Lemma try_block_fails (db : Session) (portfolio_id : Z)
    (confidence_level : float) (symbols : list string)
    (weights : list float) (total_value : float) :
  exists e,
    try_except
      (body db portfolio_id confidence_level symbols weights total_value)
      (fun e => Raise (error_response e))
    = Raise (error_response e).
Proof.
  rewrite analysis_body_raises.
  destruct (metrics confidence_level symbols weights) as [st|e]; simpl.
  - now exists (TypeError unexpected_keyword_message).
  - now exists e.
Qed.

End RouterFacts.


(** ** The Sharpe ratio at volatility zero *)

(** The ratio of [calculate_portfolio_var] is not guarded: at volatility zero it is
    an infinity or NaN. *)
Lemma calculate_portfolio_var_sharpe_unguarded
    (yf_download : list string -> result DataFrame) (symbols : list string)
    (weights : list float) (confidence_level : float) (m : RiskMetrics) :
  calculate_portfolio_var yf_download symbols weights confidence_level = Ok m ->
  sharpe_ratio m = (expected_return m - 0.04) / volatility m
  /\ ((volatility m =? 0) = true ->
      isfinite (sharpe_ratio m) = false /\ (sharpe_ratio m =? 0) = false).
Proof.
  unfold calculate_portfolio_var.
  destruct (yf_download symbols) as [data|e]; [|discriminate].
  cbn [bind try_except].
  destruct (dot _ weights) as [portfolio_returns|e]; [|discriminate].
  cbn [bind].
  destruct (calculate_var portfolio_returns confidence_level "daily"); [|discriminate].
  destruct (calculate_var portfolio_returns confidence_level "weekly"); [|discriminate].
  destruct (calculate_var portfolio_returns confidence_level "monthly"); [|discriminate].
  cbn [bind try_except]. intros [= <-]. cbn [sharpe_ratio expected_return volatility].
  split; [reflexivity|]. apply div_zero_not_finite.
Qed.

(** C2 (failing input).  For a price that never moves the volatility is
    exactly 0 and [calculate_portfolio_var] returns the Sharpe ratio
    [-inf], not 0. *)
Theorem calculate_portfolio_var_flat_prices :
  exists m,
    calculate_portfolio_var (fun _ => Ok flat_prices) ["FLAT"] [1] 0.95 = Ok m
    /\ volatility m = 0
    /\ sharpe_ratio m = neg_infinity
    /\ risk_score_of m
       = Raise (OverflowError "cannot convert float infinity to integer").
Proof.
  eexists. split; [vm_compute; reflexivity|].
  repeat split; vm_compute; reflexivity.
Qed.

(** ** [np.sort] sorts *)

Lemma np_le_total (x y : float) : np_le x y = false -> np_le y x = true.
Proof.
  unfold np_le.
  destruct (is_nan y) eqn:Hy; [discriminate|].
  destruct (is_nan x) eqn:Hx; [reflexivity|].
  now apply leb_total.
Qed.

Lemma insert_length (x : float) (l : list float) :
  length (insert x l) = S (length l).
Proof.
  induction l as [|y l IH]; simpl; [reflexivity|].
  destruct (np_le x y); simpl; congruence.
Qed.

Lemma np_sort_length (l : list float) : length (np_sort l) = length l.
Proof.
  induction l as [|x l IH]; simpl; [reflexivity|].
  now rewrite insert_length, IH.
Qed.

Lemma insert_perm (x : float) (l : list float) : Permutation (insert x l) (x :: l).
Proof.
  induction l as [|y l IH]; simpl; [reflexivity|].
  destruct (np_le x y); [reflexivity|].
  rewrite IH. apply perm_swap.
Qed.

Lemma np_sort_perm (l : list float) : Permutation (np_sort l) l.
Proof.
  induction l as [|x l IH]; simpl; [constructor|].
  rewrite insert_perm. now constructor.
Qed.

Lemma insert_hdrel (a x : float) (l : list float) :
  ascending a x -> HdRel ascending a l -> HdRel ascending a (insert x l).
Proof.
  intros Hax Hl. destruct l as [|y l]; simpl; [now constructor|].
  destruct (np_le x y); constructor; [assumption|].
  now inversion Hl.
Qed.

Lemma insert_sorted (x : float) (l : list float) :
  Sorted ascending l -> Sorted ascending (insert x l).
Proof.
  induction 1 as [|y l Hs IH Hhd]; simpl; [repeat constructor|].
  destruct (np_le x y) eqn:Hxy.
  - constructor; [now constructor|]. now constructor.
  - constructor; [assumption|].
    apply insert_hdrel; [|assumption]. now apply np_le_total.
Qed.

Lemma np_sort_sorted (l : list float) : Sorted ascending (np_sort l).
Proof.
  induction l as [|x l IH]; simpl; [constructor|now apply insert_sorted].
Qed.

Lemma np_getitem_in_range (a : list float) (i : Z) :
  (0 <= i < Z.of_nat (length a))%Z ->
  np_getitem a i = Ok (nth (Z.to_nat i) a nan).
Proof.
  intros H. unfold np_getitem.
  replace ((0 <=? i)%Z && (i <? Z.of_nat (length a))%Z) with true; [reflexivity|].
  symmetry. apply andb_true_iff. split; [apply Z.leb_le|apply Z.ltb_lt]; lia.
Qed.

(** ** Value at Risk *)

(** The scaling of [calculate_var] by [timeframe]. *)
Lemma calculate_var_eq (returns : list float) (c : float) (timeframe : string) :
  calculate_var returns c timeframe
  = fmap (fun var =>
            if String.eqb timeframe "weekly" then var * np_sqrt 5
            else if String.eqb timeframe "monthly" then var * np_sqrt 21
            else var)
         (calculate_var returns c "daily").
Proof.
  unfold calculate_var, fmap.
  destruct (py_int _) as [index|e]; [|reflexivity]. cbn [bind].
  destruct (np_getitem _ index) as [x|e]; reflexivity.
Qed.

(** The daily VaR when the selected position lies in the series. *)
Lemma calculate_var_daily_eq (returns : list float) (c : float) (idx : Z) :
  py_int ((1 - c) * flen returns) = Ok idx ->
  (0 <= idx < Z.of_nat (length returns))%Z ->
  calculate_var returns c "daily" = Ok (- nth (Z.to_nat idx) (np_sort returns) nan).
Proof.
  intros Hidx Hrange.
  unfold calculate_var, flen. rewrite np_sort_length.
  fold (flen returns). rewrite Hidx. cbn [bind].
  rewrite np_getitem_in_range by (rewrite np_sort_length; exact Hrange).
  reflexivity.
Qed.

(** C3 (as amended).  When the position [idx = int((1-c)*n)] lies in the
    series, the daily VaR is exactly [-Rp_sorted[idx]], where [Rp_sorted] is
    the returns in ascending order; nothing clamps it at 0: it is negative
    exactly when the selected return is positive. *)
Theorem calculate_var_daily_unclamped (returns : list float) (c : float) (idx : Z) :
  py_int ((1 - c) * flen returns) = Ok idx ->
  (0 <= idx < Z.of_nat (length returns))%Z ->
  calculate_var returns c "daily" = Ok (- nth (Z.to_nat idx) (np_sort returns) nan)
  /\ (- nth (Z.to_nat idx) (np_sort returns) nan <? 0)
     = (0 <? nth (Z.to_nat idx) (np_sort returns) nan)
  /\ Permutation (np_sort returns) returns
  /\ Sorted ascending (np_sort returns).
Proof.
  intros Hidx Hrange.
  split; [now apply calculate_var_daily_eq|].
  split; [apply opp_ltb_zero|].
  split; [apply np_sort_perm|apply np_sort_sorted].
Qed.

Lemma calculate_var_daily_unclamped_witness :
  calculate_var [0.03; -0.02; 0.01] 0.95 "daily" = Ok 0.02.
Proof.
  refine (proj1 (calculate_var_daily_unclamped [0.03; -0.02; 0.01] 0.95 0 _ _)).
  - vm_compute. reflexivity.
  - simpl. lia.
Defined.

(** C3 (counterexample).  Both returns are gains, the selected one is
    [0.01], and the daily VaR is [-0.01], below zero, where the claim has
    [max(0, -0.01) = 0].  And a confidence level in (0,1) so small that
    [1 - c] rounds to 1 selects the position [n], past the end of the
    series: [calculate_var] raises [IndexError]. *)
Lemma calculate_var_negative :
  calculate_var [0.01; 0.02] 0.95 "daily" = Ok (-0.01)
  /\ (-0.01 <? 0) = true
  /\ (0 <? 1e-17) = true /\ (1e-17 <? 1) = true
  /\ calculate_var [0.01; 0.02] 1e-17 "daily"
     = Raise (IndexError "index 2 is out of bounds for axis 0 with size 2").
Proof. repeat split; vm_compute; reflexivity. Qed.

(** ** The risk score *)

(** [round_half_even_scaled a e] is an integer nearest to [a * 2^e], and the
    even one of the two when [a * 2^e] lies half way. *)
Lemma round_half_even_scaled_nearest (a e : Z) :
  (0 <= a)%Z -> (e < 0)%Z ->
  let d := (2 ^ (- e))%Z in
  let z := round_half_even_scaled a e in
  (Z.abs (2 * (z * d - a)) <= d)%Z
  /\ ((2 * (a mod d))%Z = d -> Z.even z = true).
Proof.
  intros Ha He d z. subst z. unfold round_half_even_scaled.
  replace (0 <=? e)%Z with false by (symmetry; apply Z.leb_gt; lia).
  rewrite Z.shiftl_mul_pow2 by lia. rewrite Z.mul_1_l. fold d.
  assert (Hd : (0 < d)%Z) by (apply Z.pow_pos_nonneg; lia).
  pose proof (Z.div_mod a d ltac:(lia)) as Hdm.
  pose proof (Z.mod_pos_bound a d Hd) as Hr.
  destruct (Z.compare_spec (2 * (a mod d)) d) as [Heq|Hlt|Hgt].
  - destruct (Z.even (a / d)) eqn:Hev.
    + split; [nia|intros _; exact Hev].
    + split; [nia|]. intros _.
      rewrite Z.even_add, Hev. reflexivity.
  - split; [nia|lia].
  - split; [nia|lia].
Qed.

Lemma py_round_finite (x : float) :
  isfinite x = true -> py_round x = Ok (round_half_evenSF (Prim2SF x)).
Proof.
  unfold isfinite, py_round, float_to_int.
  destruct (Prim2SF x); simpl; congruence.
Qed.

Lemma py_round_not_finite (x : float) :
  isfinite x = false -> exists e, py_round x = Raise e.
Proof.
  unfold isfinite, py_round, float_to_int.
  destruct (Prim2SF x); simpl; try discriminate; eauto.
Qed.

(** C4 (as amended).  Whenever the scaled mean of the three risk factors is
    finite, the risk score is that mean rounded to the nearest integer (ties
    to even) and clamped to the integers 1 to 10; it depends on the
    volatility, the daily VaR and the Sharpe ratio alone.  A scaled mean that
    is infinite or NaN gives no score: [round] raises. *)
Theorem risk_score_of_spec (m : RiskMetrics) :
  let raw :=
    np_mean [volatility m / 0.3; daily_var m / 0.03; abs (sharpe_ratio m - 2) / 2]
    * 10 in
  (isfinite raw = true ->
   exists score,
     risk_score_of m = Ok score
     /\ score = Z.min 10 (Z.max 1 (round_half_evenSF (Prim2SF raw)))
     /\ (1 <= score <= 10)%Z)
  /\ (isfinite raw = false -> exists e, risk_score_of m = Raise e)
  /\ (forall m',
         volatility m' = volatility m ->
         daily_var m' = daily_var m ->
         sharpe_ratio m' = sharpe_ratio m ->
         risk_score_of m' = risk_score_of m).
Proof.
  intros raw. split; [|split].
  - intros Hfin. unfold risk_score_of, risk_factors. fold raw.
    rewrite (py_round_finite raw Hfin). cbn [bind].
    eexists. split; [reflexivity|]. split; [reflexivity|lia].
  - intros Hinf. unfold risk_score_of, risk_factors. fold raw.
    destruct (py_round_not_finite raw Hinf) as [e He]. rewrite He.
    now exists e.
  - intros m' Hv Hd Hs. unfold risk_score_of, risk_factors.
    now rewrite Hv, Hd, Hs.
Qed.

Lemma risk_score_of_spec_witness : risk_score_of ordinary_metrics = Ok 5%Z.
Proof.
  destruct (proj1 (risk_score_of_spec ordinary_metrics) ltac:(vm_compute; reflexivity))
    as [score [Hscore [Hval _]]].
  rewrite Hscore, Hval. vm_compute. reflexivity.
Defined.

(** C4 (counterexample).  The three inputs are finite, yet the first factor
    [1e308 / 0.3] overflows to infinity and [round] raises [OverflowError]:
    there is no score. *)
Lemma risk_score_overflow :
  isfinite (volatility huge_volatility_metrics) = true
  /\ isfinite (daily_var huge_volatility_metrics) = true
  /\ isfinite (sharpe_ratio huge_volatility_metrics) = true
  /\ risk_score_of huge_volatility_metrics
     = Raise (OverflowError "cannot convert float infinity to integer").
Proof. repeat split; vm_compute; reflexivity. Qed.

(** ** No minimum history *)

(** At confidence 0.95 the bound [ceil(1/(1-c))] is 20; below it the
    selected position is 0. *)
Lemma index_below_bound (n : nat) :
  (n < 20)%nat -> py_int ((1 - 0.95) * float_of_nat n) = Ok 0%Z.
Proof.
  intros H.
  do 20 (destruct n as [|n]; [vm_compute; reflexivity|]).
  lia.
Qed.

Lemma calculate_var_errors (returns : list float) (c : float)
    (timeframe : string) (e : exn) :
  calculate_var returns c timeframe = Raise e ->
  exists msg, e = IndexError msg \/ e = ValueError msg \/ e = OverflowError msg.
Proof.
  unfold calculate_var, py_int, float_to_int, np_getitem.
  destruct (Prim2SF _); cbn [bind];
    try (intros [= <-]; eauto; fail);
    match goal with
    | |- context [if ?b then _ else _] => destruct b; cbn [bind]
    end;
    try discriminate;
    match goal with
    | |- context [if ?b then _ else _] => destruct b; cbn [bind]
    end;
    try discriminate; intros [= <-]; eauto.
Qed.

(** C5 (as amended).  [calculate_var] checks no minimum history: whenever
    the selected position lies in the series it returns a number, however
    few the observations; at the confidence level 0.95 every series of 1 to
    19 observations, fewer than [ceil(1/(1-c)) = 20], yields the negated
    smallest return scaled by the timeframe.  The only failures of
    [calculate_var] are [IndexError] (as for an empty series) and the
    [ValueError] or [OverflowError] of [int()]. *)
Theorem calculate_var_short_history (returns : list float) (timeframe : string) :
  (forall c idx,
      py_int ((1 - c) * flen returns) = Ok idx ->
      (0 <= idx < Z.of_nat (length returns))%Z ->
      exists var, calculate_var returns c timeframe = Ok var)
  /\ ((1 <= length returns < 20)%nat ->
      calculate_var returns 0.95 "daily" = Ok (- nth 0 (np_sort returns) nan)
      /\ exists var, calculate_var returns 0.95 timeframe = Ok var)
  /\ (forall c e,
         calculate_var returns c timeframe = Raise e ->
         exists msg, e = IndexError msg \/ e = ValueError msg \/ e = OverflowError msg)
  /\ calculate_var [] 0.95 timeframe
     = Raise (IndexError "index 0 is out of bounds for axis 0 with size 0").
Proof.
  assert (Hany : forall c idx,
             py_int ((1 - c) * flen returns) = Ok idx ->
             (0 <= idx < Z.of_nat (length returns))%Z ->
             exists var, calculate_var returns c timeframe = Ok var).
  { intros c idx Hidx Hrange.
    rewrite calculate_var_eq, (calculate_var_daily_eq returns c idx Hidx Hrange).
    cbn [fmap bind]. eauto. }
  split; [exact Hany|].
  split; [|split; [intros c e; apply calculate_var_errors|reflexivity]].
  intros Hn.
  assert (Hidx : py_int ((1 - 0.95) * flen returns) = Ok 0%Z)
    by (apply index_below_bound; lia).
  split.
  - apply (calculate_var_daily_eq returns 0.95 0 Hidx). lia.
  - apply (Hany 0.95 0%Z Hidx). lia.
Qed.

Lemma calculate_var_short_history_witness :
  calculate_var [0.01; -0.03; 0.02] 0.95 "daily" = Ok 0.03.
Proof.
  refine (proj1 (proj1 (proj2 (calculate_var_short_history
                                 [0.01; -0.03; 0.02] "daily")) _)).
  simpl. lia.
Defined.

(** C5 (counterexample).  One observation is fewer than
    [ceil(1/(1-0.95)) = 20], and [calculate_var] returns a number. *)
Lemma calculate_var_single_observation :
  (19 <? 1 / (1 - 0.95)) = true
  /\ (1 / (1 - 0.95) <=? 20) = true
  /\ calculate_var [-0.05] 0.95 "daily" = Ok 0.05.
Proof. repeat split; vm_compute; reflexivity. Qed.

(** ** The horizons of the VaR *)

Lemma calculate_portfolio_var_ok
    (yf_download : list string -> result DataFrame) (symbols : list string)
    (weights : list float) (c : float) (m : RiskMetrics) :
  calculate_portfolio_var yf_download symbols weights c = Ok m ->
  exists data portfolio_returns,
    yf_download symbols = Ok data
    /\ dot (dropna (pct_change data)) weights = Ok portfolio_returns
    /\ calculate_var portfolio_returns c "daily" = Ok (daily_var m)
    /\ calculate_var portfolio_returns c "weekly" = Ok (weekly_var m)
    /\ calculate_var portfolio_returns c "monthly" = Ok (monthly_var m).
Proof.
  unfold calculate_portfolio_var.
  destruct (yf_download symbols) as [data|e] eqn:Hdata; [|discriminate].
  cbn [bind try_except].
  destruct (dot _ weights) as [portfolio_returns|e] eqn:Hdot; [|discriminate].
  cbn [bind].
  destruct (calculate_var portfolio_returns c "daily") as [d|e] eqn:Hd;
    [|discriminate].
  destruct (calculate_var portfolio_returns c "weekly") as [w|e] eqn:Hw;
    [|discriminate].
  destruct (calculate_var portfolio_returns c "monthly") as [mo|e] eqn:Hmo;
    [|discriminate].
  cbn [bind try_except]. intros [= <-].
  exists data, portfolio_returns.
  cbn [daily_var weekly_var monthly_var]. auto.
Qed.

Lemma calculate_var_weekly (returns : list float) (c : float) :
  calculate_var returns c "weekly"
  = fmap (fun daily => daily * np_sqrt 5) (calculate_var returns c "daily").
Proof. apply calculate_var_eq. Qed.

Lemma calculate_var_monthly (returns : list float) (c : float) :
  calculate_var returns c "monthly"
  = fmap (fun daily => daily * np_sqrt 21) (calculate_var returns c "daily").
Proof. apply calculate_var_eq. Qed.

(** C9.  The weekly VaR is the daily VaR times [sqrt(5)] and the monthly VaR
    is the daily VaR times [sqrt(21)], exactly: [calculate_var] selects the
    same return for every timeframe and only scales it, and
    [calculate_portfolio_var] reports these three values. *)
Theorem var_horizons_scale (returns : list float) (c : float) :
  calculate_var returns c "weekly"
  = fmap (fun daily => daily * np_sqrt 5) (calculate_var returns c "daily")
  /\ calculate_var returns c "monthly"
     = fmap (fun daily => daily * np_sqrt 21) (calculate_var returns c "daily")
  /\ (forall yf_download symbols weights m,
         calculate_portfolio_var yf_download symbols weights c = Ok m ->
         weekly_var m = daily_var m * np_sqrt 5
         /\ monthly_var m = daily_var m * np_sqrt 21)
  /\ (forall yf_download symbols weights data daily,
         yf_download symbols = Ok data ->
         dot (dropna (pct_change data)) weights = Ok returns ->
         calculate_var returns c "daily" = Ok daily ->
         exists m,
           calculate_portfolio_var yf_download symbols weights c = Ok m
           /\ daily_var m = daily).
Proof.
  split; [apply calculate_var_weekly|].
  split; [apply calculate_var_monthly|].
  split.
  - intros yf_download symbols weights m Hm.
    destruct (calculate_portfolio_var_ok _ _ _ _ _ Hm)
      as (data & pr & _ & _ & Hd & Hw & Hmo).
    rewrite calculate_var_weekly, Hd in Hw.
    rewrite calculate_var_monthly, Hd in Hmo.
    cbn [fmap bind] in Hw, Hmo. split; congruence.
  - intros yf_download symbols weights data daily Hdata Hdot Hdaily.
    unfold calculate_portfolio_var. rewrite Hdata. cbn [bind].
    rewrite Hdot. cbn [bind].
    rewrite calculate_var_weekly, calculate_var_monthly, Hdaily.
    cbn [fmap bind try_except]. eexists. split; reflexivity.
Qed.

Lemma var_horizons_scale_witness :
  exists m,
    calculate_portfolio_var (fun _ => Ok sample_prices) ["A"; "B"] [0.5; 0.5] 0.95
    = Ok m
    /\ weekly_var m = daily_var m * np_sqrt 5
    /\ monthly_var m = daily_var m * np_sqrt 21.
Proof.
  destruct (calculate_portfolio_var (fun _ => Ok sample_prices) ["A"; "B"]
              [0.5; 0.5] 0.95) as [m|e] eqn:Hm.
  - exists m. split; [reflexivity|].
    exact (proj1 (proj2 (proj2 (var_horizons_scale [] 0.95))) _ _ _ _ Hm).
  - exfalso. vm_compute in Hm. discriminate Hm.
Defined.

(** ** Weights *)

Lemma np_sum_app (xs ys : list float) :
  np_sum (xs ++ ys) = fold_left add ys (np_sum xs).
Proof. unfold np_sum. apply fold_left_app. Qed.

(** The loop over the holdings, from any state. *)
Lemma collect_holdings_from (db : Session) (hs : list models.Holding.t)
    (symbols : list string) (values : list float) :
  fold_left (collect_holding db) hs (symbols, values, np_sum values)
  = (symbols ++ map fst (valid_positions db hs),
     values ++ map snd (valid_positions db hs),
     np_sum (values ++ map snd (valid_positions db hs))).
Proof.
  revert symbols values.
  induction hs as [|holding hs IH]; intros symbols values.
  - cbn. now rewrite !app_nil_r.
  - cbn [fold_left valid_positions flat_map].
    unfold collect_holding at 2.
    destruct (find _ (stocks db)) as [stock|]; [|apply IH].
    destruct (models.Stock.current_price stock) as [price|]; [|apply IH].
    destruct (truthy price); [|apply IH].
    cbn [app map fst snd].
    replace (np_sum values + models.Holding.quantity holding * price)
      with (np_sum (values ++ [models.Holding.quantity holding * price]))
      by (rewrite np_sum_app; reflexivity).
    rewrite IH. now rewrite <- !app_assoc.
Qed.

Lemma ltb_asym (x y : float) : (x <? y) = true -> (y <? x) = false.
Proof.
  rewrite !ltb_spec. unfold SFltb.
  rewrite (SFcompare_antisym (Prim2SF x) (Prim2SF y)).
  destruct (SFcompare (Prim2SF x) (Prim2SF y)) as [[| |]|]; simpl; congruence.
Qed.

Lemma valid_positions_length (db : Session) (hs : list models.Holding.t) :
  (length (valid_positions db hs) <= length hs)%nat.
Proof.
  unfold valid_positions. induction hs as [|holding hs IH]; cbn [flat_map length];
    [lia|].
  rewrite length_app.
  destruct (find _ (stocks db)) as [stock|]; [|cbn; lia].
  destruct (models.Stock.current_price stock) as [price|]; [|cbn; lia].
  destruct (truthy price); cbn; lia.
Qed.

(** C10 (as amended).  The loop keeps the holdings of a priced stock, in
    order, with their market values, and their total is the sum of these
    values; [n] is the number of the holdings kept, which can be less than
    the number of holdings.  When the total is above 0 every weight is the
    market value divided by the total.  In every other case, a total of 0, a
    negative total and a total that is NaN alike, every one of the [n]
    holdings kept gets the weight [1/n]. *)
Theorem weights_normalized (db : Session) (hs : list models.Holding.t) :
  let positions := valid_positions db hs in
  let values := map snd positions in
  let total := np_sum values in
  let n := length positions in
  collect_holdings db hs = (map fst positions, values, total)
  /\ length (normalize_weights values total) = n
  /\ (n <= length hs)%nat
  /\ ((0 <? total) = true ->
      normalize_weights values total = map (fun value => value / total) values)
  /\ ((0 <? total) = false ->
      normalize_weights values total = repeat (1 / float_of_nat n) n)
  /\ ((total =? 0) = true \/ (total <? 0) = true \/ is_nan total = true ->
      normalize_weights values total = repeat (1 / float_of_nat n) n).
Proof.
  intros positions values total n.
  split; [exact (collect_holdings_from db hs [] [])|].
  assert (Hlen : length values = n) by apply length_map.
  assert (Helse : (0 <? total) = false ->
                  normalize_weights values total = repeat (1 / float_of_nat n) n).
  { intros H. unfold normalize_weights, flen. now rewrite H, Hlen. }
  split; [|split; [apply valid_positions_length|split; [|split; [exact Helse|]]]].
  - unfold normalize_weights.
    destruct (0 <? total); [now rewrite length_map|now rewrite repeat_length].
  - unfold normalize_weights. now intros ->.
  - intros [H|[H|H]]; apply Helse.
    + now apply eqb_ltb_false.
    + now apply ltb_asym.
    + now apply ltb_nan_r.
Qed.

Lemma weights_normalized_witness :
  normalize_weights [204; 200] 404 = [204 / 404; 200 / 404]
  /\ normalize_weights [0; 0] 0 = [0.5; 0.5]
  /\ normalize_weights [-306; 50] (-256) = [0.5; 0.5].
Proof.
  split; [|split].
  - exact (proj1 (proj2 (proj2 (proj2 (weights_normalized (sample_db 2 4)
                                         (holdings (sample_db 2 4))))))
             ltac:(vm_compute; reflexivity)).
  - exact (proj2 (proj2 (proj2 (proj2 (proj2 (weights_normalized (sample_db 0 0)
                                                (holdings (sample_db 0 0)))))))
             ltac:(left; vm_compute; reflexivity)).
  - exact (proj1 (proj2 (proj2 (proj2 (proj2 (weights_normalized (sample_db (-3) 1)
                                                (holdings (sample_db (-3) 1)))))))
             ltac:(vm_compute; reflexivity)).
Defined.

(** A negative total: three holdings, one without a price, quantities -3
    and 1 of the others.  The total is -256, not 0, and the weights are 1/2
    each: neither the market values over the total, nor a third each. *)
Lemma negative_total_equal_weights :
  length (holdings (sample_db (-3) 1)) = 3%nat
  /\ collect_holdings (sample_db (-3) 1) (holdings (sample_db (-3) 1))
     = (["A"; "B"], [-306; 50], -256)
  /\ (-256 =? 0) = false
  /\ normalize_weights [-306; 50] (-256) = [0.5; 0.5]
  /\ map (fun value => value / -256) [-306; 50] = [1.1953125; -0.1953125].
Proof. vm_compute. repeat split. Qed.

(** ** Recommendations: the optimization list *)

Lemma in_enumerate_from {A : Type} (xs : list A) (start i : nat) (x : A) :
  In (i, x) (combine (seq start (length xs)) xs)
  <-> (start <= i)%nat /\ nth_error xs (i - start) = Some x.
Proof.
  revert start. induction xs as [|y xs IH]; intros start; cbn [length seq combine].
  - split; [intros []|]. intros [_ H]. now destruct (i - start)%nat.
  - cbn [In]. rewrite IH. split.
    + intros [[= <- <-]|[Hle Hnth]].
      * split; [lia|]. now rewrite Nat.sub_diag.
      * split; [lia|].
        replace (i - start)%nat with (S (i - S start)) by lia. exact Hnth.
    + intros [Hle Hnth].
      destruct (Nat.eq_dec i start) as [->|Hne].
      * left. rewrite Nat.sub_diag in Hnth. cbn in Hnth. congruence.
      * right. split; [lia|].
        replace (i - start)%nat with (S (i - S start)) in Hnth by lia.
        exact Hnth.
Qed.

Lemma in_enumerate {A : Type} (xs : list A) (i : nat) (x : A) :
  In (i, x) (enumerate xs) <-> nth_error xs i = Some x.
Proof.
  unfold enumerate. rewrite in_enumerate_from, Nat.sub_0_r.
  split; [tauto|]. intros H. split; [lia|exact H].
Qed.

(** The loop over the symbols, from any list of entries. *)
Lemma for_each_optimization (returns : DataFrame) (weights : list float)
    (ps : list (nat * string)) (acc : list OptimizationEntry) :
  Forall (fun p => (fst p < length weights)%nat
                   /\ exists series, df_getitem returns (snd p) = Ok series) ps ->
  for_each (optimization_step returns weights) ps acc
  = Ok (acc ++ flat_map
                 (fun '(i, sym) =>
                    match df_getitem returns sym with
                    | Ok series =>
                        if (asset_sharpe series <? 0.1) && (0.1 <? nth i weights nan)
                        then [reduce_entry sym (asset_sharpe series)]
                        else []
                    | Raise _ => []
                    end) ps).
Proof.
  intros Hall. revert acc.
  induction Hall as [|[i sym] ps [Hi [series Hs]] _ IH]; intros acc.
  - cbn. now rewrite app_nil_r.
  - cbn [for_each flat_map fst snd] in *.
    unfold optimization_step at 1. rewrite Hs. cbn [bind].
    destruct (asset_sharpe series <? 0.1); cbn [andb].
    + rewrite np_getitem_in_range by lia. cbn [bind].
      rewrite Nat2Z.id.
      destruct (0.1 <? nth i weights nan); cbn [bind]; rewrite IH.
      * now rewrite <- app_assoc.
      * reflexivity.
    + cbn [bind]. now rewrite IH.
Qed.

Lemma leb_zero_cases (x : float) :
  (0 <=? x) = true -> (0 <? x) = true \/ (x =? 0) = true.
Proof.
  rewrite leb_spec, ltb_spec, eqb_spec. unfold SFleb, SFltb, SFeqb.
  rewrite (SFcompare_antisym (Prim2SF x) (Prim2SF 0)).
  destruct (SFcompare (Prim2SF x) (Prim2SF 0)) as [[| |]|]; simpl; intros H;
    first [discriminate H | left; reflexivity | right; reflexivity].
Qed.

Lemma ltb_eqb_false (x y : float) : (x <? y) = true -> (y =? x) = false.
Proof.
  rewrite ltb_spec, eqb_spec. unfold SFltb, SFeqb.
  rewrite (SFcompare_antisym (Prim2SF y) (Prim2SF x)).
  destruct (SFcompare (Prim2SF y) (Prim2SF x)) as [[| |]|]; simpl; congruence.
Qed.

(** C8 (as amended).  When every symbol is a column of the returns and
    [weights] has a weight for each, the optimization list holds a "reduce"
    entry for an instrument exactly when its own ratio is below 0.1 and its
    weight exceeds 0.1; the entries stand in the order of the symbols.  The
    ratio is the annualized mean return of the instrument over its
    annualized volatility, no risk-free rate being taken off, and it is 0
    whenever the volatility is not above 0: at volatility 0, and also at a
    volatility that is NaN, as for a series of a single return.  It is the
    ratio with 0 substituted at volatility 0 as long as the volatility is a
    number that is not negative. *)
Theorem optimization_entries (returns : DataFrame) (weights : list float)
    (symbols : list string) (risk_score : Z) :
  Forall (fun sym => exists series, df_getitem returns sym = Ok series) symbols ->
  (length symbols <= length weights)%nat ->
  (exists r,
      generate_recommendations returns weights symbols risk_score = Ok r
      /\ optimization r = reduce_candidates returns weights symbols
      /\ (forall entry,
             In entry (optimization r)
             <-> exists i sym series,
                   nth_error symbols i = Some sym
                   /\ df_getitem returns sym = Ok series
                   /\ (asset_sharpe series <? 0.1) = true
                   /\ (0.1 <? nth i weights nan) = true
                   /\ entry = {| symbol := sym;
                                 action := "reduce";
                                 reason := reason (reduce_entry sym
                                                     (asset_sharpe series)) |}))
  /\ (forall series,
         ((0 <? pd_std 1 series * np_sqrt 252) = true ->
          asset_sharpe series
          = pd_mean series * 252 / (pd_std 1 series * np_sqrt 252))
         /\ ((0 <? pd_std 1 series * np_sqrt 252) = false ->
             asset_sharpe series = 0)
         /\ (is_nan (pd_std 1 series * np_sqrt 252) = true ->
             asset_sharpe series = 0)
         /\ ((0 <=? pd_std 1 series * np_sqrt 252) = true ->
             asset_sharpe series = claimed_asset_sharpe series)).
Proof.
  intros Hcols Hlen. split.
  - assert (Hps : Forall (fun p => (fst p < length weights)%nat
                                   /\ exists series,
                                        df_getitem returns (snd p) = Ok series)
                         (enumerate symbols)).
    { apply Forall_forall. intros [i sym] Hin. apply in_enumerate in Hin.
      cbn [fst snd]. split.
      - assert (i < length symbols)%nat by (apply nth_error_Some; congruence). lia.
      - rewrite Forall_forall in Hcols. apply Hcols.
        eapply nth_error_In; eassumption. }
    unfold generate_recommendations.
    rewrite (for_each_optimization returns weights _ [] Hps). cbn [bind app].
    eexists. split; [reflexivity|]. cbn [optimization].
    split; [reflexivity|].
    intros entry. rewrite in_flat_map. split.
    + intros [[i sym] [Hin Hentry]]. apply in_enumerate in Hin.
      destruct (df_getitem returns sym) as [series|e] eqn:Hs; [|destruct Hentry].
      destruct (asset_sharpe series <? 0.1) eqn:Hsh; [|destruct Hentry].
      destruct (0.1 <? nth i weights nan) eqn:Hw; [|destruct Hentry].
      destruct Hentry as [<-|[]].
      exists i, sym, series. repeat split; assumption.
    + intros (i & sym & series & Hnth & Hs & Hsh & Hw & ->).
      exists (i, sym). split; [now apply in_enumerate|].
      rewrite Hs, Hsh, Hw. left. reflexivity.
  - intros series. unfold asset_sharpe, claimed_asset_sharpe.
    generalize (pd_mean series * 252) as asset_return.
    generalize (pd_std 1 series * np_sqrt 252) as asset_risk.
    intros asset_risk asset_return.
    split; [now intros ->|]. split; [now intros ->|].
    split; [intros H; now rewrite (ltb_nan_r 0 asset_risk H)|].
    intros H. destruct (leb_zero_cases _ H) as [Hpos|Hzero].
    + now rewrite Hpos, (ltb_eqb_false _ _ Hpos).
    + now rewrite Hzero, (eqb_ltb_false _ _ Hzero).
Qed.

Lemma optimization_entries_witness :
  exists r,
    generate_recommendations mixed_returns [0.15; 0.85] ["LOSS"; "GAIN"] 5 = Ok r
    /\ optimization r
       = [ {| symbol := "LOSS"; action := "reduce";
              reason := "Poor risk-adjusted return (Sharpe ratio: -8.44)" |} ].
Proof.
  destruct (optimization_entries mixed_returns [0.15; 0.85] ["LOSS"; "GAIN"] 5)
    as [[r [Hr [Hopt _]]] _].
  - repeat constructor; eexists; vm_compute; reflexivity.
  - simpl. lia.
  - exists r. split; [exact Hr|]. rewrite Hopt. vm_compute. reflexivity.
Defined.

(** Two instruments with a single return each: the volatility of each is
    NaN, not 0, so that the ratio with 0 substituted at volatility 0 is NaN
    and not below 0.1; both instruments are listed all the same, with the
    ratio 0. *)
Lemma one_return_instruments_listed :
  is_nan (pd_std 1 [0.05] * np_sqrt 252) = true
  /\ (pd_std 1 [0.05] * np_sqrt 252 =? 0) = false
  /\ (claimed_asset_sharpe [0.05] <? 0.1) = false
  /\ (claimed_asset_sharpe [0.02] <? 0.1) = false
  /\ fmap optimization
       (generate_recommendations one_return_each [0.5; 0.5] ["A"; "B"] 5)
     = Ok [ {| symbol := "A"; action := "reduce";
               reason := "Poor risk-adjusted return (Sharpe ratio: 0.00)" |};
            {| symbol := "B"; action := "reduce";
               reason := "Poor risk-adjusted return (Sharpe ratio: 0.00)" |} ].
Proof. vm_compute. repeat split. Qed.

(** ** Recommendations: diversification *)

Lemma generate_recommendations_diversification (returns : DataFrame)
    (weights : list float) (symbols : list string) (risk_score : Z)
    (r : Recommendations) :
  generate_recommendations returns weights symbols risk_score = Ok r ->
  diversification r = diversification_message (avg_correlation returns)
  /\ summary r = summary_message risk_score.
Proof.
  unfold generate_recommendations.
  destruct (for_each _ _ _) as [opt|e]; [|discriminate].
  cbn [bind]. intros [= <-]. split; reflexivity.
Qed.

(** One instrument has no pair: the mean over the empty upper triangle of
    its 1 x 1 correlation matrix is NaN. *)
Lemma avg_correlation_single (name : string) (series : list float) :
  avg_correlation [(name, series)] = nan.
Proof.
  unfold avg_correlation, pd_corr, triu_values, enumerate.
  cbn [length seq combine map flat_map Nat.add skipn app Nat.leb].
  reflexivity.
Qed.

Lemma diversification_messages_differ :
  high_correlation_message <> moderate_diversification_message
  /\ high_correlation_message <> well_diversified_message
  /\ moderate_diversification_message <> well_diversified_message.
Proof. repeat split; discriminate. Qed.

(** A mean of at most 0.5 is not above 0.7. *)
Lemma leb_half_not_above (x : float) : (x <=? 0.5) = true -> (0.7 <? x) = false.
Proof.
  rewrite ltb_spec, leb_spec. unfold SFltb, SFleb.
  change (Prim2SF 0.7) with (S754_finite false 6305039478318694 (-53)).
  change (Prim2SF 0.5) with (S754_finite false 4503599627370496 (-53)).
  destruct (Prim2SF x) as [s|s| |s m e]; try reflexivity.
  - destruct s; [reflexivity|discriminate].
  - destruct s; [reflexivity|].
    unfold SFcompare.
    rewrite (Z.compare_antisym e (-53)).
    destruct (e ?= -53)%Z eqn:He; cbn [CompOpp]; try reflexivity; try discriminate.
    rewrite !Pos.compare_cont_spec. unfold Pos.switch_Eq.
    destruct (Pos.compare_spec m 4503599627370496) as [H1|H1|H1].
    all: destruct (Pos.compare_spec 6305039478318694 m) as [H2|H2|H2].
    all: cbv iota.
    all: try reflexivity.
    all: try (intros; discriminate).
    all: intros _; exfalso.
    + subst m. vm_compute in H2. discriminate H2.
    + apply (Pos.lt_irrefl m).
      apply (Pos.lt_trans _ _ _ H1).
      apply (Pos.lt_trans _ 6305039478318694); [|exact H2].
      reflexivity.
Qed.

Lemma diversification_message_bands (avg : float) :
  ((0.7 <? avg) = true ->
   diversification_message avg = high_correlation_message)
  /\ ((0.5 <? avg) = true -> (avg <=? 0.7) = true ->
      diversification_message avg = moderate_diversification_message)
  /\ ((avg <=? 0.5) = true ->
      diversification_message avg = well_diversified_message)
  /\ (is_nan avg = true ->
      diversification_message avg = well_diversified_message).
Proof.
  unfold diversification_message.
  split; [now intros ->|].
  split; [intros Hlo Hhi; now rewrite (leb_ltb_false _ _ Hhi), Hlo|].
  split.
  { intros Hle.
    rewrite (leb_half_not_above _ Hle), (leb_ltb_false _ _ Hle). reflexivity. }
  intros Hnan. now rewrite !(ltb_nan_r _ _ Hnan).
Qed.

(** C7 (as amended).  The diversification message follows the mean of the
    entries above the diagonal of the correlation matrix of the returns:
    above 0.7 the "high correlation" message, in (0.5, 0.7] the "moderate"
    message, at 0.5 or below the "well-diversified" message.  For a single
    instrument the step is not skipped: that mean is NaN, no comparison
    holds, and the message is the "well-diversified" one. *)
Theorem diversification_bands (returns : DataFrame) :
  let avg := avg_correlation returns in
  ((0.7 <? avg) = true ->
   diversification_message avg = high_correlation_message)
  /\ ((0.5 <? avg) = true -> (avg <=? 0.7) = true ->
      diversification_message avg = moderate_diversification_message)
  /\ ((avg <=? 0.5) = true ->
      diversification_message avg = well_diversified_message)
  /\ (is_nan avg = true ->
      diversification_message avg = well_diversified_message)
  /\ (forall weights symbols risk_score r,
         generate_recommendations returns weights symbols risk_score = Ok r ->
         diversification r = diversification_message avg)
  /\ (forall name series weights symbols risk_score r,
         generate_recommendations [(name, series)] weights symbols risk_score = Ok r ->
         avg_correlation [(name, series)] = nan
         /\ diversification r = well_diversified_message).
Proof.
  intros avg.
  destruct (diversification_message_bands avg) as (Hhigh & Hmod & Hwell & Hnan).
  split; [exact Hhigh|]. split; [exact Hmod|].
  split; [exact Hwell|]. split; [exact Hnan|].
  split.
  { intros weights symbols risk_score r Hr.
    apply (generate_recommendations_diversification _ _ _ _ _ Hr). }
  intros name series weights symbols risk_score r Hr.
  split; [apply avg_correlation_single|].
  rewrite (proj1 (generate_recommendations_diversification _ _ _ _ _ Hr)).
  rewrite avg_correlation_single. reflexivity.
Qed.

Lemma diversification_bands_witness :
  diversification_message (avg_correlation sample_returns) = high_correlation_message
  /\ diversification_message (avg_correlation moderate_returns)
     = moderate_diversification_message
  /\ diversification_message (avg_correlation mixed_returns) = well_diversified_message.
Proof.
  split; [|split].
  - apply (proj1 (diversification_bands sample_returns)).
    vm_compute. reflexivity.
  - apply (proj1 (proj2 (diversification_bands moderate_returns)));
      vm_compute; reflexivity.
  - apply (proj1 (proj2 (proj2 (diversification_bands mixed_returns)))).
    vm_compute. reflexivity.
Defined.

(** C7 (counterexample).  For a portfolio of one instrument the call
    returns, and its diversification message is the "well-diversified" one
    of the three bands, not a state of its own. *)
Lemma single_instrument_message :
  exists r,
    generate_recommendations single_returns [1] ["A"] 5 = Ok r
    /\ diversification r = well_diversified_message.
Proof. eexists. split; vm_compute; reflexivity. Qed.

(** ** The returns step *)

Lemma map2_length {A B C : Type} (f : A -> B -> C) (xs : list A) (ys : list B) :
  length (map2 f xs ys) = Nat.min (length xs) (length ys).
Proof.
  revert ys. induction xs as [|x xs IH]; intros [|y ys]; cbn; auto.
Qed.

Lemma ffill_from_length (last : float) (xs : list float) :
  length (ffill_from last xs) = length xs.
Proof.
  revert last. induction xs as [|x xs IH]; intros last; cbn; auto.
Qed.

Lemma pct_change_series_length (xs : list float) :
  length (pct_change_series xs) = length xs.
Proof.
  unfold pct_change_series, ffill.
  pose proof (ffill_from_length nan xs) as H.
  destruct (ffill_from nan xs) as [|p ps]; [exact H|].
  cbn [length] in *. rewrite map2_length. cbn [length]. lia.
Qed.

Lemma pct_change_columns (df : DataFrame) : map fst (pct_change df) = map fst df.
Proof.
  unfold pct_change. rewrite map_map. apply map_ext. now intros [name c].
Qed.

Lemma dropna_columns (df : DataFrame) : map fst (dropna df) = map fst df.
Proof.
  unfold dropna. rewrite map_map. apply map_ext. now intros [name c].
Qed.

Lemma pct_change_nrows (df : DataFrame) : nrows (pct_change df) = nrows df.
Proof.
  destruct df as [|[name c] df]; [reflexivity|].
  cbn. apply pct_change_series_length.
Qed.

Lemma pct_change_well_formed (df : DataFrame) :
  well_formed df -> well_formed (pct_change df).
Proof.
  unfold well_formed. rewrite pct_change_nrows.
  intros H. unfold pct_change. apply Forall_map.
  eapply Forall_impl; [|exact H].
  intros [name c]. cbn. intros <-. apply pct_change_series_length.
Qed.

Lemma mask_fold_length (df : DataFrame) (m : list bool) (n : nat) :
  Forall (fun c => length (snd c) = n) df -> length m = n ->
  length (fold_left mask_step df m) = n.
Proof.
  intros Hdf. revert m.
  induction Hdf as [|[name c] df Hc _ IH]; intros m Hm; [exact Hm|].
  cbn [fold_left]. apply IH. cbn [mask_step snd] in *.
  rewrite map2_length, length_map. lia.
Qed.

Lemma nth_map2_andb (m : list bool) (series : list float) (t : nat) :
  nth t (map2 andb m (map notnan series)) false = true ->
  nth t m false = true /\ (t < length series)%nat
  /\ notnan (nth t series nan) = true.
Proof.
  revert series t.
  induction m as [|b m IH]; intros [|x series] [|t]; cbn; try discriminate.
  - intros H. apply andb_true_iff in H. destruct H as [-> ->].
    repeat split. lia.
  - intros H. destruct (IH _ _ H) as (H1 & H2 & H3). repeat split; auto. lia.
Qed.

Lemma mask_fold_sound (df : DataFrame) (m : list bool) (t : nat) :
  nth t (fold_left mask_step df m) false = true ->
  nth t m false = true
  /\ Forall (fun c => (t < length (snd c))%nat
                      /\ notnan (nth t (snd c) nan) = true) df.
Proof.
  revert m. induction df as [|[name c] df IH]; intros m H; cbn [fold_left] in H.
  - split; [exact H|constructor].
  - destruct (IH _ H) as [Hm Hdf]. cbn [mask_step] in Hm.
    destruct (nth_map2_andb _ _ _ Hm) as (H1 & H2 & H3).
    split; [exact H1|]. constructor; [split; assumption|exact Hdf].
Qed.

Lemma select_length (mask : list bool) (xs : list float) :
  length mask = length xs ->
  length (select mask xs) = length (filter (fun b : bool => b) mask).
Proof.
  revert xs. induction mask as [|b mask IH]; intros [|x xs] H; cbn in *;
    try discriminate; [reflexivity|].
  destruct b; cbn; rewrite IH by lia; reflexivity.
Qed.

Lemma select_Forall (P : float -> Prop) (mask : list bool) (xs : list float) :
  (forall t, nth t mask false = true -> (t < length xs)%nat -> P (nth t xs nan)) ->
  Forall P (select mask xs).
Proof.
  revert xs. induction mask as [|b mask IH]; intros [|x xs] H; cbn;
    try constructor.
  assert (Hrest : Forall P (select mask xs)).
  { apply IH. intros t Ht Hlt. apply (H (S t)); cbn; [exact Ht|lia]. }
  destruct b; [|exact Hrest].
  constructor; [|exact Hrest]. apply (H 0%nat); cbn; [reflexivity|lia].
Qed.

Lemma dropna_lengths (df : DataFrame) :
  well_formed df ->
  Forall (fun c => length (snd c) = kept_rows df) (dropna df).
Proof.
  intros Hwf. unfold dropna, kept_rows. apply Forall_map.
  assert (Hmask : length (row_mask df) = nrows df).
  { apply mask_fold_length; [exact Hwf|apply repeat_length]. }
  eapply Forall_impl; [|exact Hwf].
  intros [name c]. cbn [snd]. intros Hc.
  apply select_length. congruence.
Qed.

Lemma dropna_no_nan (df : DataFrame) :
  Forall (fun c => Forall (fun x => is_nan x = false) (snd c)) (dropna df).
Proof.
  unfold dropna. apply Forall_map. apply Forall_forall.
  intros [name c] Hin. cbn [snd].
  apply select_Forall. intros t Ht _.
  destruct (mask_fold_sound _ _ _ Ht) as [_ Hall].
  rewrite Forall_forall in Hall. destruct (Hall _ Hin) as [_ Hnn].
  cbn [snd] in Hnn. unfold notnan in Hnn.
  now apply negb_true_iff in Hnn.
Qed.

Lemma dot_raises_iff (df : DataFrame) (weights : list float) :
  (exists e, dot df weights = Raise e) <-> length weights <> length df.
Proof.
  unfold dot. destruct (Nat.eqb_spec (length df) (length weights)) as [Heq|Hne].
  - split; [intros [e He]; discriminate|congruence].
  - split; [congruence|]. intros _. eauto.
Qed.

Section ReturnsStep.

Variable yf_download : list string -> result DataFrame.
Variable service_yf_download : list string -> result DataFrame.
Variable LedoitWolf_fit : DataFrame -> result (list (list float)).

(** One symbol: the variance is that of the instrument's own returns, and
    no covariance is estimated. *)
Lemma single_stock_variance (confidence_level : float) (sym : string)
    (weights : list float) (st : analysis_state) :
  compute_metrics yf_download service_yf_download LedoitWolf_fit
    confidence_level [sym] weights = Ok st ->
  exists data name series rest,
    yf_download [sym] = Ok data
    /\ dropna (pct_change data) = (name, series) :: rest
    /\ st_returns st = (name, series) :: rest
    /\ st_portfolio_variance st = pd_var 1 series.
Proof.
  unfold compute_metrics.
  destruct (yf_download [sym]) as [data|e]; [|discriminate].
  cbn [bind length Nat.ltb Nat.leb].
  destruct (dropna (pct_change data)) as [|[name series] rest] eqn:Hret;
    [discriminate|].
  cbn [first_column_var bind].
  destruct (weighted_mean_return _ weights) as [mean_return|e]; [|discriminate].
  cbn [bind].
  destruct (calculate_portfolio_var _ _ _ _) as [risk_metrics|e]; [|discriminate].
  cbn [bind].
  destruct (risk_score_of risk_metrics) as [risk_score|e]; [|discriminate].
  cbn [bind]. intros [= <-].
  exists data, name, series, rest. cbn. auto.
Qed.

End ReturnsStep.

(** C6 (as amended).  The returns step drops dates, never instruments: the
    columns of the returns are those of the prices; every date on which some
    instrument has no return is removed from all instruments alike, so that
    the series keep one common length (which may be below 2) and hold no
    missing value; the weights are used as given, one per instrument of the
    prices.  Nothing checks the number of instruments: a portfolio of one
    instrument is analysed through the variance of its own returns. *)
Theorem returns_step_keeps_instruments (data : DataFrame) :
  map fst (dropna (pct_change data)) = map fst data
  /\ (well_formed data ->
      Forall (fun c => length (snd c) = kept_rows (pct_change data))
             (dropna (pct_change data)))
  /\ Forall (fun c => Forall (fun x => is_nan x = false) (snd c))
            (dropna (pct_change data))
  /\ (forall weights,
         (exists e, dot (dropna (pct_change data)) weights = Raise e)
         <-> length weights <> length data)
  /\ (forall yf_download service_yf_download LedoitWolf_fit
             confidence_level sym weights st,
         yf_download [sym] = Ok data ->
         compute_metrics yf_download service_yf_download LedoitWolf_fit
           confidence_level [sym] weights = Ok st ->
         exists name series rest,
           dropna (pct_change data) = (name, series) :: rest
           /\ st_portfolio_variance st = pd_var 1 series).
Proof.
  split; [now rewrite dropna_columns, pct_change_columns|].
  split; [intros Hwf; apply dropna_lengths, pct_change_well_formed, Hwf|].
  split; [apply dropna_no_nan|].
  split.
  { intros weights. rewrite dot_raises_iff.
    unfold dropna, pct_change. now rewrite !length_map. }
  intros yf_download service_yf_download LedoitWolf_fit confidence_level
         sym weights st Hdata Hst.
  destruct (single_stock_variance _ _ _ _ _ _ _ Hst)
    as (data' & name & series & rest & Hdata' & Hret & _ & Hvar).
  rewrite Hdata in Hdata'. injection Hdata' as <-.
  exists name, series, rest. split; assumption.
Qed.

Lemma returns_step_keeps_instruments_witness :
  map fst (dropna (pct_change sample_prices)) = ["A"; "B"]
  /\ Forall (fun c => length (snd c) = 4%nat) (dropna (pct_change sample_prices)).
Proof.
  split.
  - exact (proj1 (returns_step_keeps_instruments sample_prices)).
  - apply (proj1 (proj2 (returns_step_keeps_instruments sample_prices))).
    repeat constructor.
Defined.

(** C6 (counterexample).  A portfolio of one instrument is analysed, by the
    service and by the handler alike, where the claim has it fail; and two
    instruments with a single return each, fewer than 2, are both kept with
    their weights [0.5] and [0.5], and a VaR is computed from that single
    date. *)
Lemma short_histories_are_analysed :
  (exists m,
      calculate_portfolio_var (fun _ => Ok one_stock_prices) ["A"] [1] 0.95 = Ok m)
  /\ (exists st,
         compute_metrics (fun _ => Ok one_stock_prices) (fun _ => Ok one_stock_prices)
           (fun _ => Raise (ValueError "not called")) 0.95 ["A"] [1] = Ok st)
  /\ map (fun c => (fst c, length (snd c))) (dropna (pct_change two_date_prices))
     = [("A", 1%nat); ("B", 1%nat)]
  /\ (exists m,
         calculate_portfolio_var (fun _ => Ok two_date_prices) ["A"; "B"]
           [0.5; 0.5] 0.95 = Ok m
         /\ daily_var m = - (0 + (101 / 100 - 1) * 0.5 + (49 / 50 - 1) * 0.5)).
Proof.
  split; [eexists; vm_compute; reflexivity|].
  split; [eexists; vm_compute; reflexivity|].
  split; [vm_compute; reflexivity|].
  eexists. split; vm_compute; reflexivity.
Qed.

(** ** Further properties *)

(** A request for the sample portfolio ends in the catch-all response. *)
Example analyze_portfolio_risk_sample :
  analyze_portfolio_risk (fun _ => Ok sample_prices) (fun _ => Ok sample_prices)
    (fun _ => Ok [[0.0001; 0.00005]; [0.00005; 0.0001]]) 0
    (sample_db 2 4) 1 0.95 {| models.User.id := 7 |}
  = Raise (HTTPException 500
             ("Error analyzing portfolio risk: " ++ unexpected_keyword_message)).
Proof. vm_compute. reflexivity. Qed.

(** The instrument of weight 0.05 is not listed: its weight does not exceed
    0.1, though its Sharpe ratio is below 0.1. *)
Example optimization_small_weight :
  fmap optimization
       (generate_recommendations mixed_returns [0.05; 0.95] ["LOSS"; "GAIN"] 5)
  = Ok [].
Proof. vm_compute. reflexivity. Qed.

(** X1.  The guarded Sharpe ratios: the handler's own ratio, and the ratio
    of a single asset, are 0 when the volatility is 0. *)
Theorem sharpe_ratio_guarded (expected_return volatility : float)
    (series : list float) :
  ((volatility =? 0) = true ->
   handler_sharpe_ratio expected_return volatility = 0)
  /\ ((pd_std 1 series * np_sqrt 252 =? 0) = true -> asset_sharpe series = 0).
Proof.
  split; intros H.
  - unfold handler_sharpe_ratio. now rewrite (eqb_ltb_false _ _ H).
  - unfold asset_sharpe. now rewrite (eqb_ltb_false _ _ H).
Qed.

Lemma sharpe_ratio_guarded_witness :
  handler_sharpe_ratio 0.12 0 = 0 /\ asset_sharpe [0.01; 0.01; 0.01] = 0.
Proof.
  split.
  - apply (proj1 (sharpe_ratio_guarded 0.12 0 [])). reflexivity.
  - apply (proj2 (sharpe_ratio_guarded 0 0 [0.01; 0.01; 0.01])).
    vm_compute. reflexivity.
Defined.

(** X2.  [np.sort] returns the same values in ascending order, NaN last. *)
Theorem np_sort_ascending (xs : list float) :
  Permutation (np_sort xs) xs
  /\ Sorted ascending (np_sort xs)
  /\ length (np_sort xs) = length xs.
Proof.
  split; [apply np_sort_perm|].
  split; [apply np_sort_sorted|apply np_sort_length].
Qed.

(** X3.  The summary of the recommendations [generate_recommendations]
    returns is fixed by the risk score alone, whatever the returns, the
    weights and the symbols: it is the high-risk message exactly when the
    score is 8 or more, the moderate one exactly from 5 to 7, and the
    conservative one exactly below 5. *)
Theorem summary_bands (returns : DataFrame) (weights : list float)
    (symbols : list string) (risk_score : Z) (r : Recommendations) :
  generate_recommendations returns weights symbols risk_score = Ok r ->
  (summary r = high_risk_summary <-> (8 <= risk_score)%Z)
  /\ (summary r = moderate_risk_summary <-> (5 <= risk_score <= 7)%Z)
  /\ (summary r = conservative_summary <-> (risk_score < 5)%Z)
  /\ (forall returns' weights' symbols' r',
         generate_recommendations returns' weights' symbols' risk_score = Ok r' ->
         summary r' = summary r).
Proof.
  intros Hr.
  assert (Hsum : forall returns' weights' symbols' r',
             generate_recommendations returns' weights' symbols' risk_score = Ok r' ->
             summary r' = summary_message risk_score).
  { intros returns' weights' symbols' r'. unfold generate_recommendations.
    destruct (for_each _ (enumerate symbols') []) as [entries|e]; cbn [bind];
      [|discriminate].
    now intros [= <-]. }
  rewrite (Hsum _ _ _ _ Hr). unfold summary_message.
  split; [|split; [|split]].
  - destruct (Z.leb_spec 8 risk_score); [tauto|].
    destruct (Z.leb_spec 5 risk_score); (split; [discriminate|lia]).
  - destruct (Z.leb_spec 8 risk_score); [split; [discriminate|lia]|].
    destruct (Z.leb_spec 5 risk_score); [split; [lia|reflexivity]|].
    split; [discriminate|lia].
  - destruct (Z.leb_spec 8 risk_score); [split; [discriminate|lia]|].
    destruct (Z.leb_spec 5 risk_score); [split; [discriminate|lia]|].
    split; [lia|reflexivity].
  - intros returns' weights' symbols' r' Hr'. apply (Hsum _ _ _ _ Hr').
Qed.

Lemma summary_bands_witness :
  exists r,
    generate_recommendations mixed_returns [0.15; 0.85] ["LOSS"; "GAIN"] 9 = Ok r
    /\ summary r = high_risk_summary.
Proof.
  destruct (generate_recommendations mixed_returns [0.15; 0.85] ["LOSS"; "GAIN"] 9)
    as [r|e] eqn:Hr.
  - exists r. split; [reflexivity|].
    apply (proj1 (summary_bands _ _ _ _ _ Hr)). lia.
  - exfalso. vm_compute in Hr. discriminate Hr.
Defined.

(** X4.  At volatility zero the Sharpe ratio of [calculate_portfolio_var] is
    an infinity or NaN, whatever the prices. *)
Theorem service_sharpe_ratio_not_finite
    (yf_download : list string -> result DataFrame) (symbols : list string)
    (weights : list float) (confidence_level : float) (m : RiskMetrics) :
  calculate_portfolio_var yf_download symbols weights confidence_level = Ok m ->
  (volatility m =? 0) = true ->
  isfinite (sharpe_ratio m) = false /\ (sharpe_ratio m =? 0) = false.
Proof.
  intros Hm. exact (proj2 (calculate_portfolio_var_sharpe_unguarded _ _ _ _ _ Hm)).
Qed.

Lemma service_sharpe_ratio_not_finite_witness :
  exists m,
    calculate_portfolio_var (fun _ => Ok two_date_prices) ["A"; "B"] [0.5; 0.5] 0.95
    = Ok m
    /\ isfinite (sharpe_ratio m) = false.
Proof.
  destruct (calculate_portfolio_var (fun _ => Ok two_date_prices) ["A"; "B"]
              [0.5; 0.5] 0.95) as [m|e] eqn:Hm.
  - exists m. split; [reflexivity|].
    apply (service_sharpe_ratio_not_finite _ _ _ _ _ Hm).
    vm_compute in Hm. injection Hm as <-. vm_compute. reflexivity.
  - exfalso. vm_compute in Hm. discriminate Hm.
Defined.

(** ** Reading the risk analyses *)

Lemma insert_desc_perm {A : Type} (key : A -> Z) (x : A) (l : list A) :
  Permutation (insert_desc key x l) (x :: l).
Proof.
  induction l as [|y l IH]; cbn; [reflexivity|].
  destruct (key x <? key y)%Z; [|reflexivity].
  rewrite IH. apply perm_swap.
Qed.

Lemma order_by_desc_perm {A : Type} (key : A -> Z) (rows : list A) :
  Permutation (order_by_desc key rows) rows.
Proof.
  induction rows as [|x rows IH]; cbn; [constructor|].
  rewrite insert_desc_perm. now constructor.
Qed.

Lemma insert_desc_sorted {A : Type} (key : A -> Z) (x : A) (l : list A) :
  StronglySorted (descending key) l ->
  StronglySorted (descending key) (insert_desc key x l).
Proof.
  induction 1 as [|y l Hs IH Hall]; cbn; [repeat constructor|].
  destruct (Z.ltb_spec (key x) (key y)) as [Hlt|Hge].
  - constructor; [exact IH|].
    rewrite Forall_forall in *. intros z Hz.
    apply (Permutation_in _ (insert_desc_perm key x l)) in Hz.
    destruct Hz as [<-|Hz]; [unfold descending; lia|now apply Hall].
  - constructor; [now constructor|].
    constructor; [exact Hge|].
    rewrite Forall_forall in *. intros z Hz.
    specialize (Hall z Hz). unfold descending in *. lia.
Qed.

Lemma order_by_desc_sorted {A : Type} (key : A -> Z) (rows : list A) :
  StronglySorted (descending key) (order_by_desc key rows).
Proof.
  induction rows as [|x rows IH]; cbn; [constructor|now apply insert_desc_sorted].
Qed.

Lemma in_analyses_of (db : Database) (portfolio_id : Z) (r : RiskAnalysis.t) :
  In r (analyses_of db portfolio_id)
  <-> In r (risk_analyses_table db) /\ RiskAnalysis.portfolio_id r = portfolio_id.
Proof.
  unfold analyses_of. split.
  - intros H. apply (Permutation_in _ (order_by_desc_perm _ _)) in H.
    apply filter_In in H. now rewrite Z.eqb_eq in H.
  - intros [Hin Hid].
    apply (Permutation_in _ (Permutation_sym (order_by_desc_perm _ _))).
    apply filter_In. now rewrite Z.eqb_eq.
Qed.

(** The head of the analyses of a portfolio is one of its latest. *)
Lemma analyses_of_head (db : Database) (portfolio_id : Z) (r : RiskAnalysis.t)
    (rest : list RiskAnalysis.t) :
  analyses_of db portfolio_id = r :: rest ->
  In r (risk_analyses_table db)
  /\ RiskAnalysis.portfolio_id r = portfolio_id
  /\ forall r', In r' (risk_analyses_table db) ->
                RiskAnalysis.portfolio_id r' = portfolio_id ->
                (RiskAnalysis.analysis_date r' <= RiskAnalysis.analysis_date r)%Z.
Proof.
  intros Heq.
  assert (Hin : In r (analyses_of db portfolio_id)) by (rewrite Heq; now left).
  apply in_analyses_of in Hin. destruct Hin as [Hin Hid].
  repeat split; try assumption.
  intros r' Hin' Hid'.
  assert (H' : In r' (analyses_of db portfolio_id)) by now apply in_analyses_of.
  pose proof (order_by_desc_sorted RiskAnalysis.analysis_date
                (filter (fun r => (RiskAnalysis.portfolio_id r =? portfolio_id)%Z)
                        (risk_analyses_table db))) as Hs.
  fold (analyses_of db portfolio_id) in Hs. rewrite Heq in Hs, H'.
  inversion Hs as [|? ? _ Hall]; subst.
  destruct H' as [<-|H']; [lia|].
  rewrite Forall_forall in Hall. exact (Hall _ H').
Qed.

Lemma owned_portfolio_some (db : Database) (portfolio_id : Z)
    (current_user : models.User.t) :
  owns db current_user portfolio_id
  <-> exists p, owned_portfolio db portfolio_id current_user = Some p.
Proof.
  unfold owns, owned_portfolio. split.
  - intros (p & Hin & Hid & Hown).
    destruct (find _ (portfolios_table db)) as [q|] eqn:Hfind; [now exists q|].
    exfalso. apply (find_none _ _ Hfind) in Hin.
    rewrite Hid, Hown, !Z.eqb_refl in Hin. discriminate.
  - intros [p Hfind]. apply find_some in Hfind. destruct Hfind as [Hin Hp].
    apply andb_true_iff in Hp. rewrite !Z.eqb_eq in Hp.
    exists p. tauto.
Qed.

Lemma owned_portfolio_none (db : Database) (portfolio_id : Z)
    (current_user : models.User.t) :
  ~ owns db current_user portfolio_id
  <-> owned_portfolio db portfolio_id current_user = None.
Proof.
  rewrite owned_portfolio_some.
  destruct (owned_portfolio db portfolio_id current_user) as [p|].
  - split; [intros H; exfalso; apply H; now exists p|discriminate].
  - split; [reflexivity|]. intros _ [p Hp]. discriminate.
Qed.

Lemma string_of_Z_inj (a b : Z) : string_of_Z a = string_of_Z b -> a = b.
Proof.
  unfold string_of_Z. intros H.
  assert (Hnil : forall n, Z.to_int n <> Decimal.Pos Decimal.Nil
                           /\ Z.to_int n <> Decimal.Neg Decimal.Nil).
  { intros [|p|p]; cbn; split; try discriminate;
      intros E; injection E as E; exact (DecimalPos.Unsigned.to_uint_nonnil _ E). }
  apply DecimalZ.to_int_inj.
  pose proof (NilZero.isi _ (proj1 (Hnil a)) (proj2 (Hnil a))) as Ha.
  pose proof (NilZero.isi _ (proj1 (Hnil b)) (proj2 (Hnil b))) as Hb.
  rewrite H in Ha. congruence.
Qed.

(** X5.  What [get_latest_risk_analysis] returns is an analysis of the
    portfolio asked for, which the caller owns, and no analysis of that
    portfolio is later. *)
Theorem latest_risk_analysis_is_latest (db : Database) (portfolio_id : Z)
    (current_user : models.User.t) (analysis : RiskAnalysis.t) :
  get_latest_risk_analysis db portfolio_id current_user = Ok analysis ->
  owns db current_user portfolio_id
  /\ In analysis (risk_analyses_table db)
  /\ RiskAnalysis.portfolio_id analysis = portfolio_id
  /\ forall r, In r (risk_analyses_table db) ->
               RiskAnalysis.portfolio_id r = portfolio_id ->
               (RiskAnalysis.analysis_date r <= RiskAnalysis.analysis_date analysis)%Z.
Proof.
  unfold get_latest_risk_analysis. intros H.
  destruct (owned_portfolio db portfolio_id current_user) as [p|] eqn:Hp;
    [|discriminate].
  destruct (analyses_of db portfolio_id) as [|r rest] eqn:Hr; [discriminate|].
  injection H as <-. split.
  - apply owned_portfolio_some. now exists p.
  - exact (analyses_of_head _ _ _ _ Hr).
Qed.

Lemma latest_risk_analysis_is_latest_witness :
  exists analysis,
    get_latest_risk_analysis sample_database 1 user7 = Ok analysis
    /\ RiskAnalysis.analysis_date analysis = 3000%Z
    /\ forall r, In r (risk_analyses_table sample_database) ->
                 RiskAnalysis.portfolio_id r = 1%Z ->
                 (RiskAnalysis.analysis_date r <= RiskAnalysis.analysis_date analysis)%Z.
Proof.
  exists (sample_analysis 1 3000 6). split; [reflexivity|]. split; [reflexivity|].
  apply (latest_risk_analysis_is_latest sample_database 1 user7). reflexivity.
Defined.

(** X6.  [get_latest_risk_analysis] answers 404 "Portfolio not found" exactly
    when the caller owns no portfolio of that id, 404 "No risk analysis found
    for this portfolio" exactly when the caller owns it and the table holds no
    analysis of it, and an analysis otherwise. *)
Theorem latest_risk_analysis_errors (db : Database) (portfolio_id : Z)
    (current_user : models.User.t) :
  (get_latest_risk_analysis db portfolio_id current_user
   = Raise (HTTPException 404 "Portfolio not found")
   <-> ~ owns db current_user portfolio_id)
  /\ (get_latest_risk_analysis db portfolio_id current_user
      = Raise (HTTPException 404 "No risk analysis found for this portfolio")
      <-> owns db current_user portfolio_id
          /\ forall r, In r (risk_analyses_table db) ->
                       RiskAnalysis.portfolio_id r <> portfolio_id)
  /\ ((exists analysis,
         get_latest_risk_analysis db portfolio_id current_user = Ok analysis)
      <-> owns db current_user portfolio_id
          /\ exists r, In r (risk_analyses_table db)
                       /\ RiskAnalysis.portfolio_id r = portfolio_id).
Proof.
  unfold get_latest_risk_analysis.
  destruct (owned_portfolio db portfolio_id current_user) as [p|] eqn:Hp.
  - assert (Ho : owns db current_user portfolio_id)
      by (apply owned_portfolio_some; now exists p).
    destruct (analyses_of db portfolio_id) as [|r rest] eqn:Hr.
    + assert (Hnone : forall r, In r (risk_analyses_table db) ->
                                RiskAnalysis.portfolio_id r <> portfolio_id).
      { intros r Hin Hid.
        assert (H : In r (analyses_of db portfolio_id)) by now apply in_analyses_of.
        rewrite Hr in H. exact H. }
      split; [split; [discriminate|tauto]|].
      split; [split; [tauto|reflexivity]|].
      split; [intros [a Ha]; discriminate|].
      intros [_ (r & Hin & Hid)]. exfalso. exact (Hnone r Hin Hid).
    + destruct (analyses_of_head _ _ _ _ Hr) as (Hin & Hid & _).
      split; [split; [discriminate|tauto]|].
      split.
      * split; [discriminate|]. intros [_ Hnone]. exfalso. exact (Hnone r Hin Hid).
      * split; [intros _; split; [exact Ho|now exists r]|intros _; now exists r].
  - assert (Ho : ~ owns db current_user portfolio_id)
      by now apply owned_portfolio_none.
    split; [tauto|].
    split; [split; [discriminate|tauto]|].
    split; [intros [a Ha]; discriminate|tauto].
Qed.

Lemma StronglySorted_app_le {A : Type} (R : A -> A -> Prop) (l1 l2 : list A) :
  StronglySorted R (l1 ++ l2) ->
  StronglySorted R l1 /\ forall x y, In x l1 -> In y l2 -> R x y.
Proof.
  induction l1 as [|a l1 IH]; cbn; intros H.
  - split; [constructor|intros x y []].
  - inversion H as [|? ? Hs Hall]; subst. destruct (IH Hs) as [Hs1 Hle].
    rewrite Forall_forall in Hall. split.
    + constructor; [exact Hs1|]. rewrite Forall_forall. intros x Hx.
      apply Hall, in_or_app. now left.
    + intros x y [<-|Hx] Hy; [apply Hall, in_or_app; now right|now apply Hle].
Qed.

(** X7.  With a limit that is not negative, [get_risk_analysis_history]
    returns the [limit] latest analyses of the portfolio, the latest first:
    as many rows as the portfolio has analyses, up to [limit]; each a row of
    the table and of that portfolio; ordered by descending date; and every
    analysis of the portfolio that is left out is no later than any row
    returned. *)
Theorem risk_analysis_history_latest_first (db : Database) (portfolio_id limit : Z)
    (current_user : models.User.t) (analyses : list RiskAnalysis.t) :
  (0 <= limit)%Z ->
  get_risk_analysis_history db portfolio_id limit current_user = Ok analyses ->
  length analyses
  = Nat.min (Z.to_nat limit)
      (length (filter (fun r => (RiskAnalysis.portfolio_id r =? portfolio_id)%Z)
                      (risk_analyses_table db)))
  /\ (forall r, In r analyses ->
                In r (risk_analyses_table db)
                /\ RiskAnalysis.portfolio_id r = portfolio_id)
  /\ StronglySorted (descending RiskAnalysis.analysis_date) analyses
  /\ (forall r r', In r analyses ->
                   In r' (risk_analyses_table db) ->
                   RiskAnalysis.portfolio_id r' = portfolio_id ->
                   ~ In r' analyses ->
                   (RiskAnalysis.analysis_date r' <= RiskAnalysis.analysis_date r)%Z).
Proof.
  unfold get_risk_analysis_history, sql_limit. intros Hlimit H.
  destruct (owned_portfolio db portfolio_id current_user) as [p|]; [|discriminate].
  destruct (Z.ltb_spec limit 0) as [Hneg|_]; [lia|].
  injection H as <-.
  pose proof (firstn_skipn (Z.to_nat limit) (analyses_of db portfolio_id)) as Happ.
  assert (Hs : StronglySorted (descending RiskAnalysis.analysis_date)
                 (analyses_of db portfolio_id))
    by apply order_by_desc_sorted.
  rewrite <- Happ in Hs. apply StronglySorted_app_le in Hs. destruct Hs as [Hs Hle].
  split; [|split; [|split; [exact Hs|]]].
  - rewrite length_firstn. f_equal. unfold analyses_of.
    apply Permutation_length, order_by_desc_perm.
  - intros r Hr. apply in_analyses_of. rewrite <- Happ. apply in_or_app. now left.
  - intros r r' Hr Hin Hid Hout. apply (Hle r r' Hr).
    assert (H' : In r' (analyses_of db portfolio_id)) by now apply in_analyses_of.
    rewrite <- Happ in H'. apply in_app_or in H'. tauto.
Qed.

Lemma risk_analysis_history_latest_first_witness :
  exists analyses,
    get_risk_analysis_history sample_database 1 2 user7 = Ok analyses
    /\ map RiskAnalysis.analysis_date analyses = [3000; 2000]%Z
    /\ StronglySorted (descending RiskAnalysis.analysis_date) analyses.
Proof.
  exists [sample_analysis 1 3000 6; sample_analysis 1 2000 5].
  split; [reflexivity|]. split; [reflexivity|].
  apply (risk_analysis_history_latest_first sample_database 1 2 user7);
    [lia|reflexivity].
Defined.

(** X8.  The history and the latest analysis agree: when the history, asked
    with a positive limit, is not empty, [get_latest_risk_analysis] succeeds
    and its analysis carries the date of the first row of the history; when
    the history is empty, the latest analysis is refused. *)
Theorem risk_analysis_history_head_is_latest (db : Database)
    (portfolio_id limit : Z) (current_user : models.User.t)
    (analyses : list RiskAnalysis.t) :
  (0 < limit)%Z ->
  get_risk_analysis_history db portfolio_id limit current_user = Ok analyses ->
  match analyses with
  | [] => get_latest_risk_analysis db portfolio_id current_user
          = Raise (HTTPException 404 "No risk analysis found for this portfolio")
  | first :: _ =>
      exists latest,
        get_latest_risk_analysis db portfolio_id current_user = Ok latest
        /\ RiskAnalysis.analysis_date latest = RiskAnalysis.analysis_date first
  end.
Proof.
  unfold get_risk_analysis_history, get_latest_risk_analysis, sql_limit.
  intros Hlimit H.
  destruct (owned_portfolio db portfolio_id current_user) as [p|]; [|discriminate].
  destruct (Z.ltb_spec limit 0) as [Hneg|_]; [lia|].
  injection H as <-.
  destruct (Z.to_nat limit) as [|n] eqn:Hn; [lia|].
  destruct (analyses_of db portfolio_id) as [|r rest]; cbn; [reflexivity|].
  now exists r.
Qed.

Lemma risk_analysis_history_head_is_latest_witness :
  exists latest,
    get_latest_risk_analysis sample_database 1 user7 = Ok latest
    /\ RiskAnalysis.analysis_date latest = 3000%Z.
Proof.
  exact (risk_analysis_history_head_is_latest sample_database 1 2 user7
           [sample_analysis 1 3000 6; sample_analysis 1 2000 5]
           ltac:(lia) eq_refl).
Defined.

(** ** Comparing portfolios *)

Lemma dict_get_set_same {V : Type} (d : list (string * V)) (k : string) (v : V) :
  dict_get (dict_set d k v) k = Some v.
Proof.
  induction d as [|[k' v'] d IH]; cbn.
  - now rewrite String.eqb_refl.
  - destruct (String.eqb k' k) eqn:E; cbn; rewrite E; [reflexivity|exact IH].
Qed.

Lemma dict_get_set_other {V : Type} (d : list (string * V)) (k k' : string) (v : V) :
  k <> k' -> dict_get (dict_set d k v) k' = dict_get d k'.
Proof.
  intros Hne. induction d as [|[k0 v0] d IH]; cbn.
  - destruct (String.eqb_spec k k'); [contradiction|reflexivity].
  - destruct (String.eqb_spec k0 k) as [->|Hk]; cbn.
    + destruct (String.eqb_spec k k'); [contradiction|reflexivity].
    + destruct (String.eqb_spec k0 k'); [reflexivity|exact IH].
Qed.

Lemma dict_get_in {V : Type} (d : list (string * V)) (k : string) :
  In k (map fst d) <-> exists v, dict_get d k = Some v.
Proof.
  induction d as [|[k0 v0] d IH]; cbn.
  - split; [intros []|intros [v Hv]; discriminate].
  - destruct (String.eqb_spec k0 k) as [->|Hk].
    + split; [intros _; now exists v0|now left].
    + rewrite <- IH. tauto.
Qed.

Lemma dict_set_keys {V : Type} (d : list (string * V)) (k : string) (v : V) :
  NoDup (map fst d) -> NoDup (map fst (dict_set d k v)).
Proof.
  induction d as [|[k0 v0] d IH]; cbn; intros Hnd.
  - repeat constructor. intros [].
  - inversion Hnd as [|? ? Hout Hnd']; subst.
    destruct (String.eqb_spec k0 k) as [->|Hk]; cbn; [now constructor|].
    constructor; [|now apply IH].
    intros Hin. apply dict_get_in in Hin. destruct Hin as [v' Hv'].
    rewrite dict_get_set_other in Hv' by congruence.
    apply Hout, dict_get_in. now exists v'.
Qed.

Lemma analysed_analyses_of (db : Database) (portfolio_id : Z) :
  analysed db portfolio_id <-> analyses_of db portfolio_id <> [].
Proof.
  unfold analysed. split.
  - intros (r & Hin & Hid) Hnil.
    assert (H : In r (analyses_of db portfolio_id)) by now apply in_analyses_of.
    rewrite Hnil in H. exact H.
  - destruct (analyses_of db portfolio_id) as [|r rest] eqn:Hr; [congruence|].
    intros _. exists r. destruct (analyses_of_head _ _ _ _ Hr) as (? & ? & _). tauto.
Qed.

(** The loop of [compare_portfolio_risks], when it ends. *)
Lemma compare_loop_ok (db : Database) (current_user : models.User.t)
    (portfolio_ids : list Z) (d0 d : list (string * RiskComparison)) :
  for_each (compare_step db current_user) portfolio_ids d0 = Ok d ->
  (forall portfolio_id, In portfolio_id portfolio_ids ->
                        owns db current_user portfolio_id)
  /\ (forall portfolio_id p r rest,
         In portfolio_id portfolio_ids ->
         owned_portfolio db portfolio_id current_user = Some p ->
         analyses_of db portfolio_id = r :: rest ->
         dict_get d (string_of_Z portfolio_id) = Some (comparison_entry p r))
  /\ (forall k,
         (forall portfolio_id, In portfolio_id portfolio_ids ->
                               analysed db portfolio_id ->
                               string_of_Z portfolio_id <> k) ->
         dict_get d k = dict_get d0 k)
  /\ (NoDup (map fst d0) -> NoDup (map fst d)).
Proof.
  revert d0. induction portfolio_ids as [|x xs IH]; intros d0; cbn [for_each].
  - intros [= <-].
    split; [intros ? []|]. split; [intros ? ? ? ? []|]. split; [reflexivity|tauto].
  - unfold bind. destruct (compare_step db current_user d0 x) as [d1|e] eqn:Hstep;
      [|discriminate].
    intros Hloop. destruct (IH _ Hloop) as (Hown & Hget & Hframe & Hnd). clear IH.
    unfold compare_step in Hstep.
    destruct (owned_portfolio db x current_user) as [p|] eqn:Hp; [|discriminate].
    assert (Hd1 : forall k, (analysed db x -> string_of_Z x <> k) ->
                            dict_get d1 k = dict_get d0 k).
    { intros k Hk. destruct (analyses_of db x) as [|r rest] eqn:Hr.
      - now injection Hstep as <-.
      - injection Hstep as <-. apply dict_get_set_other, Hk.
        apply analysed_analyses_of. congruence. }
    split; [|split; [|split]].
    + intros i [<-|Hi]; [apply owned_portfolio_some; now exists p|now apply Hown].
    + intros i q r rest Hi Hq Hr.
      destruct (in_dec Z.eq_dec i xs) as [Hin|Hout]; [now apply (Hget i q r rest)|].
      destruct Hi as [<-|Hi]; [|contradiction].
      rewrite Hframe.
      * rewrite Hr in Hstep. injection Hstep as <-.
        rewrite dict_get_set_same. unfold comparison_entry. congruence.
      * intros j Hj _ Heq. apply string_of_Z_inj in Heq. congruence.
    + intros k Hk. rewrite Hframe by (intros j Hj; apply Hk; now right).
      apply Hd1. apply Hk. now left.
    + intros H0. apply Hnd. destruct (analyses_of db x) as [|r rest].
      * now injection Hstep as <-.
      * injection Hstep as <-. now apply dict_set_keys.
Qed.

(** The loop of [compare_portfolio_risks] ends unless it meets a portfolio
    the caller does not own, and then it names the first one. *)
Lemma compare_loop_raise (db : Database) (current_user : models.User.t)
    (portfolio_ids : list Z) (d0 : list (string * RiskComparison)) :
  match for_each (compare_step db current_user) portfolio_ids d0 with
  | Ok _ => forall portfolio_id, In portfolio_id portfolio_ids ->
                                 owns db current_user portfolio_id
  | Raise e =>
      exists before portfolio_id after,
        portfolio_ids = before ++ portfolio_id :: after
        /\ (forall i, In i before -> owns db current_user i)
        /\ ~ owns db current_user portfolio_id
        /\ e = HTTPException 404
                 ("Portfolio with ID " ++ string_of_Z portfolio_id ++ " not found")
  end.
Proof.
  revert d0. induction portfolio_ids as [|x xs IH]; intros d0; cbn [for_each].
  - intros ? [].
  - unfold bind, compare_step at 1.
    destruct (owned_portfolio db x current_user) as [p|] eqn:Hp.
    + assert (Ho : owns db current_user x) by (apply owned_portfolio_some; now exists p).
      assert (Hcons : forall d1,
                 match for_each (compare_step db current_user) xs d1 with
                 | Ok _ => forall i, In i (x :: xs) -> owns db current_user i
                 | Raise e =>
                     exists before i after,
                       x :: xs = before ++ i :: after
                       /\ (forall j, In j before -> owns db current_user j)
                       /\ ~ owns db current_user i
                       /\ e = HTTPException 404
                                ("Portfolio with ID " ++ string_of_Z i ++ " not found")
                 end).
      { intros d1. specialize (IH d1).
        destruct (for_each (compare_step db current_user) xs d1) as [d|e].
        - intros i [<-|Hi]; auto.
        - destruct IH as (before & i & after & -> & Hb & Hi & ->).
          exists (x :: before), i, after. repeat split; auto.
          intros j [<-|Hj]; auto. }
      destruct (analyses_of db x); apply Hcons.
    + exists [], x, xs. repeat split; [intros ? []|now apply owned_portfolio_none].
Qed.

Lemma analysed_dec (db : Database) (portfolio_id : Z) :
  analysed db portfolio_id \/ ~ analysed db portfolio_id.
Proof.
  rewrite analysed_analyses_of.
  destruct (analyses_of db portfolio_id); [right; congruence|left; discriminate].
Qed.

Lemma analysed_key_dec (db : Database) (portfolio_ids : list Z) (k : string) :
  (exists portfolio_id, In portfolio_id portfolio_ids
                        /\ analysed db portfolio_id
                        /\ k = string_of_Z portfolio_id)
  \/ (forall portfolio_id, In portfolio_id portfolio_ids ->
                           analysed db portfolio_id ->
                           string_of_Z portfolio_id <> k).
Proof.
  induction portfolio_ids as [|x xs [(i & Hi & Ha & Hk)|IH]].
  - right. intros ? [].
  - left. exists i. split; [now right|tauto].
  - destruct (analysed_dec db x) as [Ha|Hna].
    + destruct (string_dec (string_of_Z x) k) as [Hk|Hk].
      * left. exists x. split; [now left|]. split; [exact Ha|now symmetry].
      * right. intros i [<-|Hi]; auto.
    + right. intros i [<-|Hi]; [contradiction|auto].
Qed.

(** X9.  What [compare_portfolio_risks] returns: every portfolio asked for is
    the caller's; the keys are the decimal ids of the portfolios asked for that
    have an analysis, each once; and the entry of such a portfolio carries its
    name and the figures and date of the analysis [get_latest_risk_analysis]
    returns for it. *)
Theorem compare_portfolio_risks_entries (db : Database) (portfolio_ids : list Z)
    (current_user : models.User.t) (comparison : list (string * RiskComparison)) :
  compare_portfolio_risks db portfolio_ids current_user = Ok comparison ->
  (forall portfolio_id, In portfolio_id portfolio_ids ->
                        owns db current_user portfolio_id)
  /\ NoDup (map fst comparison)
  /\ (forall k, In k (map fst comparison)
                <-> exists portfolio_id,
                      In portfolio_id portfolio_ids
                      /\ analysed db portfolio_id
                      /\ k = string_of_Z portfolio_id)
  /\ (forall portfolio_id portfolio analysis,
         In portfolio_id portfolio_ids ->
         owned_portfolio db portfolio_id current_user = Some portfolio ->
         get_latest_risk_analysis db portfolio_id current_user = Ok analysis ->
         dict_get comparison (string_of_Z portfolio_id)
         = Some (comparison_entry portfolio analysis)).
Proof.
  unfold compare_portfolio_risks.
  destruct (length portfolio_ids <? 2)%nat; [discriminate|]. unfold bind.
  destruct (for_each (compare_step db current_user) portfolio_ids []) as [d|e] eqn:Hloop;
    [|discriminate].
  destruct (compare_loop_ok _ _ _ _ _ Hloop) as (Hown & Hget & Hframe & Hnd).
  destruct d as [|kv d]; [discriminate|]. intros [= <-].
  split; [exact Hown|]. split; [apply Hnd; constructor|]. split.
  - intros k. split.
    + intros Hin. destruct (analysed_key_dec db portfolio_ids k) as [H|H]; [exact H|].
      apply dict_get_in in Hin. destruct Hin as [v Hv].
      rewrite (Hframe k H) in Hv. discriminate.
    + intros (i & Hi & Ha & ->). apply dict_get_in.
      pose proof (Hown i Hi) as Ho. apply owned_portfolio_some in Ho.
      destruct Ho as [p Hp]. apply analysed_analyses_of in Ha.
      destruct (analyses_of db i) as [|r rest] eqn:Hr; [congruence|].
      exists (comparison_entry p r). exact (Hget i p r rest Hi Hp Hr).
  - intros i p a Hi Hp Ha. unfold get_latest_risk_analysis in Ha. rewrite Hp in Ha.
    destruct (analyses_of db i) as [|r rest] eqn:Hr; [discriminate|].
    injection Ha as <-. exact (Hget i p r rest Hi Hp Hr).
Qed.

Lemma compare_portfolio_risks_entries_witness :
  exists comparison,
    compare_portfolio_risks sample_database [1; 2; 1]%Z user7 = Ok comparison
    /\ map fst comparison = ["1"]
    /\ NoDup (map fst comparison).
Proof.
  destruct (compare_portfolio_risks sample_database [1; 2; 1]%Z user7)
    as [comparison|e] eqn:H.
  - exists comparison. split; [reflexivity|].
    split; [vm_compute in H; injection H as <-; reflexivity|].
    exact (proj1 (proj2 (compare_portfolio_risks_entries _ _ _ _ H))).
  - exfalso. vm_compute in H. discriminate H.
Defined.

(** X10.  The outcomes of [compare_portfolio_risks]: 400 exactly when fewer
    than two ids are given; with two or more, a portfolio that is not the
    caller's refuses the whole comparison with a 404 that names the first such
    id, whatever the other portfolios hold; when all are the caller's, 404
    "No risk analyses found" exactly when none of them has an analysis, and a
    comparison otherwise. *)
Theorem compare_portfolio_risks_outcomes (db : Database) (portfolio_ids : list Z)
    (current_user : models.User.t) :
  (compare_portfolio_risks db portfolio_ids current_user
   = Raise (HTTPException 400
              "Please provide at least two portfolio IDs for comparison")
   <-> (length portfolio_ids < 2)%nat)
  /\ ((2 <= length portfolio_ids)%nat ->
      (exists portfolio_id, In portfolio_id portfolio_ids
                            /\ ~ owns db current_user portfolio_id) ->
      exists before portfolio_id after,
        portfolio_ids = before ++ portfolio_id :: after
        /\ (forall i, In i before -> owns db current_user i)
        /\ ~ owns db current_user portfolio_id
        /\ compare_portfolio_risks db portfolio_ids current_user
           = Raise (HTTPException 404
                      ("Portfolio with ID " ++ string_of_Z portfolio_id
                       ++ " not found")))
  /\ ((2 <= length portfolio_ids)%nat ->
      (forall portfolio_id, In portfolio_id portfolio_ids ->
                            owns db current_user portfolio_id) ->
      (compare_portfolio_risks db portfolio_ids current_user
       = Raise (HTTPException 404
                  "No risk analyses found for the specified portfolios")
       <-> forall portfolio_id, In portfolio_id portfolio_ids ->
                                ~ analysed db portfolio_id)
      /\ ((exists comparison,
             compare_portfolio_risks db portfolio_ids current_user = Ok comparison)
          <-> exists portfolio_id, In portfolio_id portfolio_ids
                                   /\ analysed db portfolio_id)).
Proof.
  unfold compare_portfolio_risks.
  pose proof (compare_loop_raise db current_user portfolio_ids []) as Hraise.
  destruct (Nat.ltb_spec (length portfolio_ids) 2) as [Hlt|Hge].
  { split; [tauto|]. split; intros; lia. }
  unfold bind.
  destruct (for_each (compare_step db current_user) portfolio_ids []) as [d|e] eqn:Hloop.
  - destruct (compare_loop_ok _ _ _ _ _ Hloop) as (Hown & Hget & Hframe & _).
    assert (Hempty : d = [] <-> forall i, In i portfolio_ids -> ~ analysed db i).
    { split.
      - intros -> i Hi Ha. pose proof (Hown i Hi) as Ho.
        apply owned_portfolio_some in Ho. destruct Ho as [p Hp].
        apply analysed_analyses_of in Ha.
        destruct (analyses_of db i) as [|r rest] eqn:Hr; [congruence|].
        pose proof (Hget i p r rest Hi Hp Hr) as H. discriminate H.
      - intros Hnone. destruct d as [|[k v] d]; [reflexivity|]. exfalso.
        assert (H : dict_get ((k, v) :: d) k = None).
        { rewrite Hframe; [reflexivity|]. intros i Hi Ha. now apply Hnone in Ha. }
        cbn in H. rewrite String.eqb_refl in H. discriminate H. }
    split; [split; [destruct d; discriminate|lia]|].
    split.
    + intros _ (i & Hi & Hno). exfalso. exact (Hno (Hown i Hi)).
    + intros _ _. split.
      * rewrite <- Hempty. destruct d; split; congruence.
      * split.
        -- intros [c Hc]. destruct d as [|kv d]; [discriminate|].
           destruct (analysed_key_dec db portfolio_ids (fst kv))
             as [(i & Hi & Ha & _)|Hno]; [now exists i|].
           exfalso. destruct kv as [k v]. pose proof (Hframe k Hno) as H.
           cbn in H. rewrite String.eqb_refl in H. discriminate H.
        -- intros (i & Hi & Ha). destruct d as [|kv d]; [|now eexists].
           exfalso. exact (proj1 Hempty eq_refl i Hi Ha).
  - destruct Hraise as (before & i & after & Hids & Hb & Hi & ->).
    split; [split; [discriminate|lia]|].
    split; [intros _ _; now exists before, i, after|].
    intros _ Hall. exfalso. apply Hi, Hall. rewrite Hids. apply in_or_app.
    right. now left.
Qed.

(** ** Holdings and transactions *)

Lemma find_update_holding (p : tables.Holding.t -> bool)
    (hs : list tables.Holding.t) (e u : tables.Holding.t) :
  find p hs = Some e -> p u = true -> tables.Holding.id u = tables.Holding.id e ->
  find p (update_holding hs u) = Some u.
Proof.
  unfold update_holding. intros Hfind Hu Hid. induction hs as [|y hs IH]; [discriminate|].
  cbn in *. destruct (p y) eqn:Hy.
  - injection Hfind as ->. rewrite Hid, Z.eqb_refl, Hu. reflexivity.
  - destruct (tables.Holding.id y =? tables.Holding.id u)%Z.
    + now rewrite Hu.
    + rewrite Hy. exact (IH Hfind).
Qed.

Lemma find_app_none {A : Type} (p : A -> bool) (l : list A) (x : A) :
  find p l = None -> p x = true -> find p (l ++ [x]) = Some x.
Proof.
  intros Hnone Hx. induction l as [|y l IH]; cbn in *; [now rewrite Hx|].
  destruct (p y); [discriminate|exact (IH Hnone)].
Qed.

Lemma holding_of_some (db : Database) (portfolio_id stock_id : Z)
    (h : tables.Holding.t) :
  holding_of db portfolio_id stock_id = Some h ->
  In h (holdings_table db) /\ holding_key h = (portfolio_id, stock_id).
Proof.
  unfold holding_of, holding_key. intros H. apply find_some in H.
  destruct H as [Hin H]. apply andb_true_iff in H. rewrite !Z.eqb_eq in H.
  destruct H as [-> ->]. tauto.
Qed.

Lemma holding_of_none (db : Database) (portfolio_id stock_id : Z) :
  holding_of db portfolio_id stock_id = None ->
  ~ In (portfolio_id, stock_id) (map holding_key (holdings_table db)).
Proof.
  unfold holding_of, holding_key. intros H Hin. apply in_map_iff in Hin.
  destruct Hin as (h & Hk & Hin). apply (find_none _ _ H) in Hin.
  injection Hk as E1 E2. cbv beta in Hin.
  rewrite E1, E2, !Z.eqb_refl in Hin. discriminate.
Qed.

Lemma NoDup_map_unique {A B : Type} (f : A -> B) (l : list A) (x y : A) :
  NoDup (map f l) -> In x l -> In y l -> f x = f y -> x = y.
Proof.
  induction l as [|a l IH]; cbn; [intros _ []|].
  intros Hnd Hx Hy Hf. inversion Hnd as [|? ? Hout Hnd']; subst.
  destruct Hx as [->|Hx], Hy as [->|Hy]; auto.
  - exfalso. apply Hout. rewrite Hf. now apply in_map.
  - exfalso. apply Hout. rewrite <- Hf. now apply in_map.
Qed.

Lemma NoDup_map_filter {A B : Type} (f : A -> B) (g : A -> bool) (l : list A) :
  NoDup (map f l) -> NoDup (map f (filter g l)).
Proof.
  induction l as [|a l IH]; cbn; [trivial|].
  intros Hnd. inversion Hnd as [|? ? Hout Hnd']; subst.
  destruct (g a); cbn; [|now apply IH].
  constructor; [|now apply IH].
  intros Hin. apply Hout. apply in_map_iff in Hin. destruct Hin as (x & Hx & Hin).
  apply filter_In in Hin. rewrite <- Hx. apply in_map. tauto.
Qed.

Lemma NoDup_map_snoc {A B : Type} (f : A -> B) (l : list A) (x : A) :
  NoDup (map f l) -> ~ In (f x) (map f l) -> NoDup (map f (l ++ [x])).
Proof.
  intros Hnd Hout. rewrite map_app. cbn.
  apply NoDup_rev in Hnd. rewrite <- (rev_involutive (map f l ++ [f x])).
  apply NoDup_rev. rewrite rev_app_distr. cbn. constructor; [|exact Hnd].
  now rewrite <- in_rev.
Qed.

(** Writing a row that keeps its key and its portfolio and stock. *)
Lemma update_holding_same (f : tables.Holding.t -> Z * Z)
    (hs : list tables.Holding.t) (e u : tables.Holding.t) :
  NoDup (map tables.Holding.id hs) -> In e hs ->
  tables.Holding.id u = tables.Holding.id e -> f u = f e ->
  map f (update_holding hs u) = map f hs
  /\ map tables.Holding.id (update_holding hs u) = map tables.Holding.id hs.
Proof.
  intros Hnd He Hid Hf. unfold update_holding. rewrite !map_map.
  split; apply map_ext_in; intros h Hh;
    destruct (Z.eqb_spec (tables.Holding.id h) (tables.Holding.id u)) as [E|_];
    try reflexivity;
    rewrite Hid in E; rewrite (NoDup_map_unique _ _ _ _ Hnd Hh He E); congruence.
Qed.

Lemma with_holdings_consistent (db : Database) (hs : list tables.Holding.t) :
  NoDup (map tables.Holding.id hs) -> NoDup (map holding_key hs) ->
  holdings_consistent (with_holdings db hs).
Proof. now split. Qed.

Lemma update_holding_consistent (db : Database) (e u : tables.Holding.t) :
  holdings_consistent db -> In e (holdings_table db) ->
  tables.Holding.id u = tables.Holding.id e -> holding_key u = holding_key e ->
  holdings_consistent (with_holdings db (update_holding (holdings_table db) u)).
Proof.
  intros [Hid Hkey] He Hu Hk.
  destruct (update_holding_same holding_key _ _ _ Hid He Hu Hk) as [E1 E2].
  apply with_holdings_consistent; [now rewrite E2|now rewrite E1].
Qed.

Lemma delete_holding_consistent (db : Database) (holding_id : Z) :
  holdings_consistent db ->
  holdings_consistent
    (with_holdings db (delete_holding_row (holdings_table db) holding_id)).
Proof.
  intros [Hid Hkey]. apply with_holdings_consistent; now apply NoDup_map_filter.
Qed.

Lemma add_holding_consistent (db : Database) (h : tables.Holding.t) :
  holdings_consistent db ->
  ~ In (tables.Holding.id h) (map tables.Holding.id (holdings_table db)) ->
  holding_of db (tables.Holding.portfolio_id h) (tables.Holding.stock_id h) = None ->
  holdings_consistent (with_holdings db (holdings_table db ++ [h])).
Proof.
  intros [Hid Hkey] Hfresh Hnone.
  apply with_holdings_consistent; apply NoDup_map_snoc; auto.
  now apply holding_of_none.
Qed.

Lemma with_transactions_consistent (db : Database) (ts : list tables.Transaction.t) :
  holdings_consistent db -> holdings_consistent (with_transactions db ts).
Proof. trivial. Qed.

Section PortfolioRouterProperties.

Variable new_holding_id : Z.
Variable new_transaction_id : Z.
Variable utcnow : Z.

(** X11.  The handlers that write holdings keep the table consistent: when
    the holdings carry distinct keys and no portfolio holds a stock in two
    rows, the same is true after [create_holding], after [delete_holding]
    and after [create_transaction], whatever they answer, provided the key
    of a new row is not in use. *)
Theorem holdings_stay_consistent (db : Database) (portfolio_id holding_id : Z)
    (holding : schemas.HoldingCreate.t) (transaction : schemas.TransactionCreate.t)
    (current_user : models.User.t) :
  holdings_consistent db ->
  ~ In new_holding_id (map tables.Holding.id (holdings_table db)) ->
  holdings_consistent
    (fst (create_holding new_holding_id utcnow db portfolio_id holding current_user))
  /\ holdings_consistent (fst (delete_holding db portfolio_id holding_id current_user))
  /\ holdings_consistent
       (fst (create_transaction new_holding_id new_transaction_id utcnow db
               portfolio_id transaction current_user)).
Proof.
  intros Hdb Hfresh. split; [|split].
  - unfold create_holding.
    destruct (owned_portfolio db portfolio_id current_user); [|exact Hdb].
    destruct (stock_by_id db _); [|exact Hdb].
    destruct (holding_of db portfolio_id _) as [e|] eqn:He; cbn [fst].
    + apply holding_of_some in He. destruct He as [Hin _].
      now apply (update_holding_consistent db e).
    + now apply add_holding_consistent.
  - unfold delete_holding.
    destruct (owned_portfolio db portfolio_id current_user); [|exact Hdb].
    destruct (find _ (holdings_table db)); [|exact Hdb].
    now apply delete_holding_consistent.
  - unfold create_transaction.
    destruct (owned_portfolio db portfolio_id current_user); [|exact Hdb].
    destruct (stock_by_id db _); [|exact Hdb].
    cbv zeta.
    match goal with
    | |- context [with_transactions db ?ts] =>
        pose proof (with_transactions_consistent db ts Hdb) as Hdb';
        change (holdings_table db) with (holdings_table (with_transactions db ts)) in Hfresh;
        generalize dependent (with_transactions db ts)
    end.
    intros db' Hfresh Hdb'.
    destruct (String.eqb _ "BUY").
    + destruct (holding_of db' portfolio_id _) as [e|] eqn:He; cbn [fst].
      * apply holding_of_some in He. destruct He as [Hin _].
        now apply (update_holding_consistent db' e).
      * now apply add_holding_consistent.
    + destruct (String.eqb _ "SELL"); [|exact Hdb'].
      destruct (holding_of db' portfolio_id _) as [e|] eqn:He; [|exact Hdb'].
      destruct (_ <? _); [exact Hdb'|].
      apply holding_of_some in He. destruct He as [Hin _].
      destruct (_ =? 0); cbn [fst].
      * now apply delete_holding_consistent.
      * now apply (update_holding_consistent db' e).
Qed.

(** X12.  [create_transaction] records the transaction before it looks at
    the holdings: for a portfolio of the caller and a known stock the
    transaction is appended to the table and listed by [read_transactions],
    whether the request succeeds or is refused with 400 "Not enough shares
    to sell"; in the refused case the holdings are left as they were. *)
Theorem create_transaction_recorded (db : Database) (portfolio_id : Z)
    (transaction : schemas.TransactionCreate.t) (current_user : models.User.t)
    (stock : tables.Stock.t) :
  owns db current_user portfolio_id ->
  stock_by_id db (schemas.TransactionCreate.stock_id transaction) = Some stock ->
  let after :=
    create_transaction new_holding_id new_transaction_id utcnow db portfolio_id
      transaction current_user in
  exists row,
    transactions_table (fst after) = transactions_table db ++ [row]
    /\ tables.Transaction.id row = new_transaction_id
    /\ tables.Transaction.portfolio_id row = portfolio_id
    /\ tables.Transaction.stock_id row = schemas.TransactionCreate.stock_id transaction
    /\ tables.Transaction.transaction_type row
       = schemas.TransactionCreate.transaction_type transaction
    /\ tables.Transaction.quantity row = schemas.TransactionCreate.quantity transaction
    /\ tables.Transaction.price row = schemas.TransactionCreate.price transaction
    /\ (exists rows, read_transactions (fst after) portfolio_id current_user = Ok rows
                     /\ In row rows)
    /\ (snd after = Ok row
        \/ (snd after = Raise (HTTPException 400 "Not enough shares to sell")
            /\ schemas.TransactionCreate.transaction_type transaction = "SELL"
            /\ holdings_table (fst after) = holdings_table db)).
Proof.
  intros Ho Hs after. apply owned_portfolio_some in Ho. destruct Ho as [p Hp].
  assert (Hread : forall db' row,
             portfolios_table db' = portfolios_table db ->
             transactions_table db' = transactions_table db ++ [row] ->
             tables.Transaction.portfolio_id row = portfolio_id ->
             exists rows, read_transactions db' portfolio_id current_user = Ok rows
                          /\ In row rows).
  { intros db' row Hpt Htt Hrow. unfold read_transactions, owned_portfolio.
    rewrite Hpt. fold (owned_portfolio db portfolio_id current_user). rewrite Hp.
    eexists. split; [reflexivity|].
    apply (Permutation_in _ (Permutation_sym (order_by_desc_perm _ _))).
    apply filter_In. rewrite Htt, Hrow, Z.eqb_refl. split; [|reflexivity].
    apply in_or_app. right. now left. }
  subst after. unfold create_transaction. rewrite Hp, Hs. cbv zeta.
  match goal with
  | |- context [with_transactions db (_ ++ [?r])] => set (row := r) in *
  end.
  exists row.
  assert (Hgoal : forall after : response tables.Transaction.t,
             portfolios_table (fst after) = portfolios_table db ->
             transactions_table (fst after) = transactions_table db ++ [row] ->
             (snd after = Ok row
              \/ (snd after = Raise (HTTPException 400 "Not enough shares to sell")
                  /\ schemas.TransactionCreate.transaction_type transaction = "SELL"
                  /\ holdings_table (fst after) = holdings_table db)) ->
             transactions_table (fst after) = transactions_table db ++ [row]
             /\ tables.Transaction.id row = new_transaction_id
             /\ tables.Transaction.portfolio_id row = portfolio_id
             /\ tables.Transaction.stock_id row
                = schemas.TransactionCreate.stock_id transaction
             /\ tables.Transaction.transaction_type row
                = schemas.TransactionCreate.transaction_type transaction
             /\ tables.Transaction.quantity row
                = schemas.TransactionCreate.quantity transaction
             /\ tables.Transaction.price row = schemas.TransactionCreate.price transaction
             /\ (exists rows,
                    read_transactions (fst after) portfolio_id current_user = Ok rows
                    /\ In row rows)
             /\ (snd after = Ok row
                 \/ (snd after = Raise (HTTPException 400 "Not enough shares to sell")
                     /\ schemas.TransactionCreate.transaction_type transaction = "SELL"
                     /\ holdings_table (fst after) = holdings_table db))).
  { intros a Hpt Htt Hres. repeat (split; [first [exact Htt|reflexivity]|]).
    split; [apply Hread; auto|exact Hres]. }
  destruct (String.eqb_spec (schemas.TransactionCreate.transaction_type transaction)
              "BUY") as [Hbuy|_].
  - destruct (holding_of _ portfolio_id _); apply Hgoal; auto.
  - destruct (String.eqb_spec (schemas.TransactionCreate.transaction_type transaction)
                "SELL") as [Hsell|_]; [|apply Hgoal; auto].
    destruct (holding_of _ portfolio_id _); [|apply Hgoal; auto].
    destruct (_ <? _); [apply Hgoal; auto|].
    destruct (_ =? 0); apply Hgoal; auto.
Qed.

Lemma find_filter_none {A : Type} (p g : A -> bool) (l : list A) :
  (forall x, In x l -> p x = true -> g x = false) -> find p (filter g l) = None.
Proof.
  intros H. destruct (find p (filter g l)) as [x|] eqn:Hx; [|reflexivity].
  apply find_some in Hx. destruct Hx as [Hin Hp]. apply filter_In in Hin.
  destruct Hin as [Hin Hg]. rewrite (H x Hin Hp) in Hg. discriminate.
Qed.

(** X13.  A sale that is accepted: with consistent holdings, when the
    portfolio holds the stock and the quantity held is not below the quantity
    sold, [create_transaction] returns the transaction; the holding keeps its
    key and its average price and its quantity goes down by the quantity sold,
    except that a holding whose quantity reaches 0 is deleted, after which the
    portfolio has no holding of the stock. *)
Theorem sell_updates_holding (db : Database) (portfolio_id : Z)
    (transaction : schemas.TransactionCreate.t) (current_user : models.User.t)
    (stock : tables.Stock.t) (holding : tables.Holding.t) :
  owns db current_user portfolio_id ->
  stock_by_id db (schemas.TransactionCreate.stock_id transaction) = Some stock ->
  schemas.TransactionCreate.transaction_type transaction = "SELL" ->
  holdings_consistent db ->
  holding_of db portfolio_id (schemas.TransactionCreate.stock_id transaction)
  = Some holding ->
  (tables.Holding.quantity holding <? schemas.TransactionCreate.quantity transaction)
  = false ->
  let after :=
    create_transaction new_holding_id new_transaction_id utcnow db portfolio_id
      transaction current_user in
  let remaining :=
    tables.Holding.quantity holding - schemas.TransactionCreate.quantity transaction in
  (exists row, snd after = Ok row)
  /\ if remaining =? 0 then
       holding_of (fst after) portfolio_id
         (schemas.TransactionCreate.stock_id transaction) = None
     else
       exists holding',
         holding_of (fst after) portfolio_id
           (schemas.TransactionCreate.stock_id transaction) = Some holding'
         /\ tables.Holding.id holding' = tables.Holding.id holding
         /\ tables.Holding.quantity holding' = remaining
         /\ tables.Holding.average_buy_price holding'
            = tables.Holding.average_buy_price holding.
Proof.
  intros Ho Hs Hsell [Hids Hkeys] Hh Hq after remaining. subst after remaining.
  apply owned_portfolio_some in Ho. destruct Ho as [p Hp].
  unfold create_transaction. rewrite Hp, Hs, Hsell. cbv zeta.
  change (String.eqb "SELL" "BUY") with false.
  change (String.eqb "SELL" "SELL") with true. cbv iota.
  match goal with
  | |- context [with_transactions db ?ts] =>
      change (holding_of (with_transactions db ts)) with (holding_of db);
      change (holdings_table (with_transactions db ts)) with (holdings_table db)
  end.
  rewrite Hh, Hq.
  destruct (_ =? 0); cbn [fst snd]; (split; [eexists; reflexivity|]).
  - unfold holding_of, with_holdings, delete_holding_row. cbn [holdings_table].
    apply find_filter_none. intros x Hx Hkey.
    apply holding_of_some in Hh. destruct Hh as [Hin Hk].
    assert (E : x = holding).
    { apply (NoDup_map_unique holding_key _ _ _ Hkeys Hx Hin). rewrite Hk.
      unfold holding_key. apply andb_true_iff in Hkey. rewrite !Z.eqb_eq in Hkey.
      now destruct Hkey as [-> ->]. }
    rewrite E, Z.eqb_refl. reflexivity.
  - eexists. split.
    + unfold holding_of, with_holdings. cbn [holdings_table].
      apply (find_update_holding _ _ holding); [exact Hh| |reflexivity].
      apply holding_of_some in Hh. destruct Hh as [_ Hk]. unfold holding_key in Hk.
      injection Hk as E1 E2. cbn. now rewrite E1, E2, !Z.eqb_refl.
    + cbn. repeat split.
Qed.

(** X14.  A purchase: for a portfolio of the caller and a known stock, a
    "BUY" succeeds and afterwards the portfolio holds the stock; a stock that
    was not held enters with the quantity and the price of the transaction
    under the new key; a stock that was held keeps its key, its quantity grows
    by the quantity bought and its average price becomes the total cost over
    the total quantity, or 0 when the total quantity is not positive. *)
Theorem buy_updates_holding (db : Database) (portfolio_id : Z)
    (transaction : schemas.TransactionCreate.t) (current_user : models.User.t)
    (stock : tables.Stock.t) :
  owns db current_user portfolio_id ->
  stock_by_id db (schemas.TransactionCreate.stock_id transaction) = Some stock ->
  schemas.TransactionCreate.transaction_type transaction = "BUY" ->
  let after :=
    create_transaction new_holding_id new_transaction_id utcnow db portfolio_id
      transaction current_user in
  let quantity := schemas.TransactionCreate.quantity transaction in
  let price := schemas.TransactionCreate.price transaction in
  (exists row, snd after = Ok row)
  /\ exists holding',
       holding_of (fst after) portfolio_id
         (schemas.TransactionCreate.stock_id transaction) = Some holding'
       /\ match holding_of db portfolio_id
                  (schemas.TransactionCreate.stock_id transaction) with
          | None =>
              tables.Holding.id holding' = new_holding_id
              /\ tables.Holding.quantity holding' = quantity
              /\ tables.Holding.average_buy_price holding' = price
          | Some holding =>
              let total_quantity := tables.Holding.quantity holding + quantity in
              tables.Holding.id holding' = tables.Holding.id holding
              /\ tables.Holding.quantity holding' = total_quantity
              /\ tables.Holding.average_buy_price holding'
                 = if 0 <? total_quantity then
                     (tables.Holding.quantity holding
                      * tables.Holding.average_buy_price holding
                      + quantity * price) / total_quantity
                   else 0
          end.
Proof.
  intros Ho Hs Hbuy after quantity price. subst after quantity price.
  apply owned_portfolio_some in Ho. destruct Ho as [p Hp].
  unfold create_transaction. rewrite Hp, Hs, Hbuy. cbv zeta.
  change (String.eqb "BUY" "BUY") with true. cbv iota.
  match goal with
  | |- context [with_transactions db ?ts] =>
      change (holding_of (with_transactions db ts)) with (holding_of db);
      change (holdings_table (with_transactions db ts)) with (holdings_table db)
  end.
  destruct (holding_of db portfolio_id _) as [h|] eqn:Hh; cbn [fst snd];
    (split; [eexists; reflexivity|]); eexists; split.
  - unfold holding_of, with_holdings. cbn [holdings_table].
    apply (find_update_holding _ _ h); [exact Hh| |reflexivity].
    apply holding_of_some in Hh. destruct Hh as [_ Hk]. unfold holding_key in Hk.
    injection Hk as E1 E2. cbn. now rewrite E1, E2, !Z.eqb_refl.
  - cbn. repeat split.
  - unfold holding_of, with_holdings. cbn [holdings_table].
    apply find_app_none; [exact Hh|]. cbn. now rewrite !Z.eqb_refl.
  - cbn. repeat split.
Qed.

Lemma filter_update_holding (g : tables.Holding.t -> bool)
    (hs : list tables.Holding.t) (e u : tables.Holding.t) :
  NoDup (map tables.Holding.id hs) -> In e hs ->
  tables.Holding.id u = tables.Holding.id e -> g e = false -> g u = false ->
  filter g (update_holding hs u) = filter g hs.
Proof.
  intros Hnd He Hid Hge Hgu. unfold update_holding.
  assert (H : forall h, In h hs -> tables.Holding.id h = tables.Holding.id u -> h = e).
  { intros h Hh E. apply (NoDup_map_unique _ _ _ _ Hnd Hh He). congruence. }
  clear Hnd He. induction hs as [|y hs IH]; cbn; [reflexivity|].
  rewrite IH by (intros h Hh; apply H; now right).
  destruct (Z.eqb_spec (tables.Holding.id y) (tables.Holding.id u)) as [E|_];
    [|reflexivity].
  rewrite (H y (or_introl eq_refl) E), Hge, Hgu. reflexivity.
Qed.

Lemma filter_delete_holding (g : tables.Holding.t -> bool)
    (hs : list tables.Holding.t) (e : tables.Holding.t) :
  NoDup (map tables.Holding.id hs) -> In e hs -> g e = false ->
  filter g (delete_holding_row hs (tables.Holding.id e)) = filter g hs.
Proof.
  intros Hnd He Hge. unfold delete_holding_row.
  assert (H : forall h, In h hs -> tables.Holding.id h = tables.Holding.id e -> h = e).
  { intros h Hh E. exact (NoDup_map_unique _ _ _ _ Hnd Hh He E). }
  clear Hnd He. induction hs as [|y hs IH]; cbn; [reflexivity|].
  specialize (IH (fun h Hh => H h (or_intror Hh))).
  destruct (Z.eqb_spec (tables.Holding.id y) (tables.Holding.id e)) as [E|_]; cbn.
  - rewrite (H y (or_introl eq_refl) E), Hge. exact IH.
  - now rewrite IH.
Qed.

Lemma filter_snoc_out {A : Type} (g : A -> bool) (l : list A) (x : A) :
  g x = false -> filter g (l ++ [x]) = filter g l.
Proof. intros H. rewrite filter_app. cbn. rewrite H. apply app_nil_r. Qed.

Lemma holding_of_out (db : Database) (portfolio_id stock_id : Z)
    (h : tables.Holding.t) :
  holding_of db portfolio_id stock_id = Some h ->
  In h (holdings_table db)
  /\ negb ((tables.Holding.portfolio_id h =? portfolio_id)%Z
           && (tables.Holding.stock_id h =? stock_id)%Z) = false.
Proof.
  intros H. apply find_some in H. destruct H as [Hin ->]. now split.
Qed.

(** X15.  Writing one position leaves the others alone: when the holdings
    carry distinct keys, [create_holding] and [create_transaction] change no
    holding but the one of the portfolio of the path in the stock of the
    request; all the other holdings are there afterwards as before, in the
    same order. *)
Theorem other_holdings_untouched (db : Database) (portfolio_id : Z)
    (holding : schemas.HoldingCreate.t) (transaction : schemas.TransactionCreate.t)
    (current_user : models.User.t) :
  NoDup (map tables.Holding.id (holdings_table db)) ->
  other_holdings
    (fst (create_holding new_holding_id utcnow db portfolio_id holding current_user))
    portfolio_id (schemas.HoldingCreate.stock_id holding)
  = other_holdings db portfolio_id (schemas.HoldingCreate.stock_id holding)
  /\ other_holdings
       (fst (create_transaction new_holding_id new_transaction_id utcnow db
               portfolio_id transaction current_user))
       portfolio_id (schemas.TransactionCreate.stock_id transaction)
     = other_holdings db portfolio_id (schemas.TransactionCreate.stock_id transaction).
Proof.
  intros Hnd. unfold other_holdings. split.
  - unfold create_holding.
    destruct (owned_portfolio db portfolio_id current_user); [|reflexivity].
    destruct (stock_by_id db _); [|reflexivity].
    destruct (holding_of db portfolio_id _) as [e|] eqn:He; cbn [fst holdings_table with_holdings].
    + apply holding_of_out in He. destruct He as [Hin Hout].
      apply (filter_update_holding _ _ e); auto.
    + apply filter_snoc_out. cbn. now rewrite !Z.eqb_refl.
  - unfold create_transaction.
    destruct (owned_portfolio db portfolio_id current_user); [|reflexivity].
    destruct (stock_by_id db _); [|reflexivity].
    cbv zeta.
    match goal with
    | |- context [with_transactions db ?ts] =>
        change (holding_of (with_transactions db ts)) with (holding_of db);
        change (holdings_table (with_transactions db ts)) with (holdings_table db)
    end.
    destruct (String.eqb _ "BUY").
    + destruct (holding_of db portfolio_id _) as [e|] eqn:He;
        cbn [fst holdings_table with_holdings].
      * apply holding_of_out in He. destruct He as [Hin Hout].
        apply (filter_update_holding _ _ e); auto.
      * apply filter_snoc_out. cbn. now rewrite !Z.eqb_refl.
    + destruct (String.eqb _ "SELL"); [|reflexivity].
      destruct (holding_of db portfolio_id _) as [e|] eqn:He; [|reflexivity].
      destruct (_ <? _); [reflexivity|].
      apply holding_of_out in He. destruct He as [Hin Hout].
      destruct (_ =? 0); cbn [fst holdings_table with_holdings].
      * now apply filter_delete_holding.
      * apply (filter_update_holding _ _ e); auto.
Qed.

(** X16.  [delete_holding] removes a holding only through its own
    portfolio and for that portfolio's owner: it succeeds exactly when the
    caller owns the portfolio of the path and that portfolio has a holding of
    the given key; then the rows of that key are gone and every other holding
    stays; in every other case the database is left as it was. *)
Theorem delete_holding_own_portfolio (db : Database) (portfolio_id holding_id : Z)
    (current_user : models.User.t) :
  let after := delete_holding db portfolio_id holding_id current_user in
  (snd after = Ok tt
   <-> owns db current_user portfolio_id
       /\ exists h, In h (holdings_table db)
                    /\ tables.Holding.id h = holding_id
                    /\ tables.Holding.portfolio_id h = portfolio_id)
  /\ (snd after = Ok tt ->
      forall h, In h (holdings_table (fst after))
                <-> In h (holdings_table db) /\ tables.Holding.id h <> holding_id)
  /\ (snd after <> Ok tt -> fst after = db).
Proof.
  intros after. subst after. unfold delete_holding.
  destruct (owned_portfolio db portfolio_id current_user) as [p|] eqn:Hp.
  - assert (Ho : owns db current_user portfolio_id)
      by (apply owned_portfolio_some; now exists p).
    destruct (find _ (holdings_table db)) as [e|] eqn:He; cbn [fst snd].
    + apply find_some in He. destruct He as [Hin He].
      apply andb_true_iff in He. rewrite !Z.eqb_eq in He. destruct He as [Hid Hpid].
      split; [split; [intros _; split; [exact Ho|now exists e]|reflexivity]|].
      split; [|congruence].
      intros _ h. unfold delete_holding_row. cbn [holdings_table with_holdings].
      rewrite filter_In, Hid, negb_true_iff, Z.eqb_neq. tauto.
    + split; [|split; [discriminate|reflexivity]].
      split; [discriminate|]. intros [_ (h & Hin & Hid & Hpid)].
      apply (find_none _ _ He) in Hin. cbv beta in Hin.
      rewrite Hid, Hpid, !Z.eqb_refl in Hin. discriminate.
  - split; [|split; [discriminate|reflexivity]].
    split; [discriminate|]. intros [Ho _]. apply owned_portfolio_none in Hp. tauto.
Qed.

(** X17.  [create_holding] sets the position of the portfolio of the path:
    for a portfolio of the caller and a known stock it succeeds, the holding
    it returns is the one the portfolio holds in that stock afterwards and is
    listed by [read_holdings], it carries the quantity and the price of the
    request and the portfolio of the path (not the one named in the body);
    a stock already held keeps its row, so that the number of holdings is
    unchanged, and a stock not held adds one row. *)
Theorem create_holding_sets_position (db : Database) (portfolio_id : Z)
    (holding : schemas.HoldingCreate.t) (current_user : models.User.t)
    (stock : tables.Stock.t) :
  owns db current_user portfolio_id ->
  stock_by_id db (schemas.HoldingCreate.stock_id holding) = Some stock ->
  let after :=
    create_holding new_holding_id utcnow db portfolio_id holding current_user in
  exists db_holding,
    snd after = Ok db_holding
    /\ holding_of (fst after) portfolio_id (schemas.HoldingCreate.stock_id holding)
       = Some db_holding
    /\ (exists rows, read_holdings (fst after) portfolio_id current_user = Ok rows
                     /\ In db_holding rows)
    /\ tables.Holding.portfolio_id db_holding = portfolio_id
    /\ tables.Holding.stock_id db_holding = schemas.HoldingCreate.stock_id holding
    /\ tables.Holding.quantity db_holding = schemas.HoldingCreate.quantity holding
    /\ tables.Holding.average_buy_price db_holding
       = schemas.HoldingCreate.average_buy_price holding
    /\ length (holdings_table (fst after))
       = match holding_of db portfolio_id (schemas.HoldingCreate.stock_id holding) with
         | Some _ => length (holdings_table db)
         | None => S (length (holdings_table db))
         end.
Proof.
  intros Ho Hs after. subst after.
  apply owned_portfolio_some in Ho. destruct Ho as [p Hp].
  assert (Hread : forall db' h,
             portfolios_table db' = portfolios_table db ->
             holding_of db' portfolio_id (schemas.HoldingCreate.stock_id holding)
             = Some h ->
             exists rows, read_holdings db' portfolio_id current_user = Ok rows
                          /\ In h rows).
  { intros db' h Hpt Hh. unfold read_holdings, owned_portfolio. rewrite Hpt.
    fold (owned_portfolio db portfolio_id current_user). rewrite Hp.
    eexists. split; [reflexivity|]. apply holding_of_some in Hh.
    destruct Hh as [Hin Hk]. injection Hk as E1 E2.
    apply filter_In. split; [exact Hin|]. now rewrite E1, Z.eqb_refl. }
  unfold create_holding. rewrite Hp, Hs.
  destruct (holding_of db portfolio_id _) as [e|] eqn:He; cbn [fst snd].
  - assert (Hk : tables.Holding.portfolio_id e = portfolio_id
                 /\ tables.Holding.stock_id e = schemas.HoldingCreate.stock_id holding).
    { apply holding_of_some in He. destruct He as [_ Hk]. now injection Hk. }
    destruct Hk as [E1 E2].
    assert (Hlookup : holding_of
                        (with_holdings db
                           (update_holding (holdings_table db)
                              (set_holding e (schemas.HoldingCreate.quantity holding)
                                 (schemas.HoldingCreate.average_buy_price holding)
                                 utcnow)))
                        portfolio_id (schemas.HoldingCreate.stock_id holding)
                      = Some (set_holding e (schemas.HoldingCreate.quantity holding)
                                (schemas.HoldingCreate.average_buy_price holding)
                                utcnow)).
    { unfold holding_of, with_holdings. cbn [holdings_table].
      apply (find_update_holding _ _ e); [exact He| |reflexivity].
      cbn. now rewrite E1, E2, !Z.eqb_refl. }
    eexists. split; [reflexivity|]. split; [exact Hlookup|].
    split; [now apply Hread|]. cbn.
    repeat split; try assumption. unfold update_holding. apply length_map.
  - assert (Hlookup : holding_of
                        (with_holdings db
                           (holdings_table db
                            ++ [{| tables.Holding.id := new_holding_id;
                                   tables.Holding.portfolio_id := portfolio_id;
                                   tables.Holding.stock_id :=
                                     schemas.HoldingCreate.stock_id holding;
                                   tables.Holding.quantity :=
                                     schemas.HoldingCreate.quantity holding;
                                   tables.Holding.average_buy_price :=
                                     schemas.HoldingCreate.average_buy_price holding;
                                   tables.Holding.created_at := utcnow;
                                   tables.Holding.updated_at := utcnow |}]))
                        portfolio_id (schemas.HoldingCreate.stock_id holding)
                      = Some {| tables.Holding.id := new_holding_id;
                                tables.Holding.portfolio_id := portfolio_id;
                                tables.Holding.stock_id :=
                                  schemas.HoldingCreate.stock_id holding;
                                tables.Holding.quantity :=
                                  schemas.HoldingCreate.quantity holding;
                                tables.Holding.average_buy_price :=
                                  schemas.HoldingCreate.average_buy_price holding;
                                tables.Holding.created_at := utcnow;
                                tables.Holding.updated_at := utcnow |}).
    { unfold holding_of, with_holdings. cbn [holdings_table].
      apply find_app_none; [exact He|]. cbn. now rewrite !Z.eqb_refl. }
    eexists. split; [reflexivity|]. split; [exact Hlookup|].
    split; [now apply Hread|]. cbn.
    repeat split. rewrite length_app. cbn. lia.
Qed.

End PortfolioRouterProperties.

Lemma sample_database_consistent : holdings_consistent sample_database.
Proof.
  split; cbn; repeat constructor; cbn; intros H;
    repeat (destruct H as [H|H]; [discriminate H|]); exact H.
Qed.

Lemma holdings_stay_consistent_witness :
  holdings_consistent
    (fst (create_transaction 104 1 5000 sample_database 1
            (sample_transaction 10 "SELL" 2 110) user7))
  /\ holdings_table
       (fst (create_transaction 104 1 5000 sample_database 1
               (sample_transaction 10 "SELL" 2 110) user7))
     = [ sample_holding 101 1 11 4 55; sample_holding 102 3 10 1 100;
         sample_holding 103 1 12 5 10 ].
Proof.
  split; [|reflexivity].
  apply (holdings_stay_consistent 104 1 5000 sample_database 1 100
           (sample_holding_request 10 1 1) (sample_transaction 10 "SELL" 2 110) user7).
  - exact sample_database_consistent.
  - cbn. intros H. repeat (destruct H as [H|H]; [discriminate H|]). exact H.
Defined.

Lemma create_transaction_recorded_witness :
  snd (create_transaction 104 1 5000 sample_database 1
         (sample_transaction 10 "SELL" 3 110) user7)
  = Raise (HTTPException 400 "Not enough shares to sell")
  /\ exists row,
       transactions_table
         (fst (create_transaction 104 1 5000 sample_database 1
                 (sample_transaction 10 "SELL" 3 110) user7))
       = [row]
       /\ tables.Transaction.quantity row = 3.
Proof.
  split; [reflexivity|].
  destruct (create_transaction_recorded 104 1 5000 sample_database 1
              (sample_transaction 10 "SELL" 3 110) user7
              (sample_stock 10 "A" (Some 102)))
    as (row & Htable & _ & _ & _ & _ & Hq & _).
  - exists (sample_portfolio 1 7 "Growth"). cbn. tauto.
  - reflexivity.
  - exists row. split; [exact Htable|exact Hq].
Defined.

Lemma sell_updates_holding_witness :
  holding_of
    (fst (create_transaction 104 1 5000 sample_database 1
            (sample_transaction 10 "SELL" 2 110) user7)) 1 10
  = None.
Proof.
  refine (proj2 (sell_updates_holding 104 1 5000 sample_database 1
                   (sample_transaction 10 "SELL" 2 110) user7
                   (sample_stock 10 "A" (Some 102)) (sample_holding 100 1 10 2 90)
                   _ eq_refl eq_refl sample_database_consistent eq_refl eq_refl)).
  exists (sample_portfolio 1 7 "Growth"). cbn. tauto.
Defined.

Lemma buy_updates_holding_witness :
  exists holding',
    holding_of
      (fst (create_transaction 104 1 5000 sample_database 1
              (sample_transaction 10 "BUY" 1 120) user7)) 1 10
    = Some holding'
    /\ tables.Holding.quantity holding' = 3
    /\ tables.Holding.average_buy_price holding' = 100.
Proof.
  destruct (buy_updates_holding 104 1 5000 sample_database 1
              (sample_transaction 10 "BUY" 1 120) user7
              (sample_stock 10 "A" (Some 102)))
    as (_ & holding' & Hlookup & Hfields).
  - exists (sample_portfolio 1 7 "Growth"). cbn. tauto.
  - reflexivity.
  - reflexivity.
  - exists holding'. split; [exact Hlookup|]. exact (proj2 Hfields).
Defined.

Lemma other_holdings_untouched_witness :
  other_holdings
    (fst (create_transaction 104 1 5000 sample_database 1
            (sample_transaction 10 "BUY" 1 120) user7)) 1 10
  = [ sample_holding 101 1 11 4 55; sample_holding 102 3 10 1 100;
      sample_holding 103 1 12 5 10 ].
Proof.
  refine (eq_trans
            (proj2 (other_holdings_untouched 104 1 5000 sample_database 1
                      (sample_holding_request 10 1 1)
                      (sample_transaction 10 "BUY" 1 120) user7 _))
            eq_refl).
  exact (proj1 sample_database_consistent).
Defined.

Lemma create_holding_sets_position_witness :
  exists db_holding,
    snd (create_holding 104 5000 sample_database 1
           (sample_holding_request 11 7 60) user7) = Ok db_holding
    /\ tables.Holding.portfolio_id db_holding = 1%Z
    /\ tables.Holding.quantity db_holding = 7.
Proof.
  destruct (create_holding_sets_position 104 5000 sample_database 1
              (sample_holding_request 11 7 60) user7
              (sample_stock 11 "B" (Some 50)))
    as (h & Hok & _ & _ & Hpid & _ & Hq & _).
  - exists (sample_portfolio 1 7 "Growth"). cbn. tauto.
  - reflexivity.
  - exists h. split; [exact Hok|]. split; [exact Hpid|exact Hq].
Defined.

(** ** The summary of a portfolio *)

Lemma find_map_pred {A B : Type} (f : A -> B) (p : B -> bool) (l : list A) :
  find p (map f l) = option_map f (find (fun x => p (f x)) l).
Proof.
  induction l as [|x l IH]; cbn; [reflexivity|]. now destruct (p (f x)).
Qed.

Lemma filter_map_pred {A B : Type} (f : A -> B) (p : B -> bool) (l : list A) :
  filter p (map f l) = map f (filter (fun x => p (f x)) l).
Proof.
  induction l as [|x l IH]; cbn; [reflexivity|].
  destruct (p (f x)); cbn; now rewrite IH.
Qed.

(** The loop of the summary and the loop of the risk analysis add up the
    same market values. *)
Lemma summary_collect (db : Database) (hs : list tables.Holding.t)
    (symbols : list string) (weights : list float) (total_value total_cost : float) :
  fst (fold_left (summary_step db) hs (total_value, total_cost))
  = snd (fold_left (collect_holding (session_of db))
           (map (fun h =>
                   {| models.Holding.portfolio_id := tables.Holding.portfolio_id h;
                      models.Holding.stock_id := tables.Holding.stock_id h;
                      models.Holding.quantity := tables.Holding.quantity h |}) hs)
           (symbols, weights, total_value)).
Proof.
  revert symbols weights total_value total_cost.
  induction hs as [|h hs IH]; intros symbols weights total_value total_cost;
    [reflexivity|].
  cbn [fold_left map]. unfold summary_step at 2, collect_holding at 2.
  cbn [session_of stocks models.Holding.stock_id models.Holding.quantity].
  rewrite find_map_pred. cbn [models.Stock.id]. unfold stock_by_id.
  destruct (find _ (stocks_table db)) as [stock|]; cbn [option_map]; [|apply IH].
  cbn [models.Stock.current_price models.Stock.symbol].
  destruct (tables.Stock.current_price stock) as [price|]; [|apply IH].
  destruct (truthy price); apply IH.
Qed.

(** X18.  The total value of [get_portfolio_summary] is the total market
    value [analyze_portfolio_risk] computes for the same portfolio when it
    collects the symbols and weights: both loops add the quantity times the
    current price of the same holdings, in the same order. *)
Theorem summary_total_is_analysis_total (db : Database) (portfolio_id : Z)
    (current_user : models.User.t) (summary_ : PortfolioSummary) :
  get_portfolio_summary db portfolio_id current_user = Ok summary_ ->
  summary_total_value summary_
  = snd (collect_holdings (session_of db)
           (filter (fun h => (models.Holding.portfolio_id h =? portfolio_id)%Z)
                   (holdings (session_of db)))).
Proof.
  unfold get_portfolio_summary.
  destruct (owned_portfolio db portfolio_id current_user); [|discriminate].
  pose proof (summary_collect db
                (filter (fun h => (tables.Holding.portfolio_id h =? portfolio_id)%Z)
                        (holdings_table db)) [] [] 0 0) as H.
  destruct (fold_left (summary_step db) _ (0, 0)) as [total_value total_cost].
  intros [= <-]. cbn [summary_total_value]. cbn [fst] in H. rewrite H.
  unfold collect_holdings. cbn [session_of holdings].
  now rewrite filter_map_pred.
Qed.

Lemma summary_total_is_analysis_total_witness :
  exists summary_,
    get_portfolio_summary sample_database 1 user7 = Ok summary_
    /\ summary_total_value summary_ = 404
    /\ snd (collect_holdings (session_of sample_database)
              (filter (fun h => (models.Holding.portfolio_id h =? 1)%Z)
                      (holdings (session_of sample_database)))) = 404.
Proof.
  destruct (get_portfolio_summary sample_database 1 user7) as [summary_|e] eqn:H.
  - exists summary_. split; [reflexivity|].
    assert (Htotal : summary_total_value summary_ = 404)
      by (vm_compute in H; injection H as <-; reflexivity).
    split; [exact Htotal|].
    rewrite <- (summary_total_is_analysis_total _ _ _ _ H). exact Htotal.
  - exfalso. vm_compute in H. discriminate H.
Defined.

(** X19.  The summary agrees with the other endpoints of the same
    portfolio: it fails exactly when [read_holdings] fails, with 404
    "Portfolio not found"; its holdings are those [read_holdings] returns;
    its risk analysis is the one [get_latest_risk_analysis] returns, and is
    missing exactly when that endpoint answers 404 "No risk analysis found for
    this portfolio"; the portfolio it shows is one of the caller's with the id
    asked for. *)
Theorem summary_agrees_with_endpoints (db : Database) (portfolio_id : Z)
    (current_user : models.User.t) :
  match get_portfolio_summary db portfolio_id current_user with
  | Raise e =>
      e = HTTPException 404 "Portfolio not found"
      /\ read_holdings db portfolio_id current_user = Raise e
      /\ ~ owns db current_user portfolio_id
  | Ok summary_ =>
      read_holdings db portfolio_id current_user = Ok (summary_holdings summary_)
      /\ match summary_risk_analysis summary_ with
         | Some analysis =>
             get_latest_risk_analysis db portfolio_id current_user = Ok analysis
         | None =>
             get_latest_risk_analysis db portfolio_id current_user
             = Raise (HTTPException 404 "No risk analysis found for this portfolio")
         end
      /\ In (summary_portfolio summary_) (portfolios_table db)
      /\ tables.Portfolio.id (summary_portfolio summary_) = portfolio_id
      /\ tables.Portfolio.owner_id (summary_portfolio summary_)
         = models.User.id current_user
  end.
Proof.
  unfold get_portfolio_summary, read_holdings, get_latest_risk_analysis.
  destruct (owned_portfolio db portfolio_id current_user) as [p|] eqn:Hp.
  - destruct (fold_left (summary_step db) _ (0, 0)) as [total_value total_cost].
    cbn [summary_holdings summary_risk_analysis summary_portfolio].
    split; [reflexivity|].
    split; [destruct (analyses_of db portfolio_id); reflexivity|].
    unfold owned_portfolio in Hp. apply find_some in Hp. destruct Hp as [Hin Hp].
    apply andb_true_iff in Hp. rewrite !Z.eqb_eq in Hp. tauto.
  - split; [reflexivity|]. split; [reflexivity|]. now apply owned_portfolio_none.
Qed.

Lemma fold_summary_priced (db : Database) (hs : list tables.Holding.t)
    (acc : float * float) :
  fold_left (summary_step db) (filter (priced db) hs) acc
  = fold_left (summary_step db) hs acc.
Proof.
  revert acc. induction hs as [|h hs IH]; intros acc; [reflexivity|]. cbn [filter].
  destruct (priced db h) eqn:Hh; cbn [fold_left]; [apply IH|].
  rewrite IH. f_equal. unfold summary_step, priced in *. destruct acc as [v c].
  destruct (stock_by_id db _) as [stock|]; [|reflexivity].
  destruct (tables.Stock.current_price stock) as [price|]; [|reflexivity].
  now rewrite Hh.
Qed.

(** X20.  Holdings without a usable price count for nothing in the summary:
    a holding whose stock is unknown or has a price that is missing or zero
    adds neither value nor cost, so that the total value, the overall return
    and its percentage are those of the database without these holdings; and
    a summary with no priced holding reports 0 for all three. *)
Theorem summary_ignores_unpriced (db : Database) (portfolio_id : Z)
    (current_user : models.User.t) :
  let figures :=
    fmap (fun s => (summary_total_value s, overall_return s, overall_return_percent s)) in
  figures (get_portfolio_summary
             (with_holdings db (filter (priced db) (holdings_table db)))
             portfolio_id current_user)
  = figures (get_portfolio_summary db portfolio_id current_user)
  /\ ((forall h, In h (holdings_table db) ->
                 tables.Holding.portfolio_id h = portfolio_id -> priced db h = false) ->
      owns db current_user portfolio_id ->
      figures (get_portfolio_summary db portfolio_id current_user) = Ok (0, 0, 0)).
Proof.
  intros figures. subst figures. unfold get_portfolio_summary, fmap, bind.
  change (owned_portfolio (with_holdings db ?hs)) with (owned_portfolio db).
  change (analyses_of (with_holdings db ?hs)) with (analyses_of db).
  change (summary_step (with_holdings db ?hs)) with (summary_step db).
  cbn [holdings_table with_holdings]. split.
  - destruct (owned_portfolio db portfolio_id current_user); [|reflexivity].
    assert (E : filter (fun h => (tables.Holding.portfolio_id h =? portfolio_id)%Z)
                  (filter (priced db) (holdings_table db))
                = filter (priced db)
                    (filter (fun h => (tables.Holding.portfolio_id h =? portfolio_id)%Z)
                       (holdings_table db))).
    { generalize (holdings_table db) as l. intros l.
      induction l as [|h l IH]; cbn; [reflexivity|].
      destruct (priced db h) eqn:E1;
        destruct (tables.Holding.portfolio_id h =? portfolio_id)%Z eqn:E2;
        cbn; rewrite ?E1, ?E2; now rewrite IH. }
    rewrite E, fold_summary_priced.
    destruct (fold_left (summary_step db) _ (0, 0)) as [total_value total_cost].
    reflexivity.
  - intros Hnone Ho. apply owned_portfolio_some in Ho. destruct Ho as [p ->].
    rewrite <- fold_summary_priced.
    assert (E : filter (priced db)
                  (filter (fun h => (tables.Holding.portfolio_id h =? portfolio_id)%Z)
                     (holdings_table db)) = []).
    { generalize (holdings_table db), Hnone. intros l.
      induction l as [|h l IH]; cbn; intros H; [reflexivity|].
      destruct (Z.eqb_spec (tables.Holding.portfolio_id h) portfolio_id) as [E|_];
        cbn; [rewrite (H h (or_introl eq_refl) E)|]; apply IH;
        intros h' Hh'; apply H; now right. }
    rewrite E. reflexivity.
Qed.

(** ** The requests [analyze_portfolio_risk] turns away *)

(** X21.  What [analyze_portfolio_risk] answers, case by case: 404
    "Portfolio not found" exactly when the caller owns no portfolio of that
    id; 400 "Portfolio has no holdings" exactly when the portfolio is the
    caller's and has no holding; 400 "No valid stocks in portfolio" exactly
    when it has holdings and none of them is of a known stock with a price
    that is neither missing nor zero; and in every other case the catch-all
    500 whose detail starts with "Error analyzing portfolio risk: ". *)
Theorem analyze_portfolio_risk_rejections
    (yf_download service_yf_download : list string -> result DataFrame)
    (LedoitWolf_fit : DataFrame -> result (list (list float))) (utcnow : Z)
    (db : Session) (portfolio_id : Z) (confidence_level : float)
    (current_user : models.User.t) :
  let answer :=
    analyze_portfolio_risk yf_download service_yf_download LedoitWolf_fit utcnow
      db portfolio_id confidence_level current_user in
  let owned :=
    exists p, In p (portfolios db)
              /\ models.Portfolio.id p = portfolio_id
              /\ models.Portfolio.owner_id p = models.User.id current_user in
  let held :=
    filter (fun h => (models.Holding.portfolio_id h =? portfolio_id)%Z) (holdings db) in
  (answer = Raise (HTTPException 404 "Portfolio not found") <-> ~ owned)
  /\ (answer = Raise (HTTPException 400 "Portfolio has no holdings")
      <-> owned /\ held = [])
  /\ (answer = Raise (HTTPException 400 "No valid stocks in portfolio")
      <-> owned /\ held <> [] /\ valid_positions db held = [])
  /\ (owned -> valid_positions db held <> [] ->
      exists e, answer = Raise (HTTPException 500
                                  ("Error analyzing portfolio risk: " ++ str_exn e))).
Proof.
  intros answer owned held. subst answer. unfold analyze_portfolio_risk.
  fold held.
  assert (Hvalid_nil : held = [] -> valid_positions db held = [])
    by (intros ->; reflexivity).
  destruct (find _ (portfolios db)) as [p|] eqn:Hp.
  - assert (Ho : owned).
    { apply find_some in Hp. destruct Hp as [Hin Hp].
      apply andb_true_iff in Hp. rewrite !Z.eqb_eq in Hp. exists p. tauto. }
    destruct held as [|holding more] eqn:Hheld.
    + split; [split; [discriminate|tauto]|].
      split; [tauto|].
      split; [split; [discriminate|intros (_ & H & _); congruence]|].
      intros _ H. now destruct H.
    + pose proof (collect_holdings_from db (holding :: more) [] []) as Hc.
      change (fold_left (collect_holding db) (holding :: more) ([], [], np_sum []))
        with (collect_holdings db (holding :: more)) in Hc.
      rewrite Hc. cbn [app].
      destruct (valid_positions db (holding :: more)) as [|position positions].
      * cbn [map].
        split; [split; [discriminate|tauto]|].
        split; [split; [discriminate|intros [_ H]; discriminate]|].
        split; [split; [intros _; repeat split; [exact Ho|discriminate]|reflexivity]|].
        intros _ H. now destruct H.
      * cbn [map].
        match goal with
        | |- context [try_except (analysis_body _ _ _ _ ?d ?i ?c ?s ?w ?t) _] =>
            destruct (try_block_fails yf_download service_yf_download LedoitWolf_fit
                        utcnow d i c s w t) as [e He]
        end.
        rewrite He. unfold error_response.
        split; [split; [discriminate|tauto]|].
        split; [split; [discriminate|intros [_ H]; discriminate]|].
        split; [split; [discriminate|intros (_ & _ & H); discriminate]|].
        intros _ _. now exists e.
  - assert (Ho : ~ owned).
    { intros (p & Hin & Hid & Hown). apply (find_none _ _ Hp) in Hin.
      cbv beta in Hin. rewrite Hid, Hown, !Z.eqb_refl in Hin. discriminate. }
    split; [tauto|].
    split; [split; [discriminate|tauto]|].
    split; [split; [discriminate|tauto]|]. tauto.
Qed.

(** ** Price histories without a return *)

Lemma mask_step_all_false (m : list bool) (c : string * list float) :
  Forall (fun b => b = false) m -> Forall (fun b => b = false) (mask_step m c).
Proof.
  destruct c as [name series]. cbn [mask_step].
  generalize (map notnan series) as bs. intros bs H. revert bs.
  induction H as [|b m -> _ IH]; intros [|b' bs]; cbn; constructor; auto.
Qed.

Lemma mask_fold_all_false (df : DataFrame) (m : list bool) :
  Forall (fun b => b = false) m ->
  Forall (fun b => b = false) (fold_left mask_step df m).
Proof.
  revert m. induction df as [|c df IH]; intros m H; [exact H|].
  cbn [fold_left]. apply IH. now apply mask_step_all_false.
Qed.

Lemma select_all_false (mask : list bool) (xs : list float) :
  Forall (fun b => b = false) mask -> select mask xs = [].
Proof.
  intros H. revert xs. induction H as [|b m -> _ IH]; intros [|x xs]; cbn; auto.
Qed.

Lemma select_nil (mask : list bool) : select mask [] = [].
Proof. now destruct mask as [|[|] mask]. Qed.

(** Prices over fewer than two dates leave no date with a return. *)
Lemma returns_of_short_history (data : DataFrame) :
  (nrows data <= 1)%nat -> nrows (dropna (pct_change data)) = 0%nat.
Proof.
  destruct data as [|[name c] data]; [reflexivity|]. cbn [nrows]. intros Hlen.
  unfold dropna. cbn [pct_change map nrows].
  destruct c as [|x [|y c]]; [| |cbn in Hlen; lia].
  - change (pct_change_series []) with (@nil float). now rewrite select_nil.
  - rewrite select_all_false; [reflexivity|].
    unfold row_mask. cbn [fold_left]. apply mask_fold_all_false.
    cbn. repeat constructor.
Qed.

Lemma dot_no_rows (df : DataFrame) (weights portfolio_returns : list float) :
  nrows df = 0%nat -> dot df weights = Ok portfolio_returns -> portfolio_returns = [].
Proof.
  unfold dot. intros ->. destruct (length df =? length weights)%nat; [|discriminate].
  intros [= <-]. cbn [repeat]. generalize (combine df weights) as l.
  induction l as [|[[name c] w] l IH]; [reflexivity|exact IH].
Qed.

Lemma calculate_var_empty (c : float) (timeframe : string) :
  exists e, calculate_var [] c timeframe = Raise e.
Proof.
  unfold calculate_var. cbn [np_sort fold_right].
  destruct (py_int _) as [index|e]; cbn [bind]; [|now exists e].
  unfold np_getitem. cbn [length Z.of_nat].
  replace ((0 <=? index) && (index <? 0))%Z with false by lia.
  replace ((- 0 <=? index) && (index <? 0))%Z with false by lia.
  eexists. reflexivity.
Qed.

(** X22.  [calculate_portfolio_var] needs two dates of prices: when the
    provider answers with prices over fewer than two dates there is no
    return to take a quantile of, and the service fails, whatever the weights
    and the confidence level, with the exception it wraps every failure in,
    whose message starts with "Error calculating portfolio VaR: ". *)
Theorem calculate_portfolio_var_needs_two_dates
    (yf_download : list string -> result DataFrame) (symbols : list string)
    (weights : list float) (confidence_level : float) (data : DataFrame) :
  yf_download symbols = Ok data ->
  (nrows data <= 1)%nat ->
  exists e,
    calculate_portfolio_var yf_download symbols weights confidence_level
    = Raise (Exception ("Error calculating portfolio VaR: " ++ str_exn e)).
Proof.
  intros Hdata Hrows. unfold calculate_portfolio_var. rewrite Hdata. cbn [bind].
  destruct (dot (dropna (pct_change data)) weights) as [portfolio_returns|e] eqn:Hdot;
    cbn [bind try_except]; [|now exists e].
  apply dot_no_rows in Hdot; [|now apply returns_of_short_history]. subst.
  destruct (calculate_var_empty confidence_level "daily") as [e ->].
  cbn [bind try_except]. now exists e.
Qed.

Lemma calculate_portfolio_var_needs_two_dates_witness :
  exists e,
    calculate_portfolio_var (fun _ => Ok [("A", [100])]) ["A"] [1] 0.95
    = Raise (Exception ("Error calculating portfolio VaR: " ++ str_exn e)).
Proof.
  apply (calculate_portfolio_var_needs_two_dates
           (fun _ => Ok [("A", [100])]) ["A"] [1] 0.95 [("A", [100])]);
    [reflexivity|cbn; lia].
Defined.

(** ** Recommendations: when they fail *)

Lemma df_getitem_raises (df : DataFrame) (sym : string) (e : exn) :
  df_getitem df sym = Raise e -> e = KeyError sym.
Proof.
  induction df as [|[name c] df IH]; cbn; [now intros [= <-]|].
  destruct (String.eqb name sym); [discriminate|exact IH].
Qed.

Lemma np_getitem_nat (a : list float) (i : nat) :
  match np_getitem a (Z.of_nat i) with
  | Ok _ => (i < length a)%nat
  | Raise e => (length a <= i)%nat /\ exists msg, e = IndexError msg
  end.
Proof.
  unfold np_getitem.
  destruct (Z.ltb_spec (Z.of_nat i) (Z.of_nat (length a))) as [Hlt|Hge].
  - replace (0 <=? Z.of_nat i)%Z with true by (symmetry; apply Z.leb_le; lia).
    cbn. lia.
  - rewrite andb_false_r.
    replace (Z.of_nat i <? 0)%Z with false by (symmetry; apply Z.ltb_ge; lia).
    rewrite andb_false_r. split; [lia|]. eexists. reflexivity.
Qed.

(** What one turn of the loop needs: the symbol is a column of the returns,
    and the instrument has a weight if its Sharpe ratio is below 0.1. *)
Lemma optimization_step_outcome (returns : DataFrame) (weights : list float)
    (acc : list OptimizationEntry) (i : nat) (sym : string) :
  match optimization_step returns weights acc (i, sym) with
  | Ok _ =>
      exists series, df_getitem returns sym = Ok series
                     /\ ((asset_sharpe series <? 0.1) = true -> (i < length weights)%nat)
  | Raise e =>
      (e = KeyError sym /\ df_getitem returns sym = Raise e)
      \/ (exists series msg,
             df_getitem returns sym = Ok series
             /\ (asset_sharpe series <? 0.1) = true
             /\ (length weights <= i)%nat
             /\ e = IndexError msg)
  end.
Proof.
  unfold optimization_step.
  destruct (df_getitem returns sym) as [series|e] eqn:Hs; cbn [bind].
  - destruct (asset_sharpe series <? 0.1) eqn:Hsharpe.
    + pose proof (np_getitem_nat weights i) as Hw.
      destruct (np_getitem weights (Z.of_nat i)) as [w|e]; cbn [bind].
      * destruct (0.1 <? w); exists series; auto.
      * destruct Hw as [Hlen [msg ->]]. right. exists series, msg. auto.
    + exists series. split; [reflexivity|congruence].
  - left. pose proof (df_getitem_raises _ _ _ Hs) as ->. auto.
Qed.

Lemma optimization_loop_outcome (returns : DataFrame) (weights : list float)
    (ps : list (nat * string)) (acc : list OptimizationEntry) :
  match for_each (optimization_step returns weights) ps acc with
  | Ok _ =>
      forall i sym, In (i, sym) ps ->
        exists series, df_getitem returns sym = Ok series
                       /\ ((asset_sharpe series <? 0.1) = true
                           -> (i < length weights)%nat)
  | Raise e =>
      exists i sym,
        In (i, sym) ps
        /\ ((e = KeyError sym /\ df_getitem returns sym = Raise e)
            \/ (exists series msg,
                   df_getitem returns sym = Ok series
                   /\ (asset_sharpe series <? 0.1) = true
                   /\ (length weights <= i)%nat
                   /\ e = IndexError msg))
  end.
Proof.
  revert acc. induction ps as [|[i sym] ps IH]; intros acc; cbn [for_each].
  - intros ? ? [].
  - pose proof (optimization_step_outcome returns weights acc i sym) as Hstep.
    destruct (optimization_step returns weights acc (i, sym)) as [acc'|e]; cbn [bind].
    + specialize (IH acc').
      destruct (for_each (optimization_step returns weights) ps acc') as [out|e].
      * intros j s [[= <- <-]|Hin]; [exact Hstep|now apply IH].
      * destruct IH as (j & s & Hin & H). exists j, s. split; [now right|exact H].
    + exists i, sym. split; [now left|exact Hstep].
Qed.

(** X23.  The failures of [generate_recommendations]: it raises [KeyError]
    for a symbol that is not a column of the returns, and [IndexError] for an
    instrument whose Sharpe ratio is below 0.1 and whose position has no
    weight, and nothing else; the weight of an instrument whose Sharpe ratio
    is not below 0.1 is never read, so that a list of weights shorter than the
    symbols is accepted as long as the instruments beyond it have such a
    ratio. *)
Theorem generate_recommendations_failures (returns : DataFrame)
    (weights : list float) (symbols : list string) (risk_score : Z) :
  (forall e,
      generate_recommendations returns weights symbols risk_score = Raise e ->
      exists i sym,
        nth_error symbols i = Some sym
        /\ ((e = KeyError sym /\ df_getitem returns sym = Raise e)
            \/ (exists series msg,
                   df_getitem returns sym = Ok series
                   /\ (asset_sharpe series <? 0.1) = true
                   /\ (length weights <= i)%nat
                   /\ e = IndexError msg)))
  /\ ((exists r, generate_recommendations returns weights symbols risk_score = Ok r)
      <-> forall i sym,
            nth_error symbols i = Some sym ->
            exists series,
              df_getitem returns sym = Ok series
              /\ ((asset_sharpe series <? 0.1) = true -> (i < length weights)%nat)).
Proof.
  unfold generate_recommendations.
  pose proof (optimization_loop_outcome returns weights (enumerate symbols) []) as H.
  destruct (for_each (optimization_step returns weights) (enumerate symbols) [])
    as [out|e]; cbn [bind].
  - split; [discriminate|]. split; [|eauto].
    intros _ i sym Hnth. apply H. now apply in_enumerate.
  - destruct H as (i & sym & Hin & H). apply in_enumerate in Hin. split.
    + intros e' [= <-]. now exists i, sym.
    + split; [intros [r Hr]; discriminate|]. intros Hall. exfalso.
      destruct (Hall i sym Hin) as (series & Hs & Hw).
      destruct H as [[_ H]|(series' & msg & Hs' & Hsharpe & Hlen & _)];
        [congruence|].
      assert (series' = series) by congruence. subst series'.
      specialize (Hw Hsharpe). lia.
Qed.

(** ** Sentiment *)

Lemma str_slice_to_prefix (n : nat) (text : pystr) :
  (exists rest, text = str_slice_to n text ++ rest)
  /\ length (str_slice_to n text) = Nat.min n (length text).
Proof.
  unfold str_slice_to. split; [|apply length_firstn].
  exists (skipn n text). symmetry. apply firstn_skipn.
Qed.

Lemma label_map_scores (label : string) :
  dict_get_default label_map label 0
  = if String.eqb label "positive" then 1
    else if String.eqb label "negative" then -1
    else 0.
Proof.
  unfold dict_get_default, label_map. cbn [dict_get].
  rewrite (String.eqb_sym "positive"), (String.eqb_sym "neutral"),
    (String.eqb_sym "negative").
  destruct (String.eqb_spec label "positive") as [->|_]; [reflexivity|].
  destruct (String.eqb_spec label "neutral") as [->|_]; [reflexivity|].
  now destruct (String.eqb label "negative").
Qed.

Lemma Forall2_in_left {A B : Type} (R : A -> B -> Prop) (l : list A) (l' : list B)
    (x : A) :
  Forall2 R l l' -> In x l -> exists y, In y l' /\ R x y.
Proof.
  induction 1 as [|a b l l' Hab _ IH]; [intros []|].
  intros [<-|Hin]; [exists b; split; [now left|exact Hab]|].
  destruct (IH Hin) as (y & Hy & Hr). exists y. split; [now right|exact Hr].
Qed.

Section SentimentProperties.

Variable load_pipeline : string -> result SentimentAnalyzer.
Variable utcnow : Z.

Lemma sentiment_loop (analyzer : SentimentAnalyzer) (texts : list pystr)
    (results0 : list SentimentResult.t) :
  match for_each (sentiment_step utcnow analyzer) texts results0 with
  | Ok results =>
      exists added, results = results0 ++ added
                    /\ Forall2 (result_of analyzer) texts added
  | Raise e =>
      exists before text after,
        texts = before ++ text :: after
        /\ (forall t, In t before -> exists prediction rest,
                                       analyzer t = Ok (prediction :: rest))
        /\ (analyzer text = Raise e
            \/ (analyzer text = Ok [] /\ e = IndexError "list index out of range"))
  end.
Proof.
  revert results0. induction texts as [|text texts IH]; intros results0; cbn [for_each].
  - exists []. split; [now rewrite app_nil_r|constructor].
  - unfold sentiment_step at 1.
    destruct (analyzer text) as [[|prediction rest]|e] eqn:Ha; cbn [bind list_first].
    + exists [], text, texts. split; [reflexivity|]. split; [intros ? []|auto].
    + match goal with
      | |- context [for_each _ texts (results0 ++ [?r])] =>
          specialize (IH (results0 ++ [r])); set (new := r) in *
      end.
      destruct (for_each (sentiment_step utcnow analyzer) texts (results0 ++ [new]))
        as [results|e].
      * destruct IH as (added & -> & Hall). exists (new :: added).
        split; [now rewrite <- app_assoc|]. constructor; [|exact Hall].
        subst new. unfold result_of. cbn.
        destruct (str_slice_to_prefix 500 text) as [Hp Hl].
        split; [exact Hp|]. split; [exact Hl|].
        split; [exists prediction, rest; auto|apply label_map_scores].
      * destruct IH as (before & t & after & -> & Hb & Ht).
        exists (text :: before), t, after. split; [reflexivity|].
        split; [|exact Ht]. intros t' [<-|Hin]; [eauto|now apply Hb].
    + exists [], text, texts. split; [reflexivity|]. split; [intros ? []|auto].
Qed.

(** X24.  What [analyze_sentiment] returns: one result per text, in the
    order of the texts; the text of a result is the first 500 characters of
    its text, counted as Python counts them, by code point, or the whole text
    when it is shorter; its label and confidence are those of the first
    prediction of the pipeline for that text; and its score is 1 for the
    label "positive", -1 for "negative" and 0 for "neutral" and for every
    other label. *)
Theorem analyze_sentiment_results (sentiment_analyzer : option SentimentAnalyzer)
    (texts : list pystr) (results : list SentimentResult.t) :
  snd (analyze_sentiment load_pipeline utcnow sentiment_analyzer texts) = Ok results ->
  exists analyzer,
    fst (analyze_sentiment load_pipeline utcnow sentiment_analyzer texts)
    = Some analyzer
    /\ Forall2 (result_of analyzer) texts results
    /\ length results = length texts.
Proof.
  unfold analyze_sentiment, get_sentiment_analyzer.
  assert (Hloop : forall analyzer,
             for_each (sentiment_step utcnow analyzer) texts [] = Ok results ->
             Forall2 (result_of analyzer) texts results
             /\ length results = length texts).
  { intros analyzer H. pose proof (sentiment_loop analyzer texts []) as Hl.
    rewrite H in Hl. destruct Hl as (added & -> & Hall). cbn [app].
    split; [exact Hall|]. symmetry. exact (Forall2_length Hall). }
  destruct sentiment_analyzer as [analyzer|];
    [|destruct (load_pipeline model_name) as [analyzer|e]];
    cbn [fst snd bind try_except]; try discriminate;
    (destruct (for_each (sentiment_step utcnow analyzer) texts []) as [out|e] eqn:H;
     cbn [try_except]; [|discriminate]);
    intros [= ->]; exists analyzer; (split; [reflexivity|now apply Hloop]).
Qed.

(** The pipeline is loaded on first use and kept: with a pipeline in
    place the loader plays no part and the pipeline stays; without one, a
    loader that fails makes the call fail with its message, for an empty
    list of texts as well, and leaves no pipeline, so that the next call loads
    again; a loader that succeeds leaves its pipeline in place and the call
    answers as a call with that pipeline already in place. *)
Lemma sentiment_analyzer_loaded_once (texts : list pystr) :
  (forall analyzer,
      fst (analyze_sentiment load_pipeline utcnow (Some analyzer) texts) = Some analyzer
      /\ forall other_loader,
           analyze_sentiment other_loader utcnow (Some analyzer) texts
           = analyze_sentiment load_pipeline utcnow (Some analyzer) texts)
  /\ (forall e,
         load_pipeline model_name = Raise e ->
         analyze_sentiment load_pipeline utcnow None texts
         = (None, Raise (Exception ("Error analyzing sentiment: " ++ str_exn e))))
  /\ (forall analyzer,
         load_pipeline model_name = Ok analyzer ->
         analyze_sentiment load_pipeline utcnow None texts
         = analyze_sentiment load_pipeline utcnow (Some analyzer) texts).
Proof.
  unfold analyze_sentiment, get_sentiment_analyzer.
  split; [intros analyzer; split; [reflexivity|reflexivity]|].
  split; [intros e ->; reflexivity|intros analyzer ->; reflexivity].
Qed.

(** X25.  [analyze_sentiment] gives all the results or none: with a pipeline
    in place it succeeds exactly when the pipeline gives every text at least
    one prediction; otherwise the results of the texts before the first one
    that fails are lost and the call raises [Exception] with the message
    "Error analyzing sentiment: " followed by the message of the pipeline,
    or by "list index out of range" when the pipeline gave no prediction. *)
Theorem analyze_sentiment_all_or_nothing (analyzer : SentimentAnalyzer)
    (texts : list pystr) :
  ((exists results,
       snd (analyze_sentiment load_pipeline utcnow (Some analyzer) texts) = Ok results)
   <-> forall text, In text texts ->
                    exists prediction rest, analyzer text = Ok (prediction :: rest))
  /\ (forall e,
         snd (analyze_sentiment load_pipeline utcnow (Some analyzer) texts) = Raise e ->
         exists before text after,
           texts = before ++ text :: after
           /\ (forall t, In t before ->
                         exists prediction rest, analyzer t = Ok (prediction :: rest))
           /\ ((exists cause, analyzer text = Raise cause
                              /\ e = Exception ("Error analyzing sentiment: "
                                                ++ str_exn cause))
               \/ (analyzer text = Ok []
                   /\ e = Exception
                            "Error analyzing sentiment: list index out of range"))).
Proof.
  unfold analyze_sentiment, get_sentiment_analyzer. cbn [fst snd bind].
  pose proof (sentiment_loop analyzer texts []) as Hl.
  destruct (for_each (sentiment_step utcnow analyzer) texts []) as [results|cause];
    cbn [try_except].
  - destruct Hl as (added & -> & Hall). split; [|discriminate].
    split; [|eauto]. intros _ text Hin.
    destruct (Forall2_in_left _ _ _ _ Hall Hin) as (r & _ & _ & _ & (p & rest & Hp & _) & _).
    now exists p, rest.
  - destruct Hl as (before & text & after & -> & Hb & Ht). split.
    + split; [intros [r Hr]; discriminate|]. intros Hall. exfalso.
      destruct (Hall text) as (p & rest & Hp); [apply in_or_app; right; now left|].
      destruct Ht as [Ht|[Ht _]]; congruence.
    + intros e [= <-]. exists before, text, after. split; [reflexivity|].
      split; [exact Hb|].
      destruct Ht as [Ht|[Ht ->]]; [left; now exists cause|right; auto].
Qed.

End SentimentProperties.

Lemma analyze_sentiment_results_witness :
  exists results,
    snd (analyze_sentiment (fun _ => Ok sample_analyzer) 77 None sample_texts)
    = Ok results
    /\ map SentimentResult.sentiment_score results = [1; -1; 0; 1]
    /\ map (fun r => length (SentimentResult.text r)) results
       = [9; 12; 1; 500]%nat
    /\ Forall2 (result_of sample_analyzer) sample_texts results.
Proof.
  destruct (snd (analyze_sentiment (fun _ => Ok sample_analyzer) 77 None
                   sample_texts)) as [results|e] eqn:H.
  - exists results. split; [reflexivity|].
    split; [vm_compute in H; injection H as <-; reflexivity|].
    split; [vm_compute in H; injection H as <-; reflexivity|].
    destruct (analyze_sentiment_results (fun _ => Ok sample_analyzer) 77 None
                sample_texts results H) as (analyzer & Hstate & Hall & _).
    cbn in Hstate. injection Hstate as <-. exact Hall.
  - exfalso. vm_compute in H. discriminate H.
Defined.

(** ** The theorems above on the sample data *)

Ltac sample_rows H :=
  cbn in H; repeat (destruct H as [H|H]; [subst; cbn in *|]); try contradiction.

Lemma latest_risk_analysis_errors_witness :
  get_latest_risk_analysis sample_database 3 user7
  = Raise (HTTPException 404 "Portfolio not found")
  /\ get_latest_risk_analysis sample_database 2 user7
     = Raise (HTTPException 404 "No risk analysis found for this portfolio").
Proof.
  split.
  - apply (proj2 (proj1 (latest_risk_analysis_errors sample_database 3 user7))).
    intros (p & Hin & Hid & Hown). sample_rows Hin; discriminate.
  - apply (proj2 (proj1 (proj2 (latest_risk_analysis_errors sample_database 2 user7)))).
    split.
    + exists (sample_portfolio 2 7 "Income"). cbn. tauto.
    + intros r Hin. sample_rows Hin; discriminate.
Defined.

Lemma compare_portfolio_risks_outcomes_witness :
  exists before portfolio_id after,
    [1; 3; 2]%Z = before ++ portfolio_id :: after
    /\ compare_portfolio_risks sample_database [1; 3; 2]%Z user7
       = Raise (HTTPException 404
                  ("Portfolio with ID " ++ string_of_Z portfolio_id ++ " not found")).
Proof.
  destruct (proj1 (proj2 (compare_portfolio_risks_outcomes sample_database
                            [1; 3; 2]%Z user7)))
    as (before & portfolio_id & after & Hids & _ & _ & Hraise).
  - cbn. lia.
  - exists 3%Z. split; [cbn; tauto|].
    intros (p & Hin & Hid & Hown). sample_rows Hin; discriminate.
  - now exists before, portfolio_id, after.
Defined.

Lemma delete_holding_own_portfolio_witness :
  snd (delete_holding sample_database 1 100 user7) = Ok tt
  /\ fst (delete_holding sample_database 1 102 user7) = sample_database.
Proof.
  split.
  - apply (proj2 (proj1 (delete_holding_own_portfolio sample_database 1 100 user7))).
    split.
    + exists (sample_portfolio 1 7 "Growth"). cbn. tauto.
    + exists (sample_holding 100 1 10 2 90). cbn. tauto.
  - apply (proj2 (proj2 (delete_holding_own_portfolio sample_database 1 102 user7))).
    cbn. discriminate.
Defined.

Lemma summary_agrees_with_endpoints_witness :
  exists summary_,
    get_portfolio_summary sample_database 1 user7 = Ok summary_
    /\ read_holdings sample_database 1 user7 = Ok (summary_holdings summary_).
Proof.
  pose proof (summary_agrees_with_endpoints sample_database 1 user7) as H.
  destruct (get_portfolio_summary sample_database 1 user7) as [summary_|e] eqn:Hs.
  - exists summary_. split; [reflexivity|exact (proj1 H)].
  - exfalso. vm_compute in Hs. discriminate Hs.
Defined.

Lemma summary_ignores_unpriced_witness :
  fmap (fun s => (summary_total_value s, overall_return s, overall_return_percent s))
       (get_portfolio_summary
          (with_holdings sample_database
             [ sample_holding 100 1 10 2 90; sample_holding 101 1 11 4 55;
               sample_holding 102 3 10 1 100 ]) 1 user7)
  = fmap (fun s => (summary_total_value s, overall_return s, overall_return_percent s))
         (get_portfolio_summary sample_database 1 user7).
Proof.
  exact (proj1 (summary_ignores_unpriced sample_database 1 user7)).
Defined.

Lemma analyze_portfolio_risk_rejections_witness :
  analyze_portfolio_risk (fun _ => Ok flat_prices) (fun _ => Ok flat_prices)
    (fun _ => Ok []) 0 (session_of sample_database) 2 0.95 user7
  = Raise (HTTPException 400 "Portfolio has no holdings")
  /\ analyze_portfolio_risk (fun _ => Ok flat_prices) (fun _ => Ok flat_prices)
       (fun _ => Ok []) 0
       (session_of (with_holdings sample_database [sample_holding 103 1 12 5 10]))
       1 0.95 user7
     = Raise (HTTPException 400 "No valid stocks in portfolio").
Proof.
  split.
  - apply (proj2 (proj1 (proj2 (analyze_portfolio_risk_rejections
                                  (fun _ => Ok flat_prices) (fun _ => Ok flat_prices)
                                  (fun _ => Ok []) 0 (session_of sample_database)
                                  2 0.95 user7)))).
    split; [|reflexivity].
    exists {| models.Portfolio.id := 2; models.Portfolio.owner_id := 7 |}.
    cbn. tauto.
  - apply (proj2 (proj1 (proj2 (proj2
             (analyze_portfolio_risk_rejections
                (fun _ => Ok flat_prices) (fun _ => Ok flat_prices)
                (fun _ => Ok []) 0
                (session_of (with_holdings sample_database
                               [sample_holding 103 1 12 5 10]))
                1 0.95 user7))))).
    split; [|split; [discriminate|reflexivity]].
    exists {| models.Portfolio.id := 1; models.Portfolio.owner_id := 7 |}.
    cbn. tauto.
Defined.

Lemma generate_recommendations_failures_witness :
  (exists r, generate_recommendations mixed_returns [0.15] ["LOSS"; "GAIN"] 5 = Ok r)
  /\ exists i sym,
       nth_error ["GAIN"; "LOSS"] i = Some sym
       /\ generate_recommendations mixed_returns [0.85] ["GAIN"; "LOSS"] 5
          = Raise (IndexError "index 1 is out of bounds for axis 0 with size 1").
Proof.
  split.
  - apply (proj2 (proj2 (generate_recommendations_failures
                           mixed_returns [0.15] ["LOSS"; "GAIN"] 5))).
    intros [|[|[|i]]] sym Hnth; cbn in Hnth; try discriminate;
      injection Hnth as <-; eexists; (split; [reflexivity|]).
    + intros _. cbn. lia.
    + intros H. exfalso. vm_compute in H. discriminate H.
  - destruct (proj1 (generate_recommendations_failures
                       mixed_returns [0.85] ["GAIN"; "LOSS"] 5)
                (IndexError "index 1 is out of bounds for axis 0 with size 1"))
      as (i & sym & Hnth & _).
    + vm_compute. reflexivity.
    + exists i, sym. split; [exact Hnth|]. vm_compute. reflexivity.
Defined.

Lemma analyze_sentiment_all_or_nothing_witness :
  snd (analyze_sentiment (fun _ => Ok sample_analyzer) 77 (Some sample_analyzer)
         [pystr_of_string "profit up"; []; pystr_of_string "loss widened"])
  = Raise (Exception "Error analyzing sentiment: list index out of range").
Proof.
  destruct (snd (analyze_sentiment (fun _ => Ok sample_analyzer) 77
                   (Some sample_analyzer)
                   [pystr_of_string "profit up"; []; pystr_of_string "loss widened"]))
    as [results|e] eqn:H.
  - exfalso. vm_compute in H. discriminate H.
  - destruct (proj2 (analyze_sentiment_all_or_nothing
                       (fun _ => Ok sample_analyzer) 77 sample_analyzer
                       [pystr_of_string "profit up"; [];
                        pystr_of_string "loss widened"]) e H)
      as (before & text & after & _ & _ & Hcause).
    destruct Hcause as [(cause & Hc & _)|[_ ->]]; [exfalso|reflexivity].
    unfold sample_analyzer in Hc.
    destruct text as [|c [|c' text]]; try discriminate Hc.
    destruct (pystr_eqb _ _); discriminate Hc.
Defined.
